(** * Order-sizing and submission pipeline of the TradingView webhook bot

    A shallow embedding of [app.py]: the Flask handler [webhook], the
    precision resolver [get_symbol_info], the quantity rounder [round_step]
    and the notifier [send_discord].

    Python floats are IEEE 754 binary64 numbers: they are modelled by Rocq's
    primitive [float], whose operations are specified by [SpecFloat].
    Python exceptions are values of type [exn]; an expression that may raise
    has type [result A].  A function with effects (logging, calls to the
    exchange client, HTTP posts) runs in the monad [M], which records the
    effects in order, also those that precede a raised exception. *)

From Stdlib Require Import ZArith Floats String Ascii List Bool Lia Psatz DecimalString.
From Stdlib Require Import Reals Lra.
Import ListNotations.

Local Open Scope string_scope.
Local Open Scope Z_scope.

(* A decimal literal denotes the nearest binary64 number, as in Python. *)
Set Warnings "-register-all,-inexact-float".

(** ** Python values and exceptions *)

(** The values a JSON document decodes to ([json.loads], [request.get_json],
    the exchange connector's decoded replies).  A [dict] is kept as the list
    of its items in insertion order; its keys are strings. *)
Inductive pyval : Type :=
| PNone
| PBool (b : bool)
| PInt (n : Z)
| PFloat (x : float)
| PStr (s : string)
| PList (l : list pyval)
| PDict (items : list (string * pyval)).

(** The built-in exception classes the handler can meet. *)
Inductive builtin_error : Type :=
| ZeroDivisionError | ValueError | TypeError | OverflowError
| AttributeError | KeyError | IndexError.

(** The data of a [binance.error.ClientError], the class that line 7
    imports from the exchange connector.  The class is not defined in the
    repository; its constructor sets these five attributes and no other. *)
Record client_error : Type := {
  status_code : Z;
  error_code : Z;
  error_message : string;
  header : pyval;
  error_data : pyval
}.

(** Exceptions, all of them subclasses of [Exception]:
    - [ClientError ce]: a [binance.error.ClientError];
    - [Builtin c]: raised by the interpreter itself;
    - [OtherError msg]: any other exception raised by a collaborator (the
      HTTP layer, the exchange connector, [requests]). *)
Inductive exn : Type :=
| ClientError (ce : client_error)
| Builtin (c : builtin_error)
| OtherError (msg : string).

Inductive result (A : Type) : Type :=
| Return (a : A)
| Raise (e : exn).
Arguments Return {A} a.
Arguments Raise {A} e.

Definition rbind {A B} (r : result A) (f : A -> result B) : result B :=
  match r with
  | Return a => f a
  | Raise e => Raise e
  end.

Declare Scope result_scope.
Delimit Scope result_scope with result.
Notation "x <- c ;; k" := (rbind c (fun x => k))
  (at level 100, c at next level, right associativity) : result_scope.

(** ** Built-in operations of the interpreter *)

Definition nl : string := String (ascii_of_nat 10) EmptyString.

(** [str(n)] for an [int]. *)
Definition str_int (n : Z) : string := NilZero.string_of_int (Z.to_int n).

(** Truth value of an object, as tested by [not data] and [if embeds]. *)
Definition truthy (v : pyval) : bool :=
  match v with
  | PNone => false
  | PBool b => b
  | PInt n => negb (n =? 0)
  | PFloat x => negb (PrimFloat.eqb x 0%float)
  | PStr s => negb (String.eqb s EmptyString)
  | PList l => match l with [] => false | _ => true end
  | PDict d => match d with [] => false | _ => true end
  end.

Fixpoint lookup (d : list (string * pyval)) (k : string) : option pyval :=
  match d with
  | [] => None
  | (k', v) :: d' => if String.eqb k' k then Some v else lookup d' k
  end.

(** [obj.get(key, default)]: only a [dict] has the method. *)
Definition py_get (obj : pyval) (key : string) (default : pyval) : result pyval :=
  match obj with
  | PDict d => Return (match lookup d key with Some v => v | None => default end)
  | _ => Raise (Builtin AttributeError)
  end.

(** Code points of a UTF-8 string: a character starts at every byte that is
    not a continuation byte (10xxxxxx). *)
Definition is_continuation (c : ascii) : bool :=
  let n := N_of_ascii c in (128 <=? n)%N && (n <? 192)%N.

Fixpoint chars_from (cur : string) (s : string) : list string :=
  match s with
  | EmptyString => [cur]
  | String c s' =>
      if is_continuation c then chars_from (cur ++ String c EmptyString) s'
      else cur :: chars_from (String c EmptyString) s'
  end.

Definition chars (s : string) : list string :=
  match s with
  | EmptyString => []
  | String c s' => chars_from (String c EmptyString) s'
  end.

(** [obj[key]] with a string key. *)
Definition getitem_str (obj : pyval) (key : string) : result pyval :=
  match obj with
  | PDict d => match lookup d key with
               | Some v => Return v
               | None => Raise (Builtin KeyError)
               end
  | _ => Raise (Builtin TypeError)
  end.

(** [obj[i]] with a non-negative integer literal. *)
Definition getitem_int (obj : pyval) (i : nat) : result pyval :=
  match obj with
  | PList l => match nth_error l i with
               | Some v => Return v
               | None => Raise (Builtin IndexError)
               end
  | PStr s => match nth_error (chars s) i with
              | Some c => Return (PStr c)
              | None => Raise (Builtin IndexError)
              end
  | PDict _ => Raise (Builtin KeyError)
  | _ => Raise (Builtin TypeError)
  end.

(** The elements a [for] loop visits. *)
Definition py_iter (obj : pyval) : result (list pyval) :=
  match obj with
  | PList l => Return l
  | PDict d => Return (map (fun kv => PStr (fst kv)) d)
  | PStr s => Return (map PStr (chars s))
  | _ => Raise (Builtin TypeError)
  end.

(** [obj == s] for a string [s]: no JSON value other than an equal string
    compares equal to a string. *)
Definition eq_str (obj : pyval) (s : string) : bool :=
  match obj with
  | PStr s' => String.eqb s' s
  | _ => false
  end.

(** [e.name] for a [ClientError] [e] and the name of a data attribute:
    the five that the constructor sets are there, any other name raises
    [AttributeError]. *)
Definition getattr_client_error (ce : client_error) (name : string) : result pyval :=
  if String.eqb name "status_code" then Return (PInt (status_code ce))
  else if String.eqb name "error_code" then Return (PInt (error_code ce))
  else if String.eqb name "error_message" then Return (PStr (error_message ce))
  else if String.eqb name "header" then Return (header ce)
  else if String.eqb name "error_data" then Return (error_data ce)
  else Raise (Builtin AttributeError).

(** ** Floating-point arithmetic *)

(** [float(n)] for an [int]: the nearest binary64 number (ties to even);
    [OverflowError] when it would not be finite. *)
Definition float_of_int (n : Z) : result float :=
  let x := SF2Prim (binary_normalize prec emax n 0 false) in
  if PrimFloat.is_infinity x then Raise (Builtin OverflowError) else Return x.

(** [x / y] on floats. *)
Definition truediv (x y : float) : result float :=
  if PrimFloat.eqb y 0%float then Raise (Builtin ZeroDivisionError)
  else Return (x / y)%float.

(** The integer nearest to [m * 2^e], ties to the even one. *)
Definition round_half_even (m e : Z) : Z :=
  if 0 <=? e then m * 2 ^ e
  else
    let d := 2 ^ (- e) in
    let q := m / d in
    let r := m mod d in
    if 2 * r <? d then q
    else if d <? 2 * r then q + 1
    else if Z.even q then q else q + 1.

(** [round(x)] with one argument: an [int]. *)
Definition py_round (x : float) : result Z :=
  match Prim2SF x with
  | S754_zero _ => Return 0
  | S754_infinity _ => Raise (Builtin OverflowError)
  | S754_nan => Raise (Builtin ValueError)
  | S754_finite s m e =>
      let n := round_half_even (Z.pos m) e in
      Return (if s then - n else n)
  end.

(** [n * x] for an [int] and a [float]: the [int] is converted first. *)
Definition int_mul_float (n : Z) (x : float) : result float :=
  (n' <- float_of_int n ;; Return (n' * x)%float)%result.

(** ** The interpreter's text functions

    Four functions of the Python runtime that the source calls and that are
    not arithmetic are kept abstract: any implementation of them gives a
    model of the handler, and every theorem below holds for all of them. *)
Class PyRuntime : Type := {
  (** [s.upper()] *)
  str_upper : string -> string;
  (** [float(s)] for a string: [None] when it raises [ValueError] *)
  float_of_str : string -> option float;
  (** the text an f-string puts for a value: [f"{v}"] *)
  format : pyval -> string;
  (** [str(e)] for an exception *)
  str_exn : exn -> string
}.

Section Runtime.

Context {RT : PyRuntime}.

(** [obj.upper()]: only a string has the method. *)
Definition py_upper (obj : pyval) : result string :=
  match obj with
  | PStr s => Return (str_upper s)
  | _ => Raise (Builtin AttributeError)
  end.

(** [float(obj)]. *)
Definition py_float (obj : pyval) : result float :=
  match obj with
  | PFloat x => Return x
  | PInt n => float_of_int n
  | PBool b => Return (if b then 1%float else 0%float)
  | PStr s => match float_of_str s with
              | Some x => Return x
              | None => Raise (Builtin ValueError)
              end
  | PNone | PList _ | PDict _ => Raise (Builtin TypeError)
  end.

(** [data.get(key, default).upper()] *)
Definition field_upper (data : pyval) (key default : string) : result string :=
  (v <- py_get data key (PStr default) ;; py_upper v)%result.

(** [float(data.get(key))] *)
Definition field_float (data : pyval) (key : string) : result float :=
  (v <- py_get data key PNone ;; py_float v)%result.

(** ** Collaborators and effects *)

(** What the collaborators answer during one request, and the process
    configuration read at start-up. *)
Record world : Type := {
  (** [request.get_json()] *)
  request_get_json : result pyval;
  (** [os.getenv("DISCORD_WEBHOOK_URL")] *)
  DISCORD_WEBHOOK_URL : option string;
  (** [client.exchange_info()] *)
  client_exchange_info : result pyval;
  (** [client.new_order(symbol=, side=, type=, quantity=)] *)
  client_new_order : string -> string -> string -> float -> result pyval;
  (** [requests.post(url, json=, timeout=)]; the reply is not read *)
  requests_post : string -> pyval -> Z -> result unit
}.

Inductive log_level : Type := INFO | WARNING | ERROR.

(** The observable effects of a request, in the order they happen. *)
Inductive event : Type :=
| Log (level : log_level) (msg : string)
| ExchangeInfo
| NewOrder (symbol side type : string) (quantity : float)
| SendDiscord (message : string) (embeds : option (list pyval))
| Post (url : string) (payload : pyval) (timeout : Z).

(** A computation with effects: its outcome and the events it produced. *)
Definition M (A : Type) : Type := result A * list event.

Definition ret {A} (a : A) : M A := (Return a, []).

Definition bind {A B} (m : M A) (f : A -> M B) : M B :=
  match m with
  | (Return a, t) => let (r, t') := f a in (r, (t ++ t')%list)
  | (Raise e, t) => (Raise e, t)
  end.

(** An expression without effects, inside a computation. *)
Definition lift {A} (r : result A) : M A := (r, []).

Definition emit (e : event) : M unit := (Return tt, [e]).

(** A call to a collaborator: the event, then its answer. *)
Definition call {A} (e : event) (answer : result A) : M A := (answer, [e]).

(** [try: m except Exception as e: h e]. *)
Definition try_except {A} (m : M A) (h : exn -> M A) : M A :=
  match m with
  | (Return a, t) => (Return a, t)
  | (Raise e, t) => let (r, t') := h e in (r, (t ++ t')%list)
  end.

Declare Scope py_scope.
Delimit Scope py_scope with py.
Notation "x <- c ;; k" := (bind c (fun x => k))
  (at level 100, c at next level, right associativity) : py_scope.
Notation "c ;;; k" := (bind c (fun _ => k))
  (at level 100, right associativity) : py_scope.

Definition logger (level : log_level) (msg : string) : M unit := emit (Log level msg).

(** ** The program *)

Definition response : Type := pyval * Z.

Definition jsonify (d : list (string * pyval)) : pyval := PDict d.

Definition default_precision : float * float := (0.001, 0.01)%float.

Section Handler.

Variable w : world.

(** [send_discord(message, embeds)].  The event [SendDiscord] marks the
    call; [None] stands for the default argument. *)
Definition send_discord (message : string) (embeds : option (list pyval)) : M unit :=
  (emit (SendDiscord message embeds) ;;;
   match DISCORD_WEBHOOK_URL w with
   | None | Some EmptyString =>
       logger WARNING "Discord Webhook URL 未設定"
   | Some url =>
       let payload := [("content", PStr message)] in
       let payload :=
         match embeds with
         | Some (e :: es) => (payload ++ [("embeds", PList (e :: es))])%list
         | _ => payload
         end in
       try_except
         (_ <- call (Post url (PDict payload) 5) (requests_post w url (PDict payload) 5) ;;
          ret tt)
         (fun e => logger ERROR ("Discord 發送失敗: " ++ str_exn e))
   end)%py.

(** The loop of [get_symbol_info] over [info['symbols']]: the first entry
    whose symbol matches decides; the default pair when none does. *)
Fixpoint scan_symbols (symbol : string) (symbols : list pyval) : result (float * float) :=
  match symbols with
  | [] => Return default_precision
  | s :: rest =>
      (name <- getitem_str s "symbol" ;;
       if eq_str name symbol then
         filters <- getitem_str s "filters" ;;
         lot <- getitem_int filters 1 ;;
         v <- getitem_str lot "stepSize" ;;
         step_size <- py_float v ;;
         filters <- getitem_str s "filters" ;;
         price <- getitem_int filters 0 ;;
         v <- getitem_str price "tickSize" ;;
         tick_size <- py_float v ;;
         Return (step_size, tick_size)
       else scan_symbols symbol rest)%result
  end.

(** The statements of [get_symbol_info] that follow the call to the
    exchange: they read the decoded reply [info]. *)
Definition read_symbol_info (info : pyval) (symbol : string) : result (float * float) :=
  (symbols <- getitem_str info "symbols" ;;
   l <- py_iter symbols ;;
   scan_symbols symbol l)%result.

(** [get_symbol_info(symbol)]. *)
Definition get_symbol_info (symbol : string) : M (float * float) :=
  try_except
    (info <- call ExchangeInfo (client_exchange_info w) ;;
     lift (read_symbol_info info symbol))%py
    (fun e =>
       (logger ERROR ("獲取 " ++ symbol ++ " 資訊失敗: " ++ str_exn e) ;;;
        ret default_precision)%py).

(** [round_step(value, step)]. *)
Definition round_step (value step : float) : result float :=
  (q <- truediv value step ;;
   n <- py_round q ;;
   int_mul_float n step)%result.

Definition side_ok (side : string) : bool :=
  String.eqb side "BUY" || String.eqb side "SELL".

(** The body of the [try] statement of [webhook]. *)
Definition webhook_try : M response :=
  (data <- lift (request_get_json w) ;;
   if negb (truthy data) then
     ret (jsonify [("error", PStr "無 JSON 資料")], 400)
   else
   logger INFO ("收到警報: " ++ format data) ;;;
   symbol <- lift (field_upper data "symbol" "BTCUSDT") ;;
   side <- lift (field_upper data "side" EmptyString) ;;
   entry <- lift (field_float data "entry") ;;
   sl <- lift (field_float data "sl") ;;
   tp1 <- lift (field_float data "tp1") ;;
   tp2 <- lift (field_float data "tp2") ;;
   if negb (side_ok side) then
     ret (jsonify [("error", PStr "side 必須是 BUY 或 SELL")], 400)
   else
   precision <- get_symbol_info symbol ;;
   let (step_size, tick_size) := precision in
   let price := entry in
   let notional := 10%float in
   quantity <- lift (truediv notional price) ;;
   quantity <- lift (round_step quantity step_size) ;;
   if PrimFloat.leb quantity 0%float then
     ret (jsonify [("error", PStr "計算出的數量 <= 0")], 400)
   else
   order <- call (NewOrder symbol side "MARKET" quantity)
                 (client_new_order w symbol side "MARKET" quantity) ;;
   logger INFO ("開倉成功: " ++ format order) ;;;
   let embed := PDict
     [("title", PStr ("🚀 自動開倉 - " ++ symbol));
      ("description",
       PStr ("方向: " ++ (if String.eqb side "BUY" then "多" else "空") ++ nl ++
             "數量: " ++ format (PFloat quantity) ++ nl ++
             "進場: " ++ format (PFloat entry) ++ nl ++
             "止損: " ++ format (PFloat sl) ++ nl ++
             "TP1: " ++ format (PFloat tp1) ++ nl ++
             "TP2: " ++ format (PFloat tp2)));
      ("color", PInt (if String.eqb side "BUY" then 65280 else 16711680))] in
   send_discord EmptyString (Some [embed]) ;;;
   ret (jsonify [("status", PStr "success"); ("order", order)], 200))%py.

(** The two [except] clauses of [webhook]: [ClientError] first, then
    [Exception].  The f-string of the first clause reads [e.message], then
    [e.code]; an exception raised inside an [except] clause is not caught
    by the clause that follows it. *)
Definition webhook_except (e : exn) : M response :=
  match e with
  | ClientError ce =>
      (message <- lift (getattr_client_error ce "message") ;;
       code <- lift (getattr_client_error ce "code") ;;
       let error_msg :=
         "Binance API 錯誤: " ++ format message ++ " (code: " ++ format code ++ ")" in
       logger ERROR error_msg ;;;
       send_discord ("❌ 開倉失敗: " ++ error_msg) None ;;;
       ret (jsonify [("error", PStr error_msg)], 400))%py
  | _ =>
      let error_msg := "未知錯誤: " ++ str_exn e in
      (logger ERROR error_msg ;;;
       send_discord ("❌ 系統錯誤: " ++ error_msg) None ;;;
       ret (jsonify [("error", PStr error_msg)], 500))%py
  end.

(** [POST /webhook]. *)
Definition webhook : M response := try_except webhook_try webhook_except.

(** [GET /health]. *)
Definition health : M response := ret (jsonify [("status", PStr "OK")], 200).

End Handler.

End Runtime.

(** ** Observations on a run *)

Definition is_order (e : event) : bool :=
  match e with NewOrder _ _ _ _ => true | _ => false end.

Definition is_notification (e : event) : bool :=
  match e with SendDiscord _ _ => true | _ => false end.

Definition is_post (e : event) : bool :=
  match e with Post _ _ _ => true | _ => false end.

(** The order calls, the calls to [send_discord] and the HTTP posts of a
    trace, in order. *)
Definition orders (t : list event) : list event := filter is_order t.
Definition notifications (t : list event) : list event := filter is_notification t.
Definition posts (t : list event) : list event := filter is_post t.

(** A trace with no order call and no notification. *)
Definition quiet (t : list event) : Prop := orders t = [] /\ notifications t = [].

(** ** The stages of the handler, as functions of the request

    The alert of section 3 of the specification and the two pure stages of
    [webhook]: the extraction of the six fields (lines 63-68) and the order
    sizer (lines 77-80).  [webhook_try] is proved below to run them. *)

Record alert : Type := {
  symbol : string;
  side : string;
  entry : float;
  sl : float;
  tp1 : float;
  tp2 : float
}.

Definition notional : float := 10%float.

Section Stages.

Context {RT : PyRuntime}.

Definition parse_alert (data : pyval) : result alert :=
  (symbol <- field_upper data "symbol" "BTCUSDT" ;;
   side <- field_upper data "side" EmptyString ;;
   entry <- field_float data "entry" ;;
   sl <- field_float data "sl" ;;
   tp1 <- field_float data "tp1" ;;
   tp2 <- field_float data "tp2" ;;
   Return {| symbol := symbol; side := side; entry := entry;
             sl := sl; tp1 := tp1; tp2 := tp2 |})%result.

Definition size (entryPrice notional stepSize : float) : result float :=
  (quantity_raw <- truediv notional entryPrice ;;
   round_step quantity_raw stepSize)%result.

(** The text, the response and the notification of the catch-all
    clause. *)
Definition unknown_error_msg (e : exn) : string := "未知錯誤: " ++ str_exn e.

Definition error_response (e : exn) : response :=
  (jsonify [("error", PStr (unknown_error_msg e))], 500).

Definition failure_notice (e : exn) : event :=
  SendDiscord ("❌ 系統錯誤: " ++ unknown_error_msg e) None.

(** The embed of a success notification. *)
Definition success_embed (a : alert) (quantity : float) : pyval :=
  PDict
    [("title", PStr ("🚀 自動開倉 - " ++ symbol a));
     ("description",
      PStr ("方向: " ++ (if String.eqb (side a) "BUY" then "多" else "空") ++ nl ++
            "數量: " ++ format (PFloat quantity) ++ nl ++
            "進場: " ++ format (PFloat (entry a)) ++ nl ++
            "止損: " ++ format (PFloat (sl a)) ++ nl ++
            "TP1: " ++ format (PFloat (tp1 a)) ++ nl ++
            "TP2: " ++ format (PFloat (tp2 a))));
     ("color", PInt (if String.eqb (side a) "BUY" then 65280 else 16711680))].

(** The request body decodes to the JSON value [data], whose fields are
    those of the alert [a]. *)
Definition received (w : world) (data : pyval) (a : alert) : Prop :=
  request_get_json w = Return data /\ parse_alert data = Return a.

(** The responses and log entries of the handler. *)
Definition no_json_response : response :=
  (jsonify [("error", PStr "無 JSON 資料")], 400).
Definition bad_side_response : response :=
  (jsonify [("error", PStr "side 必須是 BUY 或 SELL")], 400).
Definition bad_quantity_response : response :=
  (jsonify [("error", PStr "計算出的數量 <= 0")], 400).
Definition success_response (order : pyval) : response :=
  (jsonify [("status", PStr "success"); ("order", order)], 200).

Definition alert_log (data : pyval) : event := Log INFO ("收到警報: " ++ format data).

Definition error_log (e : exn) : event := Log ERROR (unknown_error_msg e).

Definition is_client_error (e : exn) : bool :=
  match e with ClientError _ => true | _ => false end.

(** What the two [except] clauses make of an exception of the [try]
    block: the first raises on the [ClientError] it is given, the second
    answers any other exception. *)
Definition except_result (e : exn) : result response :=
  if is_client_error e then Raise (Builtin AttributeError)
  else Return (error_response e).

(** The notifications they send. *)
Definition except_notices (e : exn) : list event :=
  if is_client_error e then [] else [failure_notice e].

(** A response body with an [error] field. *)
Definition has_error (body : pyval) : Prop :=
  exists msg, getitem_str body "error" = Return (PStr msg).


End Stages.

(** ** A runtime and collaborators for concrete runs

    [demo_runtime] implements the interpreter's text functions on the inputs
    of the concrete runs below: [upper] on ASCII letters, and [float] on
    plain decimal numerals ([digits] or [digits.digits], correctly rounded);
    it rejects every other string.  The texts it gives for values and
    exceptions are short stand-ins. *)

Definition ascii_upper (c : ascii) : ascii :=
  let n := N_of_ascii c in
  if ((97 <=? n) && (n <=? 122))%N then ascii_of_N (n - 32) else c.

Fixpoint string_map (f : ascii -> ascii) (s : string) : string :=
  match s with
  | EmptyString => EmptyString
  | String c s' => String (f c) (string_map f s')
  end.

Definition digit_of (c : ascii) : option Z :=
  let n := Z.of_N (N_of_ascii c) in
  if (48 <=? n) && (n <=? 57) then Some (n - 48) else None.

(** The digits read so far as a number, and how many of them follow the
    point. *)
Fixpoint read_digits (s : string) (acc : Z) (frac : option Z) : option (Z * Z) :=
  match s with
  | EmptyString => Some (acc, match frac with Some k => k | None => 0 end)
  | String c s' =>
      match digit_of c with
      | Some d => read_digits s' (10 * acc + d) (option_map Z.succ frac)
      | None =>
          match frac with
          | None => if Ascii.eqb c "." then read_digits s' acc (Some 0) else None
          | Some _ => None
          end
      end
  end.

(** The binary64 number nearest to [n / d], for positive [n] and [d]. *)
Definition ratio_to_float (n d : Z) : float :=
  let '(q, e, l) := SFdiv_core_binary prec emax n 0 d 0 in
  SF2Prim (binary_round_aux prec emax false q e l).

Definition decimal_to_float (s : string) : option float :=
  match s with
  | EmptyString => None
  | String c _ =>
      match digit_of c, read_digits s 0 None with
      | Some _, Some (n, k) =>
          Some (if n =? 0 then 0%float else ratio_to_float n (10 ^ k))
      | _, _ => None
      end
  end.

Definition demo_format (v : pyval) : string :=
  match v with
  | PNone => "None"
  | PBool b => if b then "True" else "False"
  | PInt n => str_int n
  | PFloat _ => "<float>"
  | PStr s => s
  | PList _ => "[...]"
  | PDict _ => "{...}"
  end.

Definition demo_str_exn (e : exn) : string :=
  match e with
  | ClientError ce => error_message ce
  | Builtin ZeroDivisionError => "float division by zero"
  | Builtin _ => "<builtin error>"
  | OtherError msg => msg
  end.

Definition demo_runtime : PyRuntime := {|
  str_upper := string_map ascii_upper;
  float_of_str := decimal_to_float;
  format := demo_format;
  str_exn := demo_str_exn
|}.

(** A reply of the exchange with two instruments. *)
Definition instrument (name tick step : string) : pyval :=
  PDict [("symbol", PStr name);
         ("filters",
          PList [PDict [("filterType", PStr "PRICE_FILTER"); ("tickSize", PStr tick)];
                 PDict [("filterType", PStr "LOT_SIZE"); ("stepSize", PStr step)]])].

Definition demo_info : pyval :=
  PDict [("symbols", PList [instrument "ETHUSDT" "0.01" "0.01";
                            instrument "BTCUSDT" "0.10" "0.001"])].

Definition demo_order : pyval := PDict [("orderId", PInt 1); ("status", PStr "NEW")].

(** A request body. *)
Definition demo_alert (side : pyval) (entry : pyval) : pyval :=
  PDict [("symbol", PStr "btcusdt"); ("side", side); ("entry", entry);
         ("sl", PInt 95); ("tp1", PInt 105); ("tp2", PFloat 110.5)].

Definition demo_world (body : pyval) (info order : result pyval) : world := {|
  request_get_json := Return body;
  DISCORD_WEBHOOK_URL := Some "https://discord.example/api/webhooks/1";
  client_exchange_info := info;
  client_new_order := fun _ _ _ _ => order;
  requests_post := fun _ _ _ => Return tt
|}.

(** ** The real numbers behind the floats

    The value of a binary64 number as a real, used to state the accuracy of
    [round_step]. *)

(** [2 ^ e] for an integer exponent. *)
Definition bpow (e : Z) : R := powerRZ 2 e.

(** The real number a float stands for (0 for an infinity or a NaN). *)
Definition SF2R (x : spec_float) : R :=
  match x with
  | S754_finite s m e => ((if s then -1 else 1) * IZR (Z.pos m) * bpow e)%R
  | _ => 0%R
  end.

Definition F2R (x : float) : R := SF2R (Prim2SF x).

Definition SFfinite (x : spec_float) : bool :=
  match x with
  | S754_zero _ | S754_finite _ _ _ => true
  | _ => false
  end.

(** [x] is a number: neither an infinity nor a NaN. *)
Definition finite (x : float) : bool := SFfinite (Prim2SF x).

(** The tolerance of [round_step] on binary64: it covers the relative
    roundings of the quotient and of the product, and the underflow gap. *)
Definition tolerance (value step : float) : R :=
  (bpow (-51) * F2R value + bpow (-53) * F2R step + bpow (-1075))%R.

(** [located T V mrs]: the record [mrs] describes the number [V] in units
    of [T]: its mantissa is the quotient, the round bit tells whether the
    remainder is at least half a unit, and a clear sticky bit tells that
    the remainder is zero or exactly half a unit. *)
Definition located (T V : Z) (mrs : shr_record) : Prop :=
  0 <= shr_m mrs /\
  exists rem,
    V = shr_m mrs * T + rem /\ 0 <= rem < T /\
    (shr_r mrs = true <-> T <= 2 * rem) /\
    (shr_s mrs = false ->
     (shr_r mrs = false -> rem = 0) /\ (shr_r mrs = true -> 2 * rem = T)).

(** ** Further observations and fixtures *)

Definition is_exchange_info (e : event) : bool :=
  match e with ExchangeInfo => true | _ => false end.

(** The calls to [client.exchange_info] of a trace. *)
Definition exchange_calls (t : list event) : list event := filter is_exchange_info t.

(** Two worlds with the same request and the same answers of the exchange:
    they may differ in the notification channel only. *)
Definition same_exchange (w1 w2 : world) : Prop :=
  request_get_json w1 = request_get_json w2 /\
  client_exchange_info w1 = client_exchange_info w2 /\
  forall symbol side type quantity,
    client_new_order w1 symbol side type quantity
    = client_new_order w2 symbol side type quantity.

(** The JSON body that [send_discord] posts. *)
Definition discord_payload (message : string) (embeds : option (list pyval)) : pyval :=
  PDict match embeds with
        | Some (e :: es) => [("content", PStr message); ("embeds", PList (e :: es))]
        | _ => [("content", PStr message)]
        end.


(** A world whose notification channel is down: the post raises. *)
Definition broken_channel_world (body : pyval) (info order : result pyval) : world := {|
  request_get_json := Return body;
  DISCORD_WEBHOOK_URL := Some "https://discord.example/api/webhooks/1";
  client_exchange_info := info;
  client_new_order := fun _ _ _ _ => order;
  requests_post := fun _ _ _ => Raise (OtherError "connection timed out")
|}.

(** A world with no notification channel configured. *)
Definition unconfigured_world (body : pyval) (info order : result pyval) : world := {|
  request_get_json := Return body;
  DISCORD_WEBHOOK_URL := None;
  client_exchange_info := info;
  client_new_order := fun _ _ _ _ => order;
  requests_post := fun _ _ _ => Return tt
|}.

(** The post that delivers a notification, with the webhook URL [url]. *)
Definition delivery_of (url : string) (e : event) : list event :=
  match e with
  | SendDiscord message embeds => [Post url (discord_payload message embeds) 5]
  | _ => []
  end.

Definition is_dict (v : pyval) : bool :=
  match v with PDict _ => true | _ => false end.

Definition is_str (v : pyval) : bool :=
  match v with PStr _ => true | _ => false end.

(** ** The runs of the handler, event by event *)

Section Traces.

Context {RT : PyRuntime}.
Variable w : world.

(** The text that the catch-all clause hands to [send_discord]. *)
Definition notice_text (e : exn) : string := "❌ 系統錯誤: " ++ unknown_error_msg e.

(** What the [except] clauses do: the first does nothing before it raises,
    the second logs, then notifies. *)
Definition caught_trace (e : exn) : list event :=
  if is_client_error e then []
  else error_log e :: snd (send_discord w (notice_text e) None).

(** What the lines 86 to 109 do once the exchange has accepted the order. *)
Definition accepted_trace (a : alert) (q : float) (order : pyval) : list event :=
  ([NewOrder (symbol a) (side a) "MARKET" q;
    Log INFO ("開倉成功: " ++ format order)]
   ++ snd (send_discord w EmptyString (Some [success_embed a q])))%list.

(** The eight ways through [webhook], with the response, or the exception
    that leaves the handler, and the whole trace of each.  The exceptions
    of the field extraction and of the sizing are the interpreter's own;
    [request.get_json] and [new_order] may raise any. *)
Inductive run : result response -> list event -> Prop :=
| run_json_raise (e : exn) :
    request_get_json w = Raise e ->
    run (except_result e) (caught_trace e)
| run_no_json (data : pyval) :
    request_get_json w = Return data -> truthy data = false ->
    run (Return no_json_response) []
| run_parse_raise (data : pyval) (c : builtin_error) :
    request_get_json w = Return data -> truthy data = true ->
    parse_alert data = Raise (Builtin c) ->
    run (Return (error_response (Builtin c))) (alert_log data :: caught_trace (Builtin c))
| run_bad_side (data : pyval) (a : alert) :
    received w data a -> side_ok (side a) = false ->
    run (Return bad_side_response) [alert_log data]
| run_size_raise (data : pyval) (a : alert) (step tick : float) (c : builtin_error) :
    received w data a -> side_ok (side a) = true ->
    fst (get_symbol_info w (symbol a)) = Return (step, tick) ->
    size (entry a) notional step = Raise (Builtin c) ->
    run (Return (error_response (Builtin c)))
        (alert_log data :: snd (get_symbol_info w (symbol a)) ++ caught_trace (Builtin c))%list
| run_bad_quantity (data : pyval) (a : alert) (step tick q : float) :
    received w data a -> side_ok (side a) = true ->
    fst (get_symbol_info w (symbol a)) = Return (step, tick) ->
    size (entry a) notional step = Return q -> PrimFloat.leb q 0 = true ->
    run (Return bad_quantity_response)
        (alert_log data :: snd (get_symbol_info w (symbol a)))
| run_order_raise (data : pyval) (a : alert) (step tick q : float) (e : exn) :
    received w data a -> side_ok (side a) = true ->
    fst (get_symbol_info w (symbol a)) = Return (step, tick) ->
    size (entry a) notional step = Return q -> PrimFloat.leb q 0 = false ->
    client_new_order w (symbol a) (side a) "MARKET" q = Raise e ->
    run (except_result e)
        (alert_log data :: snd (get_symbol_info w (symbol a))
         ++ NewOrder (symbol a) (side a) "MARKET" q :: caught_trace e)%list
| run_success (data : pyval) (a : alert) (step tick q : float) (order : pyval) :
    received w data a -> side_ok (side a) = true ->
    fst (get_symbol_info w (symbol a)) = Return (step, tick) ->
    size (entry a) notional step = Return q -> PrimFloat.leb q 0 = false ->
    client_new_order w (symbol a) (side a) "MARKET" q = Return order ->
    run (Return (success_response order))
        (alert_log data :: snd (get_symbol_info w (symbol a)) ++ accepted_trace a q order)%list.

End Traces.

(** ** Signs of floats *)

(** A float of the sign [sx]: a zero, a number or an infinity, not a NaN. *)
Definition signed (sx : bool) (z : spec_float) : Prop :=
  match z with
  | S754_zero s | S754_finite s _ _ | S754_infinity s => s = sx
  | S754_nan => False
  end.

(** A float that is not above zero: a zero, a negative number, the negative
    infinity or a NaN. *)
Definition not_positive (z : spec_float) : bool :=
  match z with
  | S754_zero _ | S754_nan => true
  | S754_finite s _ _ | S754_infinity s => s
  end.

(** ** Basic facts on traces and on the monad *)

Section Runs.

Context {RT : PyRuntime}.
Variable w : world.

Lemma orders_app (t u : list event) : orders (t ++ u) = (orders t ++ orders u)%list.
Proof. apply filter_app. Qed.

Lemma notifications_app (t u : list event) :
  notifications (t ++ u) = (notifications t ++ notifications u)%list.
Proof. apply filter_app. Qed.

Lemma quiet_nil : quiet [].
Proof. split; reflexivity. Qed.

Lemma quiet_app (t u : list event) : quiet t -> quiet u -> quiet (t ++ u).
Proof.
  intros [Ht1 Ht2] [Hu1 Hu2]; split.
  - rewrite orders_app, Ht1, Hu1; reflexivity.
  - rewrite notifications_app, Ht2, Hu2; reflexivity.
Qed.

(** [send_discord] never raises; it records its call, and nothing else that
    is an order or a notification; it posts at most once. *)
Lemma send_discord_run (message : string) (embeds : option (list pyval)) :
  exists t, send_discord w message embeds = (Return tt, SendDiscord message embeds :: t)
            /\ quiet t /\ (length (posts t) <= 1)%nat.
Proof.
  unfold send_discord, emit, bind.
  destruct (DISCORD_WEBHOOK_URL w) as [[|c url]|].
  - eexists; split; [reflexivity|]. split; [apply quiet_nil | simpl; lia].
  - set (payload := PDict _).
    unfold try_except, call, bind, logger, emit, ret.
    destruct (requests_post w (String c url) payload 5) as [[]|e];
      (eexists; split; [reflexivity|]; split; [split; reflexivity | simpl; lia]).
  - eexists; split; [reflexivity|]. split; [apply quiet_nil | simpl; lia].
Qed.

(** [get_symbol_info] never raises, and neither orders nor notifies. *)
Lemma get_symbol_info_run (symbol : string) :
  exists p t, get_symbol_info w symbol = (Return p, t) /\ quiet t.
Proof.
  unfold get_symbol_info, try_except, call, bind, lift, logger, emit, ret.
  destruct (client_exchange_info w) as [info|e].
  - destruct (read_symbol_info info symbol) as [p|e].
    + exists p; eexists; split; [reflexivity | split; reflexivity].
    + eexists; eexists; split; [reflexivity | split; reflexivity].
  - eexists; eexists; split; [reflexivity | split; reflexivity].
Qed.

(** *** The extraction of the fields *)

Lemma parse_alert_fields (data : pyval) (a : alert) :
  parse_alert data = Return a ->
  field_upper data "symbol" "BTCUSDT" = Return (symbol a) /\
  field_upper data "side" EmptyString = Return (side a) /\
  field_float data "entry" = Return (entry a) /\
  field_float data "sl" = Return (sl a) /\
  field_float data "tp1" = Return (tp1 a) /\
  field_float data "tp2" = Return (tp2 a).
Proof.
  unfold parse_alert, rbind.
  destruct (field_upper data "symbol" "BTCUSDT"); [|discriminate].
  destruct (field_upper data "side" EmptyString); [|discriminate].
  destruct (field_float data "entry"); [|discriminate].
  destruct (field_float data "sl"); [|discriminate].
  destruct (field_float data "tp1"); [|discriminate].
  destruct (field_float data "tp2"); [|discriminate].
  intros [= <-]; repeat split; reflexivity.
Qed.

(** A body with a field that converts is not empty: it passes the test
    [not data]. *)
Lemma field_float_truthy (data : pyval) (key : string) (x : float) :
  field_float data key = Return x -> truthy data = true.
Proof.
  unfold field_float, py_get, rbind. destruct data as [| | | | | |items]; try discriminate.
  destruct items as [|kv items]; [discriminate | reflexivity].
Qed.

Lemma parse_alert_truthy (data : pyval) (a : alert) :
  parse_alert data = Return a -> truthy data = true.
Proof.
  intros H. apply parse_alert_fields in H. destruct H as (_ & _ & H & _).
  exact (field_float_truthy data "entry" (entry a) H).
Qed.

(** *** The paths through the [try] block *)

Lemma try_json_raise (e : exn) :
  request_get_json w = Raise e -> webhook_try w = (Raise e, []).
Proof. intros H; unfold webhook_try, lift, bind; rewrite H; reflexivity. Qed.

Lemma try_no_json (data : pyval) :
  request_get_json w = Return data -> truthy data = false ->
  webhook_try w = (Return no_json_response, []).
Proof.
  intros H Ht; unfold webhook_try, lift, bind; rewrite H, Ht; reflexivity.
Qed.

Lemma try_parse_raise (data : pyval) (e : exn) :
  request_get_json w = Return data -> truthy data = true ->
  parse_alert data = Raise e ->
  webhook_try w = (Raise e, [alert_log data]).
Proof.
  intros H Ht Hp; unfold webhook_try, lift, bind; rewrite H, Ht; cbn [negb].
  unfold logger, emit.
  revert Hp; unfold parse_alert, rbind.
  destruct (field_upper data "symbol" "BTCUSDT"); [|intros [= ->]; reflexivity].
  destruct (field_upper data "side" EmptyString); [|intros [= ->]; reflexivity].
  destruct (field_float data "entry"); [|intros [= ->]; reflexivity].
  destruct (field_float data "sl"); [|intros [= ->]; reflexivity].
  destruct (field_float data "tp1"); [|intros [= ->]; reflexivity].
  destruct (field_float data "tp2"); [|intros [= ->]; reflexivity].
  discriminate.
Qed.

Ltac enter_try Hr :=
  let Hj := fresh "Hj" in let Ht := fresh "Ht" in let Hp := fresh "Hp" in
  destruct Hr as (Hj & Hp);
  pose proof (parse_alert_truthy _ _ Hp) as Ht;
  apply parse_alert_fields in Hp;
  destruct Hp as (H1 & H2 & H3 & H4 & H5 & H6);
  unfold webhook_try, lift, bind; rewrite Hj, Ht; cbn [negb];
  unfold logger, emit; rewrite H1, H2, H3, H4, H5, H6.

Lemma try_bad_side (data : pyval) (a : alert) :
  received w data a -> side_ok (side a) = false ->
  webhook_try w = (Return bad_side_response, [alert_log data]).
Proof.
  intros Hr Hs. enter_try Hr. rewrite Hs. reflexivity.
Qed.

Lemma size_inv (p s q : float) :
  size p notional s = Return q ->
  exists q0, truediv notional p = Return q0 /\ round_step q0 s = Return q.
Proof.
  unfold size, rbind. destruct (truediv notional p) as [q0|]; [|discriminate].
  intros H; exists q0; split; [reflexivity | exact H].
Qed.

Lemma try_size_raise (data : pyval) (a : alert) (step tick : float)
    (ti : list event) (e : exn) :
  received w data a -> side_ok (side a) = true ->
  get_symbol_info w (symbol a) = (Return (step, tick), ti) ->
  size (entry a) notional step = Raise e ->
  webhook_try w = (Raise e, alert_log data :: ti).
Proof.
  intros Hr Hs Hi Hq. enter_try Hr. rewrite Hs, Hi. cbn [negb].
  revert Hq; unfold size, rbind, notional.
  destruct (truediv 10 (entry a)) as [q0|].
  - intros ->. cbn. rewrite app_nil_r. reflexivity.
  - intros [= ->]. cbn. rewrite app_nil_r. reflexivity.
Qed.

Lemma try_bad_quantity (data : pyval) (a : alert) (step tick q : float)
    (ti : list event) :
  received w data a -> side_ok (side a) = true ->
  get_symbol_info w (symbol a) = (Return (step, tick), ti) ->
  size (entry a) notional step = Return q ->
  PrimFloat.leb q 0 = true ->
  webhook_try w = (Return bad_quantity_response, alert_log data :: ti).
Proof.
  intros Hr Hs Hi Hq Hle. enter_try Hr. rewrite Hs, Hi. cbn [negb].
  apply size_inv in Hq. destruct Hq as (q0 & Hd & Hq). unfold notional in Hd.
  rewrite Hd, Hq, Hle. cbn. rewrite app_nil_r. reflexivity.
Qed.

Lemma try_order_raise (data : pyval) (a : alert) (step tick q : float)
    (ti : list event) (e : exn) :
  received w data a -> side_ok (side a) = true ->
  get_symbol_info w (symbol a) = (Return (step, tick), ti) ->
  size (entry a) notional step = Return q ->
  PrimFloat.leb q 0 = false ->
  client_new_order w (symbol a) (side a) "MARKET" q = Raise e ->
  webhook_try w =
    (Raise e, alert_log data :: (ti ++ [NewOrder (symbol a) (side a) "MARKET" q])%list).
Proof.
  intros Hr Hs Hi Hq Hle Ho. enter_try Hr. rewrite Hs, Hi. cbn [negb].
  apply size_inv in Hq. destruct Hq as (q0 & Hd & Hq). unfold notional in Hd.
  rewrite Hd, Hq, Hle. unfold call. rewrite Ho. cbn. reflexivity.
Qed.

Lemma try_success (data : pyval) (a : alert) (step tick q : float)
    (ti : list event) (order : pyval) :
  received w data a -> side_ok (side a) = true ->
  get_symbol_info w (symbol a) = (Return (step, tick), ti) ->
  size (entry a) notional step = Return q ->
  PrimFloat.leb q 0 = false ->
  client_new_order w (symbol a) (side a) "MARKET" q = Return order ->
  exists td,
    webhook_try w =
      (Return (success_response order),
       alert_log data ::
       (ti ++ [NewOrder (symbol a) (side a) "MARKET" q;
               Log INFO ("開倉成功: " ++ format order);
               SendDiscord EmptyString (Some [success_embed a q])] ++ td)%list)
    /\ quiet td /\ (length (posts td) <= 1)%nat.
Proof.
  intros Hr Hs Hi Hq Hle Ho.
  destruct (send_discord_run EmptyString (Some [success_embed a q])) as (td & Hd' & Hquiet & Hposts).
  exists td. split; [|split; assumption].
  enter_try Hr. rewrite Hs, Hi. cbn [negb].
  apply size_inv in Hq. destruct Hq as (q0 & Hd & Hq). unfold notional in Hd.
  rewrite Hd, Hq, Hle. unfold call. rewrite Ho.
  unfold success_embed in Hd'. cbv beta iota zeta. rewrite Hd'.
  unfold ret, success_embed. cbn [app]. rewrite app_nil_r. reflexivity.
Qed.

(** *** The [except] clauses *)

Lemma webhook_caught (e : exn) (t : list event) :
  webhook_try w = (Raise e, t) -> is_client_error e = false ->
  exists td,
    webhook w = (Return (error_response e), (t ++ error_log e :: failure_notice e :: td)%list)
    /\ quiet td /\ (length (posts td) <= 1)%nat.
Proof.
  intros H He. unfold webhook, try_except. rewrite H.
  destruct (send_discord_run ("❌ 系統錯誤: " ++ unknown_error_msg e) None)
    as (td & Hd & Hq & Hp).
  exists td. split; [|split; assumption].
  unfold error_response, error_log, failure_notice.
  destruct e as [ce|c|msg]; [discriminate He | |];
    cbn [webhook_except]; unfold bind, logger, emit, ret;
    unfold unknown_error_msg in *; rewrite Hd; cbn; rewrite app_nil_r; reflexivity.
Qed.

(** A [ClientError] leaves the handler as an [AttributeError]: the first
    clause raises on [e.message] before it logs or notifies. *)
Lemma webhook_escaped (ce : client_error) (t : list event) :
  webhook_try w = (Raise (ClientError ce), t) ->
  webhook w = (Raise (Builtin AttributeError), t).
Proof.
  intros H. unfold webhook, try_except. rewrite H.
  cbn [webhook_except]. unfold bind, lift. cbn. rewrite app_nil_r. reflexivity.
Qed.

Lemma webhook_returned (r : response) (t : list event) :
  webhook_try w = (Return r, t) -> webhook w = (Return r, t).
Proof. intros H. unfold webhook, try_except. rewrite H. reflexivity. Qed.

End Runs.

(** ** Outcomes of the handler, path by path *)

Section Outcomes.

Context {RT : PyRuntime}.
Variable w : world.

Lemma error_log_silent (e : exn) :
  is_order (error_log e) = false /\ is_notification (error_log e) = false.
Proof. split; reflexivity. Qed.

Lemma failure_notice_kind (e : exn) :
  is_order (failure_notice e) = false /\ is_notification (failure_notice e) = true.
Proof. split; reflexivity. Qed.

(** What an observer sees of an exception of the [try] block: what the
    [except] clauses make of it, the order calls made before it, and the
    notification of the catch-all clause. *)
Lemma caught_outcome (e : exn) (t : list event) :
  webhook_try w = (Raise e, t) ->
  fst (webhook w) = except_result e /\
  orders (snd (webhook w)) = orders t /\
  notifications (snd (webhook w)) = (notifications t ++ except_notices e)%list.
Proof.
  intros H. unfold except_result, except_notices.
  destruct (is_client_error e) eqn:He.
  - destruct e as [ce|c|msg]; try discriminate He.
    rewrite (webhook_escaped w ce t H). cbn [fst snd].
    rewrite app_nil_r. repeat split; reflexivity.
  - destruct (webhook_caught w e t H He) as (td & -> & [Ho Hn] & _).
    cbn [fst snd]. split; [reflexivity|]. split.
    + rewrite orders_app. unfold orders in *. cbn [filter error_log failure_notice is_order].
      rewrite Ho. apply app_nil_r.
    + rewrite notifications_app. unfold notifications in *.
      cbn [filter error_log failure_notice is_notification]. rewrite Hn. reflexivity.
Qed.

(** The same for an exception of the interpreter. *)
Lemma caught_builtin_outcome (c : builtin_error) (t : list event) :
  webhook_try w = (Raise (Builtin c), t) ->
  fst (webhook w) = Return (error_response (Builtin c)) /\
  orders (snd (webhook w)) = orders t /\
  notifications (snd (webhook w)) = (notifications t ++ [failure_notice (Builtin c)])%list.
Proof. apply caught_outcome. Qed.

Lemma returned_outcome (r : response) (t : list event) :
  webhook_try w = (Return r, t) ->
  fst (webhook w) = Return r /\ snd (webhook w) = t.
Proof. intros H. rewrite (webhook_returned w r t H). split; reflexivity. Qed.

(** An exception leaves the handler only from the first [except] clause. *)
Lemma webhook_raise_inv (x : exn) :
  fst (webhook w) = Raise x ->
  exists ce t, webhook_try w = (Raise (ClientError ce), t).
Proof.
  destruct (webhook_try w) as [[r|e] t] eqn:Htry.
  - rewrite (webhook_returned w r t Htry). discriminate.
  - destruct (caught_outcome e t Htry) as (H1 & _). rewrite H1.
    destruct e as [ce|c|msg]; [intros _; exists ce, t; reflexivity | |]; discriminate.
Qed.

(** The exceptions of the field extraction are the interpreter's own. *)
Lemma field_upper_raises (data : pyval) (key default : string) (e : exn) :
  field_upper data key default = Raise e -> exists c, e = Builtin c.
Proof.
  unfold field_upper, py_get, py_upper, rbind.
  destruct data; try (intros [= <-]; eexists; reflexivity).
  destruct (lookup items key) as [[]|]; intros [= <-]; eexists; reflexivity.
Qed.

Lemma float_of_int_raises (n : Z) (e : exn) :
  float_of_int n = Raise e -> e = Builtin OverflowError.
Proof.
  unfold float_of_int. destruct (is_infinity _); [intros [= <-]; reflexivity | discriminate].
Qed.

Lemma py_float_raises (v : pyval) (e : exn) :
  py_float v = Raise e -> exists c, e = Builtin c.
Proof.
  destruct v; cbn [py_float]; try (intros [= <-]; eexists; reflexivity).
  - intros H; apply float_of_int_raises in H; subst; eexists; reflexivity.
  - destruct (float_of_str s); [discriminate | intros [= <-]; eexists; reflexivity].
Qed.

Lemma field_float_raises (data : pyval) (key : string) (e : exn) :
  field_float data key = Raise e -> exists c, e = Builtin c.
Proof.
  unfold field_float, py_get, rbind.
  destruct data; try (intros [= <-]; eexists; reflexivity).
  apply py_float_raises.
Qed.

Lemma parse_alert_raises (data : pyval) (e : exn) :
  parse_alert data = Raise e -> exists c, e = Builtin c.
Proof.
  unfold parse_alert, rbind.
  destruct (field_upper data "symbol" "BTCUSDT") eqn:E1;
    [|intros [= <-]; eapply field_upper_raises; eassumption].
  destruct (field_upper data "side" EmptyString) eqn:E2;
    [|intros [= <-]; eapply field_upper_raises; eassumption].
  destruct (field_float data "entry") eqn:E3;
    [|intros [= <-]; eapply field_float_raises; eassumption].
  destruct (field_float data "sl") eqn:E4;
    [|intros [= <-]; eapply field_float_raises; eassumption].
  destruct (field_float data "tp1") eqn:E5;
    [|intros [= <-]; eapply field_float_raises; eassumption].
  destruct (field_float data "tp2") eqn:E6;
    [|intros [= <-]; eapply field_float_raises; eassumption].
  discriminate.
Qed.

(** The exceptions of the sizing are the interpreter's own. *)
Lemma size_raises (p s : float) (e : exn) :
  size p notional s = Raise e -> exists c, e = Builtin c.
Proof.
  unfold size, round_step, truediv, py_round, int_mul_float, rbind.
  destruct (PrimFloat.eqb p 0); [intros [= <-]; eexists; reflexivity|].
  destruct (PrimFloat.eqb s 0); [intros [= <-]; eexists; reflexivity|].
  destruct (Prim2SF _); try (intros [= <-]; eexists; reflexivity);
    (destruct (float_of_int _) eqn:E; [discriminate|]; intros [= <-];
     apply float_of_int_raises in E; subst; eexists; reflexivity).
Qed.

(** A failed extraction ends in the catch-all clause. *)
Lemma parse_failure_outcome (data : pyval) (e : exn) :
  request_get_json w = Return data -> truthy data = true ->
  parse_alert data = Raise e ->
  fst (webhook w) = Return (jsonify [("error", PStr (unknown_error_msg e))], 500) /\
  orders (snd (webhook w)) = [] /\
  notifications (snd (webhook w)) =
    [SendDiscord ("❌ 系統錯誤: " ++ unknown_error_msg e) None].
Proof.
  intros Hj Ht Hp.
  destruct (parse_alert_raises data e Hp) as (c & ->).
  destruct (caught_outcome _ _ (try_parse_raise w data _ Hj Ht Hp)) as (H1 & H2 & H3).
  rewrite H1, H2, H3. repeat split; reflexivity.
Qed.


End Outcomes.

Lemma get_symbol_info_posts {RT : PyRuntime} (w : world) (symbol : string) :
  posts (snd (get_symbol_info w symbol)) = [].
Proof.
  unfold get_symbol_info, try_except, call, bind, lift, logger, emit, ret.
  destruct (client_exchange_info w) as [info|e]; [|reflexivity].
  destruct (read_symbol_info info symbol); reflexivity.
Qed.

(** A notification makes at most one HTTP post, and nothing else posts. *)
Section Posts.

Context {RT : PyRuntime}.
Variable w : world.

Lemma posts_app (t u : list event) : posts (t ++ u) = (posts t ++ posts u)%list.
Proof. apply filter_app. Qed.



End Posts.

(** The paths that reach the sizing, from the reply of the resolver on. *)
Section Sized.

Context {RT : PyRuntime}.
Variable w : world.

Lemma sized_outcome (data : pyval) (a : alert) (step tick : float) :
  received w data a -> side_ok (side a) = true ->
  fst (get_symbol_info w (symbol a)) = Return (step, tick) ->
  match size (entry a) notional step with
  | Raise e =>
      fst (webhook w) = Return (error_response e) /\
      orders (snd (webhook w)) = [] /\
      notifications (snd (webhook w)) = [failure_notice e]
  | Return q =>
      if PrimFloat.leb q 0 then
        fst (webhook w) = Return bad_quantity_response /\
        orders (snd (webhook w)) = [] /\
        notifications (snd (webhook w)) = []
      else
        orders (snd (webhook w)) = [NewOrder (symbol a) (side a) "MARKET" q] /\
        match client_new_order w (symbol a) (side a) "MARKET" q with
        | Return order =>
            fst (webhook w) = Return (success_response order) /\
            notifications (snd (webhook w)) =
              [SendDiscord EmptyString (Some [success_embed a q])]
        | Raise e =>
            fst (webhook w) = except_result e /\
            notifications (snd (webhook w)) = except_notices e
        end
  end.
Proof.
  intros Hr Hs Hi.
  destruct (get_symbol_info_run w (symbol a)) as (p & ti & Hi' & Hqo & Hqn).
  rewrite Hi' in Hi. cbn [fst] in Hi. injection Hi as ->.
  destruct (size (entry a) notional step) as [q|e] eqn:Hq.
  2:{ destruct (size_raises _ _ _ Hq) as (c & ->).
      destruct (caught_builtin_outcome w _ _
                  (try_size_raise w data a step tick ti _ Hr Hs Hi' Hq))
        as (H1 & H2 & H3).
      rewrite H1, H2, H3. unfold orders, notifications in *.
      cbn [filter alert_log is_order is_notification]. rewrite Hqo, Hqn.
      repeat split; reflexivity. }
  destruct (PrimFloat.leb q 0) eqn:Hle.
  { destruct (returned_outcome w _ _ (try_bad_quantity w data a step tick q ti Hr Hs Hi' Hq Hle))
      as (H1 & H2).
    rewrite H1, H2. unfold orders, notifications in *.
    cbn [filter alert_log is_order is_notification]. rewrite Hqo, Hqn.
    repeat split; reflexivity. }
  destruct (client_new_order w (symbol a) (side a) "MARKET" q) as [order|e] eqn:Ho.
  - destruct (try_success w data a step tick q ti order Hr Hs Hi' Hq Hle Ho)
      as (td & Htry & [Hdo Hdn] & _).
    destruct (returned_outcome w _ _ Htry) as (H1 & H2).
    rewrite H1, H2. unfold orders, notifications in *.
    cbn [filter alert_log is_order is_notification].
    rewrite !filter_app. cbn [filter alert_log is_order is_notification].
    rewrite Hqo, Hqn, Hdo, Hdn. repeat split; reflexivity.
  - destruct (caught_outcome w _ _ (try_order_raise w data a step tick q ti e Hr Hs Hi' Hq Hle Ho))
      as (H1 & H2 & H3).
    rewrite H1, H2, H3. unfold orders, notifications in *.
    cbn [filter alert_log is_order is_notification].
    rewrite !filter_app. cbn [filter alert_log is_order is_notification].
    rewrite Hqo, Hqn. repeat split; reflexivity.
Qed.

End Sized.

(** ** Facts on floats *)

Lemma positive_nonzero (p : float) :
  PrimFloat.ltb 0 p = true -> PrimFloat.eqb p 0 = false.
Proof.
  rewrite FloatAxioms.ltb_spec, FloatAxioms.eqb_spec.
  change (Prim2SF 0) with (S754_zero false).
  destruct (Prim2SF p) as [s|s| |s m e]; cbn; try discriminate; try reflexivity.
  all: destruct s; try discriminate; reflexivity.
Qed.

Lemma size_positive (p s : float) :
  PrimFloat.ltb 0 p = true -> size p notional s = round_step (notional / p) s.
Proof.
  intros H. unfold size, truediv. rewrite (positive_nonzero p H). reflexivity.
Qed.

(** ** Order sizing *)

(** C1. Order sizing.  For a request that passes validation with entry price
    [p > 0], and a step size [s > 0] given by the resolver, the order calls
    of the handler are exactly one market order of quantity
    [round_step (10 / p) s] whenever that quantity is computed and is not
    [<= 0], and none otherwise.  With a step of 0.001 the quantity is 0.1
    for an entry of 100, and 3.333 for an entry of 3. *)
Theorem order_sizing {RT : PyRuntime} :
  (forall (w : world) (data : pyval) (a : alert) (s tick : float),
      received w data a -> side_ok (side a) = true ->
      fst (get_symbol_info w (symbol a)) = Return (s, tick) ->
      PrimFloat.ltb 0 (entry a) = true -> PrimFloat.ltb 0 s = true ->
      orders (snd (webhook w)) =
        match round_step (notional / entry a) s with
        | Return q =>
            if PrimFloat.leb q 0 then []
            else [NewOrder (symbol a) (side a) "MARKET" q]
        | Raise _ => []
        end) /\
  notional = 10%float /\
  size 100 notional 0.001 = Return 0.1%float /\
  size 3 notional 0.001 = Return 3.333%float.
Proof.
  split; [|repeat split; vm_compute; reflexivity].
  intros w data a s tick Hr Hs Hi Hp _.
  pose proof (sized_outcome w data a s tick Hr Hs Hi) as H.
  rewrite (size_positive _ _ Hp) in H.
  destruct (round_step (notional / entry a) s) as [q|e].
  - destruct (PrimFloat.leb q 0); [apply H | apply H].
  - apply H.
Qed.

Lemma order_sizing_witness :
  let w := demo_world (demo_alert (PStr "buy") (PInt 3)) (Return demo_info) (Return demo_order) in
  orders (snd (@webhook demo_runtime w)) = [NewOrder "BTCUSDT" "BUY" "MARKET" 3.333%float].
Proof.
  intros w.
  exact (proj1 (@order_sizing demo_runtime) w
           (demo_alert (PStr "buy") (PInt 3))
           {| symbol := "BTCUSDT"; side := "BUY"; entry := 3; sl := 95; tp1 := 105; tp2 := 110.5 |}
           0.001%float 0.1%float
           (conj eq_refl eq_refl) eq_refl eq_refl eq_refl eq_refl).
Defined.

(** ** Precision resolution *)

Section Resolver.

Context {RT : PyRuntime}.
Variable w : world.

Lemma resolver_network_error (symbol : string) (e : exn) :
  client_exchange_info w = Raise e ->
  fst (get_symbol_info w symbol) = Return default_precision.
Proof.
  intros H. unfold get_symbol_info, try_except, call, bind. rewrite H. reflexivity.
Qed.

Lemma resolver_read_error (symbol : string) (info : pyval) (e : exn) :
  client_exchange_info w = Return info ->
  read_symbol_info info symbol = Raise e ->
  fst (get_symbol_info w symbol) = Return default_precision.
Proof.
  intros H He. unfold get_symbol_info, try_except, call, bind, lift.
  rewrite H, He. reflexivity.
Qed.

Lemma resolver_read_ok (symbol : string) (info : pyval) (p : float * float) :
  client_exchange_info w = Return info ->
  read_symbol_info info symbol = Return p ->
  fst (get_symbol_info w symbol) = Return p.
Proof.
  intros H He. unfold get_symbol_info, try_except, call, bind, lift.
  rewrite H, He. reflexivity.
Qed.

(** The loop falls through to the default when no entry has the symbol. *)
Lemma scan_symbols_absent (symbol : string) (l : list pyval) :
  (forall s, In s l ->
     exists name, getitem_str s "symbol" = Return name /\ eq_str name symbol = false) ->
  scan_symbols symbol l = Return default_precision.
Proof.
  induction l as [|s l IH]; intros H; cbn [scan_symbols].
  - reflexivity.
  - destruct (H s (or_introl eq_refl)) as (name & Hn & Hne).
    unfold rbind. rewrite Hn, Hne. apply IH. intros s' Hs'. apply H. right. exact Hs'.
Qed.

End Resolver.

(** C3. Precision resolution is total and defaulting.  [get_symbol_info]
    returns a pair for every symbol and every answer of the exchange, never
    an exception.  It returns the default pair (0.001, 0.01) when the call
    to the exchange raises, when reading the reply raises (malformed
    metadata), and when no listed instrument has the symbol.  The handler
    then goes on with the defaults: a valid request is sized with the step
    0.001, its order is submitted, and an accepted order is answered with
    the success response. *)
Theorem precision_resolution {RT : PyRuntime} (w : world) :
  (forall symbol, exists p, fst (get_symbol_info w symbol) = Return p) /\
  default_precision = (0.001, 0.01)%float /\
  (forall symbol e,
      client_exchange_info w = Raise e ->
      fst (get_symbol_info w symbol) = Return default_precision) /\
  (forall symbol info e,
      client_exchange_info w = Return info ->
      read_symbol_info info symbol = Raise e ->
      fst (get_symbol_info w symbol) = Return default_precision) /\
  (forall symbol info l,
      client_exchange_info w = Return info ->
      getitem_str info "symbols" = Return (PList l) ->
      (forall s, In s l ->
         exists name, getitem_str s "symbol" = Return name /\ eq_str name symbol = false) ->
      fst (get_symbol_info w symbol) = Return default_precision) /\
  (forall data a q,
      received w data a -> side_ok (side a) = true ->
      fst (get_symbol_info w (symbol a)) = Return default_precision ->
      size (entry a) notional 0.001 = Return q -> PrimFloat.leb q 0 = false ->
      orders (snd (webhook w)) = [NewOrder (symbol a) (side a) "MARKET" q] /\
      forall order,
        client_new_order w (symbol a) (side a) "MARKET" q = Return order ->
        fst (webhook w) = Return (success_response order)).
Proof.
  split; [|split; [reflexivity|]]; [|split; [|split; [|split]]].
  - intros symbol. destruct (get_symbol_info_run w symbol) as (p & t & -> & _).
    exists p. reflexivity.
  - intros symbol e. apply resolver_network_error.
  - intros symbol info e. apply resolver_read_error.
  - intros symbol info l Hi Hs Habs.
    apply (resolver_read_ok w symbol info); [exact Hi|].
    unfold read_symbol_info, rbind. rewrite Hs. cbn [py_iter].
    apply scan_symbols_absent. exact Habs.
  - intros data a q Hr Hs Hi Hq Hle.
    pose proof (sized_outcome w data a _ _ Hr Hs Hi) as H.
    rewrite Hq, Hle in H. destruct H as [Ho H]. split; [exact Ho|].
    intros order Hord. rewrite Hord in H. apply H.
Qed.

Lemma precision_resolution_witness :
  let w := demo_world (demo_alert (PStr "sell") (PInt 100))
             (Raise (OtherError "connection reset")) (Return demo_order) in
  fst (@get_symbol_info demo_runtime w "BTCUSDT") = Return (0.001, 0.01)%float /\
  fst (@get_symbol_info demo_runtime
         (demo_world PNone (Return demo_info) (Return demo_order)) "XRPUSDT")
    = Return (0.001, 0.01)%float /\
  orders (snd (@webhook demo_runtime w)) = [NewOrder "BTCUSDT" "SELL" "MARKET" 0.1%float] /\
  fst (@webhook demo_runtime w) = Return (success_response demo_order).
Proof.
  intros w.
  pose (a := {| symbol := "BTCUSDT"; side := "SELL"; entry := 100;
                sl := 95; tp1 := 105; tp2 := 110.5 |}).
  destruct (@precision_resolution demo_runtime w) as (_ & _ & Hnet & _ & _ & Hgo).
  destruct (@precision_resolution demo_runtime
              (demo_world PNone (Return demo_info) (Return demo_order)))
    as (_ & _ & _ & _ & Habs & _).
  split; [exact (Hnet "BTCUSDT" _ eq_refl)|].
  split.
  - apply (Habs "XRPUSDT" demo_info _ eq_refl eq_refl).
    intros s [<-|[<-|[]]]; eexists; split; reflexivity.
  - destruct (Hgo (demo_alert (PStr "sell") (PInt 100)) a 0.1%float
                (conj eq_refl eq_refl) eq_refl (Hnet "BTCUSDT" _ eq_refl)
                eq_refl eq_refl) as [Ho Hok].
    split; [exact Ho | exact (Hok demo_order eq_refl)].
Defined.

(** ** Validation and error handling *)

Lemma parse_alert_side {RT : PyRuntime} (data : pyval) (a : alert) (sd : string) :
  parse_alert data = Return a ->
  field_upper data "side" EmptyString = Return sd -> side a = sd.
Proof.
  intros Hp Hs. apply parse_alert_fields in Hp.
  destruct Hp as (_ & H2 & _). rewrite H2 in Hs. injection Hs as <-. reflexivity.
Qed.

Lemma parse_alert_entry {RT : PyRuntime} (data : pyval) (a : alert) (p : float) :
  parse_alert data = Return a ->
  field_float data "entry" = Return p -> entry a = p.
Proof.
  intros Hp Hs. apply parse_alert_fields in Hp.
  destruct Hp as (_ & _ & H3 & _). rewrite H3 in Hs. injection Hs as <-. reflexivity.
Qed.

(** A price field that does not convert makes the whole extraction raise. *)
Lemma parse_alert_price_failure {RT : PyRuntime} (data : pyval) (e : exn) :
  field_float data "entry" = Raise e \/ field_float data "sl" = Raise e \/
  field_float data "tp1" = Raise e \/ field_float data "tp2" = Raise e ->
  exists e', parse_alert data = Raise e'.
Proof.
  intros H. destruct (parse_alert data) as [a|e'] eqn:Hp; [|exists e'; reflexivity].
  apply parse_alert_fields in Hp. destruct Hp as (_ & _ & H3 & H4 & H5 & H6).
  destruct H as [H|[H|[H|H]]]; congruence.
Qed.

Lemma has_error_intro (msg : string) : has_error (jsonify [("error", PStr msg)]).
Proof. exists msg. reflexivity. Qed.

(** C4, as amended.  For every request whose [side], uppercased, is neither
    BUY nor SELL, the handler makes no order call.  When the symbol and the
    four prices of the request convert, it answers 400 with an [error]
    field and sends no notification; the fields are converted before the
    side is checked, so a request whose fields do not convert is answered
    through an [except] clause instead. *)
Theorem side_validation {RT : PyRuntime} (w : world) (data : pyval) (sd : string) :
  request_get_json w = Return data ->
  field_upper data "side" EmptyString = Return sd ->
  side_ok sd = false ->
  orders (snd (webhook w)) = [] /\
  (forall a, parse_alert data = Return a ->
     exists body, fst (webhook w) = Return (body, 400) /\ has_error body /\
                  notifications (snd (webhook w)) = []) /\
  (forall e, truthy data = true -> parse_alert data = Raise e ->
     fst (webhook w) = Return (error_response e)).
Proof.
  intros Hj Hsd Hbad.
  destruct (truthy data) eqn:Ht.
  2:{ destruct (returned_outcome w _ _ (try_no_json w data Hj Ht)) as (H1 & H2).
      rewrite H1, H2. split; [reflexivity|]. split; [|discriminate].
      intros a _. eexists; split; [reflexivity|]. split; [apply has_error_intro | reflexivity]. }
  destruct (parse_alert data) as [a|e] eqn:Hp.
  - assert (Hr : received w data a) by (repeat split; assumption).
    rewrite <- (parse_alert_side data a sd Hp Hsd) in Hbad.
    destruct (returned_outcome w _ _ (try_bad_side w data a Hr Hbad)) as (H1 & H2).
    rewrite H1, H2. split; [reflexivity|]. split; [|discriminate].
    intros a' _. eexists; split; [reflexivity|]. split; [apply has_error_intro | reflexivity].
  - destruct (parse_alert_raises data e Hp) as (c & ->).
    destruct (caught_builtin_outcome w _ _ (try_parse_raise w data _ Hj Ht Hp))
      as (H1 & H2 & H3).
    rewrite H1, H2. split; [reflexivity|]. split; [discriminate|].
    intros e' _ [= <-]. reflexivity.
Qed.

Lemma side_validation_witness :
  let w := demo_world (demo_alert (PStr "long") (PInt 100)) (Return demo_info) (Return demo_order) in
  orders (snd (@webhook demo_runtime w)) = [] /\
  exists body, fst (@webhook demo_runtime w) = Return (body, 400) /\ has_error body /\
               notifications (snd (@webhook demo_runtime w)) = [].
Proof.
  intros w.
  destruct (@side_validation demo_runtime w (demo_alert (PStr "long") (PInt 100)) "LONG"
              eq_refl eq_refl eq_refl) as (Ho & Hok & _).
  split; [exact Ho|].
  exact (Hok {| symbol := "BTCUSDT"; side := "LONG"; entry := 100;
                sl := 95; tp1 := 105; tp2 := 110.5 |} eq_refl).
Defined.

(** C4, as stated, fails: the side is "long" and the entry price is missing;
    the answer is 500, from the catch-all clause. *)
Lemma side_validation_counterexample :
  let data := PDict [("symbol", PStr "BTCUSDT"); ("side", PStr "long");
                     ("sl", PInt 95); ("tp1", PInt 105); ("tp2", PInt 110)] in
  let w := demo_world data (Return demo_info) (Return demo_order) in
  @field_upper demo_runtime data "side" EmptyString = Return "LONG" /\
  side_ok "LONG" = false /\
  fst (@webhook demo_runtime w) =
    Return (jsonify [("error", PStr (@unknown_error_msg demo_runtime (Builtin TypeError)))], 500).
Proof. repeat split; reflexivity. Qed.

(** C5.  Exchange-rejected orders: what the code does.  When a request
    reaches the submission and [new_order] raises a [ClientError], the
    first [except] clause is entered and its f-string reads [e.message],
    an attribute that the connector's class does not have: the message and
    the code are in [error_message] and [error_code].  The
    [AttributeError] leaves the handler: no response is returned, 400 or
    other, nothing is logged and no notification is sent.  The order call
    was made once. *)
Theorem exchange_rejection_escapes {RT : PyRuntime} (w : world) (data : pyval) (a : alert)
    (step tick q : float) (ce : client_error) :
  received w data a -> side_ok (side a) = true ->
  fst (get_symbol_info w (symbol a)) = Return (step, tick) ->
  size (entry a) notional step = Return q -> PrimFloat.leb q 0 = false ->
  client_new_order w (symbol a) (side a) "MARKET" q = Raise (ClientError ce) ->
  webhook w =
    (Raise (Builtin AttributeError),
     (alert_log data :: snd (get_symbol_info w (symbol a))
      ++ [NewOrder (symbol a) (side a) "MARKET" q])%list) /\
  (forall body status, fst (webhook w) <> Return (body, status)) /\
  orders (snd (webhook w)) = [NewOrder (symbol a) (side a) "MARKET" q] /\
  notifications (snd (webhook w)) = [] /\
  posts (snd (webhook w)) = [] /\
  getattr_client_error ce "message" = Raise (Builtin AttributeError) /\
  getattr_client_error ce "error_message" = Return (PStr (error_message ce)) /\
  getattr_client_error ce "error_code" = Return (PInt (error_code ce)).
Proof.
  intros Hr Hs Hi Hq Hle Ho.
  destruct (get_symbol_info_run w (symbol a)) as (p & ti & Hi' & Hqo & Hqn).
  pose proof (get_symbol_info_posts w (symbol a)) as Hpi.
  rewrite Hi' in Hi, Hpi |- *. cbn [fst snd] in Hi, Hpi |- *. injection Hi as ->.
  rewrite (webhook_escaped w ce _
             (try_order_raise w data a step tick q ti _ Hr Hs Hi' Hq Hle Ho)).
  cbn [fst snd]. split; [reflexivity|]. split; [discriminate|].
  unfold orders, notifications, posts in *.
  cbn [filter alert_log is_order is_notification is_post].
  rewrite !filter_app, Hqo, Hqn, Hpi. repeat split; reflexivity.
Qed.

Lemma exchange_rejection_escapes_witness :
  let rejection := {| status_code := 400; error_code := -2019;
                      error_message := "Margin is insufficient";
                      header := PDict []; error_data := PNone |} in
  let w := demo_world (demo_alert (PStr "buy") (PInt 100)) (Return demo_info)
             (Raise (ClientError rejection)) in
  fst (@webhook demo_runtime w) = Raise (Builtin AttributeError) /\
  orders (snd (@webhook demo_runtime w)) = [NewOrder "BTCUSDT" "BUY" "MARKET" 0.1%float] /\
  notifications (snd (@webhook demo_runtime w)) = [].
Proof.
  intros rejection w.
  destruct (@exchange_rejection_escapes demo_runtime w (demo_alert (PStr "buy") (PInt 100))
              {| symbol := "BTCUSDT"; side := "BUY"; entry := 100;
                 sl := 95; tp1 := 105; tp2 := 110.5 |}
              0.001%float 0.1%float 0.1%float rejection
              (conj eq_refl eq_refl) eq_refl eq_refl eq_refl eq_refl eq_refl)
    as (H1 & _ & H2 & H3 & _).
  split; [rewrite H1; reflexivity | split; [exact H2 | exact H3]].
Defined.

(** C6. Sizing failure.  When the quantity computed for a request is
    [<= 0], the handler answers 400 with an [error] field; it makes no order
    call and sends no notification. *)
Theorem sizing_failure {RT : PyRuntime} (w : world) (data : pyval) (a : alert)
    (step tick q : float) :
  received w data a -> side_ok (side a) = true ->
  fst (get_symbol_info w (symbol a)) = Return (step, tick) ->
  size (entry a) notional step = Return q -> PrimFloat.leb q 0 = true ->
  fst (webhook w) = Return bad_quantity_response /\
  snd bad_quantity_response = 400 /\ has_error (fst bad_quantity_response) /\
  orders (snd (webhook w)) = [] /\
  notifications (snd (webhook w)) = [] /\
  posts (snd (webhook w)) = [].
Proof.
  intros Hr Hs Hi Hq Hle.
  pose proof (sized_outcome w data a step tick Hr Hs Hi) as H.
  rewrite Hq, Hle in H. destruct H as (H1 & H2 & H3).
  split; [exact H1|]. split; [reflexivity|]. split; [apply has_error_intro|].
  split; [exact H2|]. split; [exact H3|].
  destruct (get_symbol_info_run w (symbol a)) as (p & ti & Hi' & _).
  rewrite Hi' in Hi. cbn [fst] in Hi. injection Hi as ->.
  destruct (returned_outcome w _ _ (try_bad_quantity w data a step tick q ti Hr Hs Hi' Hq Hle))
    as (_ & ->).
  pose proof (get_symbol_info_posts w (symbol a)) as Hp. rewrite Hi' in Hp.
  exact Hp.
Qed.

Lemma sizing_failure_witness :
  let w := demo_world (demo_alert (PStr "buy") (PInt 100000)) (Return demo_info) (Return demo_order) in
  fst (@webhook demo_runtime w) = Return (jsonify [("error", PStr "計算出的數量 <= 0")], 400) /\
  orders (snd (@webhook demo_runtime w)) = [] /\
  notifications (snd (@webhook demo_runtime w)) = [].
Proof.
  intros w.
  destruct (@sizing_failure demo_runtime w (demo_alert (PStr "buy") (PInt 100000))
              {| symbol := "BTCUSDT"; side := "BUY"; entry := 100000;
                 sl := 95; tp1 := 105; tp2 := 110.5 |}
              0.001%float 0.1%float 0%float
              (conj eq_refl eq_refl) eq_refl eq_refl eq_refl eq_refl)
    as (H1 & _ & _ & H2 & H3 & _).
  split; [exact H1 | split; [exact H2 | exact H3]].
Defined.

(** C7. Price type-conversion failure.  When the conversion of [entry],
    [sl], [tp1] or [tp2] to a float raises, the handler answers through the
    catch-all clause: status 500, the text of the unknown-error clause in
    the [error] field, one failure notification, no order call.  It is not
    one of the 400 validation answers. *)
Theorem price_conversion_failure {RT : PyRuntime} (w : world) (data : pyval) (e : exn) :
  request_get_json w = Return data -> truthy data = true ->
  field_float data "entry" = Raise e \/ field_float data "sl" = Raise e \/
  field_float data "tp1" = Raise e \/ field_float data "tp2" = Raise e ->
  exists e',
    parse_alert data = Raise e' /\
    fst (webhook w) = Return (jsonify [("error", PStr (unknown_error_msg e'))], 500) /\
    notifications (snd (webhook w)) =
      [SendDiscord ("❌ 系統錯誤: " ++ unknown_error_msg e') None] /\
    orders (snd (webhook w)) = [].
Proof.
  intros Hj Ht Hf.
  destruct (parse_alert_price_failure data e Hf) as (e' & He').
  exists e'. split; [exact He'|].
  destruct (parse_failure_outcome w data e' Hj Ht He') as (H1 & H2 & H3).
  split; [exact H1 | split; [exact H3 | exact H2]].
Qed.

Lemma price_conversion_failure_witness :
  let data := demo_alert (PStr "buy") (PStr "market") in
  let w := demo_world data (Return demo_info) (Return demo_order) in
  exists e',
    @parse_alert demo_runtime data = Raise e' /\
    fst (@webhook demo_runtime w) =
      Return (jsonify [("error", PStr (@unknown_error_msg demo_runtime e'))], 500) /\
    notifications (snd (@webhook demo_runtime w)) =
      [SendDiscord ("❌ 系統錯誤: " ++ @unknown_error_msg demo_runtime e') None] /\
    orders (snd (@webhook demo_runtime w)) = [].
Proof.
  intros data w.
  exact (@price_conversion_failure demo_runtime w data (Builtin ValueError)
           eq_refl eq_refl (or_introl eq_refl)).
Defined.



(** C9. Entry price zero.  For a request with a valid side whose [entry]
    converts to zero, the handler answers 500 through the catch-all clause,
    with one failure notification and no order call; it does not answer 400
    and lets no exception out.  When the other fields convert too, the
    exception caught is the [ZeroDivisionError] of [notional / price]. *)
Theorem zero_entry {RT : PyRuntime} (w : world) (data : pyval) (sd : string) (p : float) :
  request_get_json w = Return data ->
  field_upper data "side" EmptyString = Return sd -> side_ok sd = true ->
  field_float data "entry" = Return p -> PrimFloat.eqb p 0 = true ->
  (exists e,
     fst (webhook w) = Return (jsonify [("error", PStr (unknown_error_msg e))], 500) /\
     notifications (snd (webhook w)) =
       [SendDiscord ("❌ 系統錯誤: " ++ unknown_error_msg e) None] /\
     orders (snd (webhook w)) = [] /\
     ((exists a, parse_alert data = Return a) -> e = Builtin ZeroDivisionError)).
Proof.
  intros Hj Hsd Hok Hp Hz.
  pose proof (field_float_truthy data "entry" p Hp) as Ht.
  destruct (parse_alert data) as [a|e] eqn:Hpa.
  - exists (Builtin ZeroDivisionError).
    assert (Hr : received w data a) by (repeat split; assumption).
    rewrite <- (parse_alert_side data a sd Hpa Hsd) in Hok.
    rewrite <- (parse_alert_entry data a p Hpa Hp) in Hz.
    destruct (get_symbol_info_run w (symbol a)) as ([step tick] & ti & Hi & _).
    assert (Hi' : fst (get_symbol_info w (symbol a)) = Return (step, tick))
      by (rewrite Hi; reflexivity).
    pose proof (sized_outcome w data a step tick Hr Hok Hi') as H.
    unfold size, truediv in H. rewrite Hz in H. cbn [rbind] in H.
    destruct H as (H1 & H2 & H3).
    split; [exact H1 | split; [exact H3 | split; [exact H2 | reflexivity]]].
  - exists e.
    destruct (parse_failure_outcome w data e Hj Ht Hpa) as (H1 & H2 & H3).
    split; [exact H1 | split; [exact H3 | split; [exact H2|]]].
    intros (a & Ha). discriminate.
Qed.

Lemma zero_entry_witness :
  let data := demo_alert (PStr "sell") (PStr "0.0") in
  let w := demo_world data (Return demo_info) (Return demo_order) in
  fst (@webhook demo_runtime w) =
    Return (jsonify [("error", PStr "未知錯誤: float division by zero")], 500) /\
  orders (snd (@webhook demo_runtime w)) = [].
Proof.
  intros data w.
  destruct (@zero_entry demo_runtime w data "SELL" 0%float
              eq_refl eq_refl eq_refl eq_refl eq_refl)
    as (e & H1 & _ & H3 & He).
  rewrite (He (ex_intro _ {| symbol := "BTCUSDT"; side := "SELL"; entry := 0;
                             sl := 95; tp1 := 105; tp2 := 110.5 |} eq_refl)) in H1.
  split; [exact H1 | exact H3].
Defined.

(** C10. The prices are converted before the side is checked.  For a
    request whose side, uppercased, is neither BUY nor SELL and whose
    [entry] does not convert (missing or not a number), the answer is the
    500 of the catch-all clause, not the 400 of the side validation. *)
Theorem conversion_precedes_side_check {RT : PyRuntime} (w : world) (data : pyval)
    (sym sd : string) (e : exn) :
  request_get_json w = Return data -> truthy data = true ->
  field_upper data "symbol" "BTCUSDT" = Return sym ->
  field_upper data "side" EmptyString = Return sd -> side_ok sd = false ->
  field_float data "entry" = Raise e ->
  fst (webhook w) = Return (jsonify [("error", PStr (unknown_error_msg e))], 500) /\
  fst (webhook w) <> Return bad_side_response /\
  notifications (snd (webhook w)) =
    [SendDiscord ("❌ 系統錯誤: " ++ unknown_error_msg e) None].
Proof.
  intros Hj Ht Hsym Hsd Hbad He.
  assert (Hp : parse_alert data = Raise e).
  { unfold parse_alert, rbind. rewrite Hsym, Hsd, He. reflexivity. }
  destruct (parse_failure_outcome w data e Hj Ht Hp) as (H1 & H2 & H3).
  split; [exact H1|]. split; [|exact H3].
  rewrite H1. discriminate.
Qed.

Lemma conversion_precedes_side_check_witness :
  let data := demo_alert (PStr "long") (PStr "n/a") in
  let w := demo_world data (Return demo_info) (Return demo_order) in
  fst (@webhook demo_runtime w) =
    Return (jsonify [("error", PStr "未知錯誤: <builtin error>")], 500) /\
  fst (@webhook demo_runtime w) <> Return bad_side_response.
Proof.
  intros data w.
  destruct (@conversion_precedes_side_check demo_runtime w data "BTCUSDT" "LONG"
              (Builtin ValueError) eq_refl eq_refl eq_refl eq_refl eq_refl eq_refl)
    as (H1 & H2 & _).
  split; [exact H1 | exact H2].
Defined.

(** * Accuracy of the quantity rounder on binary64

    The operations of [float] are specified by [SpecFloat]: a product or a
    quotient is computed exactly, then rounded by [binary_round_aux].  The
    lemmas below bound that rounding, first on integers, then on reals. *)

Module Binary64.

(** ** Number of binary digits *)

Lemma digits2_pos_bounds (p : positive) :
  2 ^ (Z.pos (digits2_pos p) - 1) <= Z.pos p < 2 ^ Z.pos (digits2_pos p).
Proof.
  induction p as [p IH|p IH|]; cbn [digits2_pos].
  - rewrite Pos2Z.inj_succ.
    replace (Z.succ (Z.pos (digits2_pos p)) - 1) with (Z.succ (Z.pos (digits2_pos p) - 1))
      by lia.
    rewrite !Z.pow_succ_r by lia. lia.
  - rewrite Pos2Z.inj_succ.
    replace (Z.succ (Z.pos (digits2_pos p)) - 1) with (Z.succ (Z.pos (digits2_pos p) - 1))
      by lia.
    rewrite !Z.pow_succ_r by lia. lia.
  - cbn. lia.
Qed.

Lemma Zdigits2_nonneg (m : Z) : 0 <= Zdigits2 m.
Proof. destruct m; cbn; lia. Qed.

Lemma Zdigits2_bounds (m : Z) :
  0 < m -> 2 ^ (Zdigits2 m - 1) <= m < 2 ^ Zdigits2 m.
Proof. destruct m as [|p|p]; try lia. intros _. apply digits2_pos_bounds. Qed.

(** The number of digits is determined by the bounds. *)
Lemma Zdigits2_unique (m d : Z) :
  0 < m -> 2 ^ (d - 1) <= m < 2 ^ d -> Zdigits2 m = d.
Proof.
  intros Hm [Hlo Hhi].
  destruct (Zdigits2_bounds m Hm) as [Hlo' Hhi'].
  pose proof (Zdigits2_nonneg m) as Hn.
  assert (0 < d).
  { destruct (Z.ltb_spec 0 d); [assumption|].
    exfalso. assert (2 ^ d <= 1); [|lia].
    destruct (Z.eq_dec d 0) as [->|]; [cbn; lia|]. rewrite Z.pow_neg_r by lia. lia. }
  assert (0 < Zdigits2 m) by (destruct m; cbn in *; lia).
  assert (d - 1 < Zdigits2 m).
  { apply (Z.pow_lt_mono_r_iff 2); lia. }
  assert (Zdigits2 m - 1 < d).
  { apply (Z.pow_lt_mono_r_iff 2); lia. }
  lia.
Qed.

Lemma Zdigits2_ge (m j : Z) : 0 <= j -> 2 ^ j <= m -> j + 1 <= Zdigits2 m.
Proof.
  intros Hj H.
  assert (0 < m) by (pose proof (Z.pow_pos_nonneg 2 j); lia).
  destruct (Zdigits2_bounds m) as [_ Hhi]; [assumption|].
  pose proof (Zdigits2_nonneg m).
  assert (j < Zdigits2 m); [|lia].
  apply (Z.pow_lt_mono_r_iff 2); lia.
Qed.

Lemma Zdigits2_le (m j : Z) : 0 <= j -> 0 <= m < 2 ^ j -> Zdigits2 m <= j.
Proof.
  intros Hj [H0 H].
  destruct (Z.eq_dec m 0) as [->|]; [cbn; lia|].
  destruct (Zdigits2_bounds m) as [Hlo _]; [lia|].
  assert (Zdigits2 m - 1 < j); [|lia].
  pose proof (Zdigits2_nonneg m).
  apply (Z.pow_lt_mono_r_iff 2); lia.
Qed.

(** ** Shifting with a round bit and a sticky bit *)

Lemma located_shr_1 (T V : Z) (mrs : shr_record) :
  0 < T -> located T V mrs -> located (2 * T) V (shr_1 mrs).
Proof.
  intros HT (Hm & rem & HV & Hrem & Hr & Hs).
  destruct mrs as [m r s]. cbn [shr_m shr_r shr_s] in *.
  destruct m as [|[p|p|]|p]; try lia; unfold located; cbn [shr_1 shr_m shr_r shr_s].
  - (* 0 *)
    split; [lia|]. exists rem.
    split; [lia|]. split; [lia|]. split; [split; [discriminate | lia]|].
    intros Hrs. apply orb_false_iff in Hrs. destruct Hrs as [-> ->].
    destruct Hs as [Hs _]; [reflexivity|]. specialize (Hs eq_refl).
    split; [lia | discriminate].
  - (* 2p+1 *)
    split; [lia|]. exists (rem + T).
    rewrite Pos2Z.inj_xI in HV.
    split; [rewrite HV; ring|]. split; [lia|]. split; [split; [lia | reflexivity]|].
    intros Hrs. apply orb_false_iff in Hrs. destruct Hrs as [-> ->].
    destruct Hs as [Hs _]; [reflexivity|]. specialize (Hs eq_refl).
    split; [discriminate | lia].
  - (* 2p *)
    split; [lia|]. exists rem.
    rewrite Pos2Z.inj_xO in HV.
    split; [rewrite HV; ring|]. split; [lia|]. split; [split; [discriminate | lia]|].
    intros Hrs. apply orb_false_iff in Hrs. destruct Hrs as [-> ->].
    destruct Hs as [Hs _]; [reflexivity|]. specialize (Hs eq_refl).
    split; [lia | discriminate].
  - (* 1 *)
    split; [lia|]. exists (rem + T).
    split; [lia|]. split; [lia|]. split; [split; [lia | reflexivity]|].
    intros Hrs. apply orb_false_iff in Hrs. destruct Hrs as [-> ->].
    destruct Hs as [Hs _]; [reflexivity|]. specialize (Hs eq_refl).
    split; [discriminate | lia].
Qed.

Lemma located_iter_shr_1 (p : positive) :
  forall (T V : Z) (mrs : shr_record),
    0 < T -> located T V mrs -> located (2 ^ Z.pos p * T) V (SpecFloat.iter_pos shr_1 p mrs).
Proof.
  induction p as [p IH|p IH|]; intros T V mrs HT H; cbn [SpecFloat.iter_pos].
  - replace (2 ^ Z.pos p~1 * T) with (2 ^ Z.pos p * (2 ^ Z.pos p * (2 * T))).
    + assert (0 < 2 ^ Z.pos p) by (apply Z.pow_pos_nonneg; lia).
      apply IH; [nia|]. apply IH; [lia|]. apply located_shr_1; assumption.
    + replace (Z.pos p~1) with (Z.pos p + Z.pos p + 1) by lia.
      rewrite !Z.pow_add_r by lia. change (2 ^ 1) with 2. ring.
  - replace (2 ^ Z.pos p~0 * T) with (2 ^ Z.pos p * (2 ^ Z.pos p * T)).
    + assert (0 < 2 ^ Z.pos p) by (apply Z.pow_pos_nonneg; lia).
      apply IH; [nia|]. apply IH; assumption.
    + replace (Z.pos p~0) with (Z.pos p + Z.pos p) by lia.
      rewrite !Z.pow_add_r by lia. ring.
  - change (2 ^ 1) with 2. apply located_shr_1; assumption.
Qed.

(** [shr] by [n] places, when [n] is not negative. *)
Lemma located_shr (T V : Z) (mrs : shr_record) (e n : Z) :
  0 < T -> 0 <= n -> located T V mrs ->
  located (2 ^ n * T) V (fst (shr mrs e n)) /\ snd (shr mrs e n) = e + n.
Proof.
  intros HT Hn H. destruct n as [|p|p]; try lia; cbn [shr fst snd].
  - split; [|lia]. change (2 ^ 0) with 1. rewrite Z.mul_1_l. exact H.
  - split; [|reflexivity]. apply located_iter_shr_1; assumption.
Qed.

(** Rounding to nearest, ties to even, stays within half a unit, and is
    exact on a multiple of the unit. *)
Lemma round_nearest_even_located (T V : Z) (mrs : shr_record) :
  0 < T -> located T V mrs ->
  let m := round_nearest_even (shr_m mrs) (loc_of_shr_record mrs) in
  (m = shr_m mrs \/ m = shr_m mrs + 1) /\
  2 * Z.abs (m * T - V) <= T /\
  (V mod T = 0 -> m * T = V).
Proof.
  intros HT (Hm & rem & HV & Hrem & Hr & Hs).
  destruct mrs as [m r s]. cbn [shr_m shr_r shr_s] in *.
  assert (Hmod : V mod T = rem).
  { rewrite HV, Z.add_comm, Z.mod_add by lia. apply Z.mod_small. lia. }
  rewrite Hmod.
  destruct r, s; cbn [loc_of_shr_record round_nearest_even].
  - (* more than half *)
    split; [right; reflexivity|]. split; [|lia].
    assert (T <= 2 * rem) by (apply Hr; reflexivity). lia.
  - (* exactly half *)
    destruct Hs as [_ Hs]; [reflexivity|]. specialize (Hs eq_refl).
    destruct (Z.even m); (split; [auto|]); (split; [|lia]); lia.
  - split; [left; reflexivity|]. split; [|lia].
    assert (~ T <= 2 * rem) by (intros H; apply Hr in H; discriminate). lia.
  - split; [left; reflexivity|]. split; [|lia].
    assert (~ T <= 2 * rem) by (intros H; apply Hr in H; discriminate). lia.
Qed.

Lemma located_bounds (T V : Z) (mrs : shr_record) :
  located T V mrs -> 0 <= shr_m mrs /\ shr_m mrs * T <= V < (shr_m mrs + 1) * T.
Proof. intros (Hm & rem & HV & Hrem & _). split; [exact Hm|]. rewrite HV. lia. Qed.

Lemma shr_record_of_loc_m (m : Z) (l : location) : shr_m (shr_record_of_loc m l) = m.
Proof. destruct l as [|[]]; reflexivity. Qed.

Lemma located_exact (m : Z) : 0 <= m -> located 1 m (shr_record_of_loc m loc_Exact).
Proof.
  intros Hm. split; [exact Hm|]. exists 0. cbn [shr_record_of_loc shr_m shr_r shr_s].
  split; [lia|]. split; [lia|]. split; [split; [discriminate | lia]|].
  intros _. split; [reflexivity | discriminate].
Qed.

(** ** The exponent function of binary64 *)

Lemma fexp_eq (e : Z) : fexp prec emax e = Z.max (e - 53) (-1074).
Proof. reflexivity. Qed.

(** ** [binary_round_aux]

    The number [V] is given in units of [T0] by the mantissa [mx] and the
    location [lx]; it stands for [V / T0 * 2 ^ ex].  When the exponent
    [ex] is not above the exponent of the format at this magnitude, the
    result is a valid float that represents a mantissa [m2] at the exponent
    of the format, where [m2] is within half a unit of [V]. *)
Lemma binary_round_aux_spec (sx : bool) (mx ex : Z) (lx : location) (T0 V : Z) :
  0 < T0 ->
  located T0 V (shr_record_of_loc mx lx) ->
  let n := fexp prec emax (Zdigits2 mx + ex) - ex in
  0 <= n ->
  let T := 2 ^ n * T0 in
  let z := binary_round_aux prec emax sx mx ex lx in
  SpecFloat.valid_binary prec emax z = true /\
  exists m2,
    0 <= m2 /\ 2 * Z.abs (m2 * T - V) <= T /\ (V mod T = 0 -> m2 * T = V) /\
    match z with
    | S754_zero s => s = sx /\ m2 = 0
    | S754_finite s m e =>
        s = sx /\ ex + n <= e /\ Z.pos m * 2 ^ (e - (ex + n)) = m2
    | S754_infinity s => s = sx /\ 2 ^ 1024 <= m2 * 2 ^ (ex + n)
    | S754_nan => False
    end.
Proof.
  intros HT0 H0 n Hn T z.
  assert (HP : 0 < 2 ^ n) by (apply Z.pow_pos_nonneg; lia).
  assert (HT : 0 < T) by (unfold T; nia).
  destruct (located_bounds _ _ _ H0) as [Hmx HV0]. rewrite shr_record_of_loc_m in Hmx, HV0.
  destruct (located_shr T0 V _ ex n HT0 Hn H0) as [Hloc He].
  fold T in Hloc.
  unfold z, binary_round_aux, shr_fexp. fold n.
  destruct (shr (shr_record_of_loc mx lx) ex n) as [mrs1 e1]. cbn [fst snd] in Hloc, He.
  subst e1.
  destruct (located_bounds _ _ _ Hloc) as [Hm1 HV1].
  destruct (round_nearest_even_located T V mrs1 HT Hloc) as (Hm2 & Herr & Hexact).
  set (m1 := shr_m mrs1) in *.
  set (m2 := round_nearest_even m1 (loc_of_shr_record mrs1)) in *.
  (* the mantissa after the shift is the quotient by 2 ^ n *)
  assert (Hq : m1 * 2 ^ n <= mx < (m1 + 1) * 2 ^ n) by (unfold T in HV1; nia).
  pose proof (Zdigits2_nonneg mx) as Hd.
  set (d := Zdigits2 mx) in *.
  assert (He1 : ex + n = Z.max (d + ex - 53) (-1074)) by (unfold n, d; rewrite fexp_eq; lia).
  assert (Hm1hi : m1 < 2 ^ 53).
  { destruct (Z.eq_dec mx 0) as [E0|E0]; [nia|].
    destruct (Zdigits2_bounds mx) as [_ Hhi]; [lia|]. fold d in Hhi.
    assert (2 ^ d <= 2 ^ (53 + n)) by (apply Z.pow_le_mono_r; lia).
    rewrite Z.pow_add_r in H by lia. nia. }
  assert (Hm1lo : -1074 < ex + n -> 2 ^ 52 <= m1).
  { intros Hnorm. assert (Hdn : d = 53 + n) by lia.
    assert (mx <> 0).
    { intros E. unfold d in Hdn. rewrite E in Hdn. cbn [Zdigits2] in Hdn. lia. }
    destruct (Zdigits2_bounds mx) as [Hlo _]; [lia|]. fold d in Hlo.
    replace (d - 1) with (52 + n) in Hlo by lia.
    rewrite Z.pow_add_r in Hlo by lia. nia. }
  assert (Hm2hi : 0 <= m2 <= 2 ^ 53) by lia.
  set (e1 := ex + n) in *.
  assert (Hwit : forall z',
             match z' with
             | S754_zero s => s = sx /\ m2 = 0
             | S754_finite s m e => s = sx /\ e1 <= e /\ Z.pos m * 2 ^ (e - e1) = m2
             | S754_infinity s => s = sx /\ 2 ^ 1024 <= m2 * 2 ^ e1
             | S754_nan => False
             end ->
             exists m2',
               0 <= m2' /\ 2 * Z.abs (m2' * T - V) <= T /\ (V mod T = 0 -> m2' * T = V) /\
               match z' with
               | S754_zero s => s = sx /\ m2' = 0
               | S754_finite s m e => s = sx /\ e1 <= e /\ Z.pos m * 2 ^ (e - e1) = m2'
               | S754_infinity s => s = sx /\ 2 ^ 1024 <= m2' * 2 ^ e1
               | S754_nan => False
               end).
  { intros z' Hz'. exists m2. split; [lia|]. split; [exact Herr|]. split; [exact Hexact|].
    exact Hz'. }
  destruct (Z.eq_dec m2 (2 ^ 53)) as [E|E].
  - (* the rounding carried into a 54th digit: one more shift *)
    rewrite E in *.
    replace (fexp prec emax (Zdigits2 (2 ^ 53) + e1) - e1) with 1
      by (rewrite fexp_eq; change (Zdigits2 (2 ^ 53)) with 54; lia).
    cbn [shr shr_record_of_loc SpecFloat.iter_pos]. change (2 ^ 53) with 9007199254740992.
    cbn [shr_1 shr_m].
    destruct (Z.leb_spec (e1 + 1) (emax - prec)) as [Hle|Hgt].
    + split.
      * cbn [SpecFloat.valid_binary bounded canonical_mantissa].
        apply andb_true_intro. split; [|apply Z.leb_le; exact Hle].
        apply Z.eqb_eq. rewrite fexp_eq.
        change (Z.pos (digits2_pos 4503599627370496)) with 53. lia.
      * apply (Hwit (S754_finite sx 4503599627370496 (e1 + 1))).
        split; [reflexivity|]. split; [lia|].
        replace (e1 + 1 - e1) with 1 by lia. reflexivity.
    + split; [reflexivity|]. apply (Hwit (S754_infinity sx)). split; [reflexivity|].
      change (emax - prec) with 971 in Hgt.
      assert (2 ^ 971 <= 2 ^ e1) by (apply Z.pow_le_mono_r; lia).
      change (2 ^ 1024) with (2 ^ 53 * 2 ^ 971). nia.
  - (* no further shift *)
    assert (Hm2lt : m2 < 2 ^ 53) by lia.
    assert (Hd2 : Zdigits2 m2 <= 53) by (apply Zdigits2_le; lia).
    assert (Hd2' : -1074 < e1 -> 53 <= Zdigits2 m2).
    { intros Hnorm. apply (Zdigits2_ge m2 52); [lia|]. specialize (Hm1lo Hnorm). lia. }
    assert (Hn2 : fexp prec emax (Zdigits2 m2 + e1) - e1 = 0) by (rewrite fexp_eq; lia).
    rewrite Hn2. cbn [shr shr_record_of_loc shr_m].
    destruct m2 as [|p|p]; [| |lia].
    + split; [reflexivity|]. apply (Hwit (S754_zero sx)). split; reflexivity.
    + destruct (Z.leb_spec e1 (emax - prec)) as [Hle|Hgt].
      * split.
        -- cbn [SpecFloat.valid_binary bounded canonical_mantissa].
           apply andb_true_intro. split; [|apply Z.leb_le; exact Hle].
           apply Z.eqb_eq. cbn [Zdigits2] in Hn2. lia.
        -- apply (Hwit (S754_finite sx p e1)). split; [reflexivity|]. split; [lia|].
           rewrite Z.sub_diag. cbn. lia.
      * split; [reflexivity|]. apply (Hwit (S754_infinity sx)). split; [reflexivity|].
        change (emax - prec) with 971 in Hgt.
        assert (2 ^ 972 <= 2 ^ e1) by (apply Z.pow_le_mono_r; lia).
        assert (2 ^ 52 <= Z.pos p) by (specialize (Hm1lo ltac:(lia)); lia).
        change (2 ^ 1024) with (2 ^ 52 * 2 ^ 972).
        assert (0 < 2 ^ 52) by (apply Z.pow_pos_nonneg; lia).
        assert (0 < 2 ^ 972) by (apply Z.pow_pos_nonneg; lia). nia.
Qed.

(** ** Powers of two *)

Lemma bpow_pos (e : Z) : (0 < bpow e)%R.
Proof. apply powerRZ_lt. lra. Qed.

Lemma bpow_add (a b : Z) : bpow (a + b) = (bpow a * bpow b)%R.
Proof. apply powerRZ_add. lra. Qed.

Lemma bpow_IZR (k : Z) : 0 <= k -> IZR (2 ^ k) = bpow k.
Proof.
  intros Hk. unfold bpow. rewrite <- (Z2Nat.id k Hk) at 1 2.
  rewrite <- pow_IZR, <- pow_powerRZ. reflexivity.
Qed.

Lemma bpow_le (a b : Z) : a <= b -> (bpow a <= bpow b)%R.
Proof.
  intros H. replace b with (a + (b - a)) by lia. rewrite bpow_add.
  rewrite <- (bpow_IZR (b - a)) by lia.
  assert (1 <= IZR (2 ^ (b - a)))%R.
  { apply IZR_le. pose proof (Z.pow_pos_nonneg 2 (b - a)). lia. }
  pose proof (bpow_pos a). nra.
Qed.

Lemma bpow_pred (e : Z) : bpow (e - 1) = (bpow e / 2)%R.
Proof.
  replace e with ((e - 1) + 1) at 2 by lia. rewrite bpow_add.
  change (bpow 1) with (2 * 1)%R. field.
Qed.

Lemma bpow_max (a b : Z) : (bpow (Z.max a b) <= bpow a + bpow b)%R.
Proof.
  pose proof (bpow_pos a). pose proof (bpow_pos b).
  destruct (Z.max_spec a b) as [[_ ->]|[_ ->]]; lra.
Qed.

(** The value of the result of [binary_round_aux] for a positive number:
    within half a unit in the last place of the exact value, and equal to
    it when the exact value is a multiple of the unit. *)
Lemma binary_round_aux_value (mx ex : Z) (lx : location) (T0 V : Z) :
  0 < T0 ->
  located T0 V (shr_record_of_loc mx lx) ->
  let n := fexp prec emax (Zdigits2 mx + ex) - ex in
  0 <= n ->
  let z := binary_round_aux prec emax false mx ex lx in
  let x := (IZR V / IZR T0 * bpow ex)%R in
  SpecFloat.valid_binary prec emax z = true /\
  (z = S754_nan -> False) /\
  (forall s m e, z = S754_finite s m e -> s = false) /\
  (forall s, z = S754_infinity s -> V mod (2 ^ n * T0) = 0 -> (bpow 1024 <= x)%R) /\
  (SFfinite z = true ->
   (Rabs (SF2R z - x) <= bpow (ex + n - 1))%R /\
   (V mod (2 ^ n * T0) = 0 -> SF2R z = x)).
Proof.
  intros HT0 H0 n Hn z x.
  destruct (binary_round_aux_spec false mx ex lx T0 V HT0 H0 Hn)
    as (Hvalid & m2 & Hm2 & Herr & Hexact & Hz).
  fold n z in Hvalid, Herr, Hexact, Hz.
  split; [exact Hvalid|]. split; [intros E; rewrite E in Hz; exact Hz|].
  split; [intros s m e E; rewrite E in Hz; apply Hz|].
  assert (HP : 0 < 2 ^ n) by (apply Z.pow_pos_nonneg; lia).
  set (T := 2 ^ n * T0) in *.
  assert (HT : 0 < T) by (unfold T; nia).
  assert (HTR : (0 < IZR T)%R) by (apply IZR_lt; lia).
  assert (Hx : x = (IZR V / IZR T * bpow (ex + n))%R).
  { unfold x, T. rewrite mult_IZR, bpow_IZR, bpow_add by lia.
    pose proof (bpow_pos n). assert (0 < IZR T0)%R by (apply IZR_lt; lia).
    field. split; lra. }
  split.
  { intros s E Hmod. rewrite E in Hz. destruct Hz as [_ Hbig].
    destruct (Z.le_gt_cases 0 (ex + n)) as [He|He].
    - rewrite Hx, <- (Hexact Hmod), mult_IZR.
      replace (IZR m2 * IZR T / IZR T * bpow (ex + n))%R with (IZR m2 * bpow (ex + n))%R
        by (field; lra).
      rewrite <- (bpow_IZR 1024), <- (bpow_IZR (ex + n)), <- mult_IZR by lia.
      apply IZR_le. exact Hbig.
    - exfalso. rewrite (Z.pow_neg_r 2 (ex + n)) in Hbig by lia.
      pose proof (Z.pow_pos_nonneg 2 1024). lia. }
  intros Hfin.
  assert (Hval : SF2R z = (IZR m2 * bpow (ex + n))%R).
  { destruct z as [s|s| |s m e]; try discriminate Hfin; cbn [SF2R].
    - destruct Hz as [_ ->]. lra.
    - destruct Hz as (-> & He & Hm). rewrite <- Hm, mult_IZR, bpow_IZR by lia.
      replace e with ((e - (ex + n)) + (ex + n)) at 1 by lia. rewrite bpow_add. ring. }
  split.
  - rewrite Hval, Hx.
    replace (IZR m2 * bpow (ex + n) - IZR V / IZR T * bpow (ex + n))%R
      with ((IZR (m2 * T - V) / IZR T) * bpow (ex + n))%R
      by (rewrite minus_IZR, mult_IZR; field; lra).
    rewrite Rabs_mult, (Rabs_pos_eq (bpow _)) by (apply Rlt_le, bpow_pos).
    rewrite bpow_pred. pose proof (bpow_pos (ex + n)).
    assert (Rabs (IZR (m2 * T - V) / IZR T) <= 1 / 2)%R; [|nra].
    unfold Rdiv. rewrite Rabs_mult, (Rabs_pos_eq (/ IZR T)) by (apply Rlt_le, Rinv_0_lt_compat; lra).
    rewrite <- abs_IZR.
    assert (2 * IZR (Z.abs (m2 * T - V)) <= IZR T)%R.
    { rewrite <- mult_IZR. apply IZR_le. exact Herr. }
    apply (Rmult_le_reg_r (IZR T)); [lra|]. field_simplify; lra.
  - intros Hmod. rewrite Hval, Hx. rewrite <- (Hexact Hmod), mult_IZR. field. lra.
Qed.

(** Half a unit in the last place, against the magnitude of the number. *)
Lemma half_ulp_bound (m e : Z) :
  0 <= m -> 0 <= fexp prec emax (Zdigits2 m + e) - e ->
  (bpow (fexp prec emax (Zdigits2 m + e) - 1)
   <= bpow (-53) * (IZR m * bpow e) + bpow (-1075))%R.
Proof.
  intros Hm Hn. rewrite fexp_eq in *.
  destruct (Z.eq_dec m 0) as [->|Hm0].
  - cbn [Zdigits2] in *. replace (Z.max (0 + e - 53) (-1074)) with (-1074) by lia.
    change (-1074 - 1) with (-1075). pose proof (bpow_pos (-1075)). lra.
  - destruct (Zdigits2_bounds m) as [Hlo _]; [lia|].
    set (d := Zdigits2 m) in *.
    assert (0 < d) by (unfold d; destruct m; cbn; lia).
    assert (Hlo' : (bpow (d - 1) <= IZR m)%R).
    { rewrite <- bpow_IZR by lia. apply IZR_le. exact Hlo. }
    replace (Z.max (d + e - 53) (-1074) - 1) with (Z.max (d + e - 54) (-1075)) by lia.
    eapply Rle_trans; [apply bpow_max|].
    apply Rplus_le_compat_r.
    replace (d + e - 54) with (-53 + ((d - 1) + e)) by lia.
    rewrite !bpow_add. pose proof (bpow_pos (-53)). pose proof (bpow_pos e).
    apply Rmult_le_compat_l; [lra|]. apply Rmult_le_compat_r; lra.
Qed.

(** ** Valid floats *)

Lemma valid_finite (x : float) (s : bool) (m : positive) (e : Z) :
  Prim2SF x = S754_finite s m e ->
  e = Z.max (Z.pos (digits2_pos m) + e - 53) (-1074) /\ e <= 971.
Proof.
  intros H. pose proof (Prim2SF_valid x) as Hv. rewrite H in Hv.
  cbn [SpecFloat.valid_binary] in Hv. unfold bounded, canonical_mantissa in Hv.
  apply andb_prop in Hv. destruct Hv as [Hc Hb].
  apply Z.eqb_eq in Hc. apply Z.leb_le in Hb. rewrite fexp_eq in Hc.
  change (emax - prec) with 971 in Hb. lia.
Qed.

Lemma Zdigits2_mul_ge (a b : Z) :
  0 < a -> 0 < b -> Zdigits2 a + Zdigits2 b - 1 <= Zdigits2 (a * b).
Proof.
  intros Ha Hb.
  destruct (Zdigits2_bounds a Ha) as [Ha' _]. destruct (Zdigits2_bounds b Hb) as [Hb' _].
  assert (0 < Zdigits2 a) by (destruct a; cbn in *; lia).
  assert (0 < Zdigits2 b) by (destruct b; cbn in *; lia).
  replace (Zdigits2 a + Zdigits2 b - 1) with ((Zdigits2 a - 1) + (Zdigits2 b - 1) + 1) by lia.
  apply Zdigits2_ge; [lia|]. rewrite Z.pow_add_r by lia.
  pose proof (Z.pow_pos_nonneg 2 (Zdigits2 a - 1)).
  pose proof (Z.pow_pos_nonneg 2 (Zdigits2 b - 1)). nia.
Qed.

(** ** Multiplication of positive floats: the standard error model *)

Lemma mul_error (x y : float) (mx my : positive) (ex ey : Z) :
  Prim2SF x = S754_finite false mx ex ->
  Prim2SF y = S754_finite false my ey ->
  finite (x * y) = true ->
  (Rabs (F2R (x * y) - F2R x * F2R y)
   <= bpow (-53) * (F2R x * F2R y) + bpow (-1075))%R.
Proof.
  intros Hx Hy. unfold finite, F2R. rewrite mul_spec, Hx, Hy.
  cbn [SF64mul SFmul xorb SF2R].
  destruct (valid_finite x _ _ _ Hx) as [Hcx _].
  destruct (valid_finite y _ _ _ Hy) as [Hcy _].
  pose proof (Zdigits2_mul_ge (Z.pos mx) (Z.pos my) eq_refl eq_refl) as Hd.
  change (Z.pos mx * Z.pos my) with (Z.pos (mx * my)) in Hd. cbn [Zdigits2] in Hd.
  assert (Hn : 0 <= fexp prec emax (Zdigits2 (Z.pos (mx * my)) + (ex + ey)) - (ex + ey)).
  { rewrite fexp_eq. cbn [Zdigits2]. lia. }
  destruct (binary_round_aux_value (Z.pos (mx * my)) (ex + ey) loc_Exact 1 (Z.pos (mx * my))
              eq_refl (located_exact _ (Pos2Z.is_nonneg _)) Hn) as (_ & _ & _ & _ & H).
  intros Hfin. destruct (H Hfin) as [Herr _]. clear H.
  replace (IZR (Z.pos (mx * my)) / 1 * bpow (ex + ey))%R
    with (1 * IZR (Z.pos mx) * bpow ex * (1 * IZR (Z.pos my) * bpow ey))%R in Herr
    by (rewrite Pos2Z.inj_mul, mult_IZR, bpow_add; field).
  eapply Rle_trans; [exact Herr|].
  replace (ex + ey + (fexp prec emax (Zdigits2 (Z.pos (mx * my)) + (ex + ey)) - (ex + ey)) - 1)
    with (fexp prec emax (Zdigits2 (Z.pos (mx * my)) + (ex + ey)) - 1) by lia.
  eapply Rle_trans; [apply half_ulp_bound; [lia | exact Hn]|].
  rewrite Pos2Z.inj_mul, mult_IZR, bpow_add. apply Req_le. ring.
Qed.

(** ** Division of positive floats *)

Lemma located_new_location (D q r : Z) :
  0 < D -> 0 <= q -> 0 <= r < D ->
  located D (q * D + r) (shr_record_of_loc q (new_location D r)).
Proof.
  intros HD Hq Hr. unfold located. rewrite shr_record_of_loc_m.
  split; [exact Hq|]. exists r. split; [reflexivity|]. split; [exact Hr|].
  unfold new_location, new_location_even, new_location_odd.
  destruct (Z.even D); destruct (Z.eqb_spec r 0) as [->|Hr0];
    cbn [shr_record_of_loc shr_r shr_s];
    try (split; [split; [discriminate | lia] | intros _; split; [reflexivity | discriminate]]).
  - destruct (Z.compare_spec (2 * r) D); cbn [shr_record_of_loc shr_r shr_s].
    + split; [split; [lia | reflexivity] | intros _; split; [discriminate | lia]].
    + split; [split; [discriminate | lia] | discriminate].
    + split; [split; [lia | reflexivity] | discriminate].
  - destruct (Z.compare_spec (2 * r + 1) D); cbn [shr_record_of_loc shr_r shr_s].
    + split; [split; [discriminate | lia] | discriminate].
    + split; [split; [discriminate | lia] | discriminate].
    + split; [split; [lia | reflexivity] | discriminate].
Qed.

Lemma div_error (x y : float) (mx my : positive) (ex ey : Z) :
  Prim2SF x = S754_finite false mx ex ->
  Prim2SF y = S754_finite false my ey ->
  finite (x / y) = true ->
  (Rabs (F2R (x / y) - F2R x / F2R y)
   <= bpow (-53) * (F2R x / F2R y) + bpow (-1075))%R /\
  (0 <= F2R (x / y))%R.
Proof.
  intros Hx Hy. unfold finite, F2R. rewrite div_spec, Hx, Hy.
  cbn [SF64div SFdiv xorb SF2R]. unfold SFdiv_core_binary.
  cbn [Zdigits2].
  set (dx := Z.pos (digits2_pos mx)). set (dy := Z.pos (digits2_pos my)).
  set (ez := Z.min (fexp prec emax (dx + ex - (dy + ey))) (ex - ey)).
  set (s := ex - ey - ez).
  assert (Hs : 0 <= s) by (unfold s, ez; lia).
  set (m' := match s with Z.pos _ => Z.shiftl (Z.pos mx) s | 0 => Z.pos mx | Z.neg _ => 0 end).
  assert (Hm' : m' = Z.pos mx * 2 ^ s).
  { unfold m'. destruct s as [|p|p]; [cbn; lia | apply Z.shiftl_mul_pow2; lia | lia]. }
  pose proof (Z_div_mod m' (Z.pos my) eq_refl) as Hdiv.
  destruct (Z.div_eucl m' (Z.pos my)) as [q r]. destruct Hdiv as [Hqr Hr].
  assert (HPs : 0 < 2 ^ s) by (apply Z.pow_pos_nonneg; lia).
  assert (Hq : 0 <= q) by nia.
  destruct (digits2_pos_bounds mx) as [Hxlo Hxhi]. fold dx in Hxlo, Hxhi.
  destruct (digits2_pos_bounds my) as [Hylo Hyhi]. fold dy in Hylo, Hyhi.
  assert (Hn : 0 <= fexp prec emax (Zdigits2 q + ez) - ez).
  { rewrite fexp_eq. destruct (Z.le_gt_cases ez (-1074)) as [|Hnorm]; [lia|].
    assert (Hez : ez <= dx + ex - (dy + ey) - 53) by (unfold ez in *; rewrite fexp_eq in *; lia).
    assert (53 <= Zdigits2 q); [|lia].
    apply (Zdigits2_ge q 52); [lia|].
    assert (2 ^ (52 + dy) <= 2 ^ (dx - 1 + s)) by (apply Z.pow_le_mono_r; unfold s; lia).
    rewrite !Z.pow_add_r in H by (unfold dx, dy; lia).
    assert (0 < 2 ^ (dx - 1)) by (apply Z.pow_pos_nonneg; unfold dx; lia).
    assert (0 < 2 ^ 52) by (apply Z.pow_pos_nonneg; lia).
    assert (0 < 2 ^ dy) by (apply Z.pow_pos_nonneg; unfold dy; lia).
    nia. }
  pose proof (located_new_location (Z.pos my) q r eq_refl Hq Hr) as Hloc.
  destruct (binary_round_aux_value q ez (new_location (Z.pos my) r) (Z.pos my)
              (q * Z.pos my + r) eq_refl Hloc Hn) as (_ & _ & _ & _ & H).
  intros Hfin. destruct (H Hfin) as [Herr _]. clear H.
  set (z := binary_round_aux prec emax false q ez (new_location (Z.pos my) r)) in *.
  assert (HX : (IZR (q * Z.pos my + r) / IZR (Z.pos my) * bpow ez
                = 1 * IZR (Z.pos mx) * bpow ex / (1 * IZR (Z.pos my) * bpow ey))%R).
  { replace (q * Z.pos my + r) with m' by lia. rewrite Hm', mult_IZR, bpow_IZR by lia.
    replace ex with (s + ez + ey) at 1 by (unfold s; lia). rewrite !bpow_add.
    pose proof (bpow_pos ey). assert (0 < IZR (Z.pos my))%R by (apply IZR_lt; lia).
    field. split; lra. }
  rewrite HX in Herr.
  assert (Hqle : (IZR q * bpow ez
                  <= 1 * IZR (Z.pos mx) * bpow ex / (1 * IZR (Z.pos my) * bpow ey))%R).
  { rewrite <- HX. pose proof (bpow_pos ez).
    apply Rmult_le_compat_r; [lra|].
    assert (0 < IZR (Z.pos my))%R by (apply IZR_lt; lia).
    apply (Rmult_le_reg_r (IZR (Z.pos my))); [lra|].
    replace (IZR (q * Z.pos my + r) / IZR (Z.pos my) * IZR (Z.pos my))%R
      with (IZR (q * Z.pos my + r)) by (field; lra).
    rewrite <- mult_IZR. apply IZR_le. lia. }
  split.
  - eapply Rle_trans; [exact Herr|].
    replace (ez + (fexp prec emax (Zdigits2 q + ez) - ez) - 1)
      with (fexp prec emax (Zdigits2 q + ez) - 1) by lia.
    eapply Rle_trans; [apply half_ulp_bound; [exact Hq | exact Hn]|].
    pose proof (bpow_pos (-53)). nra.
  - destruct (binary_round_aux_spec false q ez (new_location (Z.pos my) r) (Z.pos my)
                (q * Z.pos my + r) eq_refl Hloc Hn) as (_ & m2 & _ & _ & _ & Hz).
    fold z in Hz.
    destruct z as [sz|sz| |sz mz ez']; try discriminate Hfin; cbn [SF2R]; [lra|].
    destruct Hz as (-> & _). pose proof (bpow_pos ez').
    assert (0 < IZR (Z.pos mz))%R by (apply IZR_lt; lia). nra.
Qed.

(** ** [round] *)

Lemma round_half_even_error (m e : Z) :
  0 < m ->
  0 <= round_half_even m e /\
  (Rabs (IZR (round_half_even m e) - IZR m * bpow e) <= 1 / 2)%R.
Proof.
  intros Hm. unfold round_half_even.
  destruct (Z.leb_spec 0 e) as [He|He].
  - assert (0 < 2 ^ e) by (apply Z.pow_pos_nonneg; lia).
    split; [nia|]. rewrite mult_IZR, bpow_IZR by lia.
    replace (IZR m * bpow e - IZR m * bpow e)%R with 0%R by ring.
    rewrite Rabs_R0. lra.
  - set (d := 2 ^ (- e)).
    assert (Hd : 0 < d) by (apply Z.pow_pos_nonneg; lia).
    pose proof (Z.div_mod m d) as Hdm. pose proof (Z.mod_pos_bound m d Hd) as Hr.
    assert (Hq : 0 <= m / d) by (apply Z.div_pos; lia).
    set (q := m / d) in *. set (r := m mod d) in *.
    assert (HdR : (0 < IZR d)%R) by (apply IZR_lt; exact Hd).
    assert (Hval : (IZR m * bpow e = IZR q + IZR r / IZR d)%R).
    { replace (bpow e) with (/ IZR d)%R.
      - rewrite (Hdm ltac:(lia)) at 1. rewrite plus_IZR, mult_IZR. field. lra.
      - unfold d. rewrite bpow_IZR by lia. replace e with (- (- e)) at 2 by lia.
        unfold bpow. rewrite (powerRZ_neg' 2 (- e)). reflexivity. }
    assert (Hr0 : (0 <= IZR r)%R) by (apply IZR_le; lia).
    rewrite Hval.
    destruct (Z.ltb_spec (2 * r) d) as [H1|H1].
    + split; [lia|].
      apply (IZR_lt (2 * r) d) in H1. rewrite mult_IZR in H1.
      replace (IZR q - (IZR q + IZR r / IZR d))%R with (- (IZR r / IZR d))%R by ring.
      rewrite Rabs_Ropp, Rabs_pos_eq.
      * apply (Rmult_le_reg_r (IZR d)); [lra|]. field_simplify; lra.
      * apply Rmult_le_pos; [lra|]. apply Rlt_le, Rinv_0_lt_compat; lra.
    + assert (Hhalf : (IZR d <= 2 * IZR r)%R) by (rewrite <- mult_IZR; apply IZR_le; lia).
      assert (Hlt : (IZR r < IZR d)%R) by (apply IZR_lt; lia).
      assert (Hup : (Rabs (IZR (q + 1) - (IZR q + IZR r / IZR d)) <= 1 / 2)%R).
      { rewrite plus_IZR.
        replace (IZR q + 1 - (IZR q + IZR r / IZR d))%R with ((IZR d - IZR r) / IZR d)%R
          by (field; lra).
        rewrite Rabs_pos_eq.
        - apply (Rmult_le_reg_r (IZR d)); [lra|]. field_simplify; lra.
        - apply Rmult_le_pos; [lra|]. apply Rlt_le, Rinv_0_lt_compat; lra. }
      destruct (Z.ltb_spec d (2 * r)) as [H2|H2]; [split; [lia | exact Hup]|].
      destruct (Z.even q); [|split; [lia | exact Hup]].
      split; [lia|].
      assert (Heq : (2 * IZR r = IZR d)%R) by (rewrite <- mult_IZR; f_equal; lia).
      replace (IZR q - (IZR q + IZR r / IZR d))%R with (- (IZR r / IZR d))%R by ring.
      rewrite Rabs_Ropp, Rabs_pos_eq.
      * apply (Rmult_le_reg_r (IZR d)); [lra|]. field_simplify; lra.
      * apply Rmult_le_pos; [lra|]. apply Rlt_le, Rinv_0_lt_compat; lra.
Qed.

(** The integer that [round] gives for a valid float is a binary64 number:
    its digits past the 53rd are zero. *)
Lemma round_half_even_representable (m : positive) (e : Z) :
  e = Z.max (Z.pos (digits2_pos m) + e - 53) (-1074) ->
  let n := round_half_even (Z.pos m) e in
  n mod 2 ^ Z.max 0 (Zdigits2 n - 53) = 0.
Proof.
  intros Hc n. destruct (digits2_pos_bounds m) as [Hlo Hhi].
  set (dm := Z.pos (digits2_pos m)) in *.
  unfold n, round_half_even.
  destruct (Z.leb_spec 0 e) as [He|He].
  - assert (Hdm : dm = 53) by lia. rewrite Hdm in *.
    assert (HP : 0 < 2 ^ e) by (apply Z.pow_pos_nonneg; lia).
    assert (Hd : Zdigits2 (Z.pos m * 2 ^ e) = 53 + e).
    { apply Zdigits2_unique; [nia|].
      replace (53 + e - 1) with (52 + e) by lia. rewrite !Z.pow_add_r by lia.
      change (53 - 1) with 52 in Hlo. nia. }
    rewrite Hd. replace (Z.max 0 (53 + e - 53)) with e by lia.
    apply Z.mod_mul. lia.
  - assert (Hdm : dm <= 53) by lia.
    assert (Hm : Z.pos m < 2 ^ 53).
    { eapply Z.lt_le_trans; [exact Hhi|]. apply Z.pow_le_mono_r; lia. }
    set (d := 2 ^ (- e)).
    assert (Hd2 : 2 <= d).
    { unfold d. change 2 with (2 ^ 1) at 1. apply Z.pow_le_mono_r; lia. }
    assert (Hq : 0 <= Z.pos m / d < 2 ^ 52).
    { split; [apply Z.div_pos; lia|]. apply Z.div_lt_upper_bound; [lia|].
      change (2 ^ 52) with 4503599627370496. change (2 ^ 53) with 9007199254740992 in Hm. lia. }
    set (q := Z.pos m / d) in *.
    assert (Hn : forall k, 0 <= k <= 2 ^ 52 -> k mod 2 ^ Z.max 0 (Zdigits2 k - 53) = 0).
    { intros k Hk. assert (Zdigits2 k <= 53).
      { apply Zdigits2_le; [lia|]. change (2 ^ 52) with 4503599627370496 in Hk.
        change (2 ^ 53) with 9007199254740992. lia. }
      replace (Z.max 0 (Zdigits2 k - 53)) with 0 by lia. apply Z.mod_1_r. }
    destruct (2 * (Z.pos m mod d) <? d); [apply Hn; lia|].
    destruct (d <? 2 * (Z.pos m mod d)); [apply Hn; lia|].
    destruct (Z.even q); apply Hn; lia.
Qed.

(** ** Conversion of an integer *)

Lemma iter_xO_value (d p : positive) :
  Z.pos (Pos.iter xO p d) = Z.pos p * 2 ^ Z.pos d /\
  Z.pos (digits2_pos (Pos.iter xO p d)) = Z.pos (digits2_pos p) + Z.pos d.
Proof.
  induction d as [|d IH] using Pos.peano_ind.
  - cbn [Pos.iter digits2_pos]. split; [rewrite Pos2Z.inj_xO; change (2 ^ 1) with 2; lia | lia].
  - rewrite Pos.iter_succ. cbn [digits2_pos]. destruct IH as [IH1 IH2].
    rewrite Pos2Z.inj_xO, IH1, !Pos2Z.inj_succ, IH2, Z.pow_succ_r by lia. split; lia.
Qed.

(** [binary_normalize] on a positive integer whose digits past the 53rd are
    zero: a valid float of the same value, when it is finite. *)
Lemma binary_normalize_exact (p : positive) :
  Z.pos p mod 2 ^ Z.max 0 (Zdigits2 (Z.pos p) - 53) = 0 ->
  let z := binary_normalize prec emax (Z.pos p) 0 false in
  SpecFloat.valid_binary prec emax z = true /\
  (z = S754_nan -> False) /\
  (forall s m e, z = S754_finite s m e -> s = false) /\
  (forall s, z = S754_infinity s -> (bpow 1024 <= IZR (Z.pos p))%R) /\
  (SFfinite z = true -> SF2R z = IZR (Z.pos p)).
Proof.
  intros Hmod z. unfold z. cbn [binary_normalize]. unfold binary_round, shl_align.
  rewrite fexp_eq, Z.add_0_r, Z.sub_0_r. cbn [Zdigits2] in Hmod.
  set (dp := Z.pos (digits2_pos p)) in *.
  assert (Hdp : 0 < dp) by (unfold dp; lia).
  replace (Z.max (dp - 53) (-1074)) with (dp - 53) by lia.
  destruct (dp - 53) as [|k|k] eqn:Hk.
  - (* 53 digits *)
    assert (Hn : 0 <= fexp prec emax (Zdigits2 (Z.pos p) + 0) - 0).
    { rewrite fexp_eq. cbn [Zdigits2]. fold dp. lia. }
    destruct (binary_round_aux_value (Z.pos p) 0 loc_Exact 1 (Z.pos p)
                eq_refl (located_exact _ (Pos2Z.is_nonneg _)) Hn) as (Hv & Hnan & Hs & Hinf & H).
    assert (Hdiv : Z.pos p mod (2 ^ (fexp prec emax (Zdigits2 (Z.pos p) + 0) - 0) * 1) = 0).
    { rewrite fexp_eq. cbn [Zdigits2]. fold dp.
      replace (Z.max (dp + 0 - 53) (-1074) - 0) with 0 by lia. apply Z.mod_1_r. }
    assert (Hx : (IZR (Z.pos p) / 1 * bpow 0)%R = IZR (Z.pos p))
      by (change (bpow 0) with 1%R; field).
    rewrite Hx in *.
    split; [exact Hv|]. split; [exact Hnan|]. split; [exact Hs|].
    split; [intros s E; exact (Hinf s E Hdiv)|].
    intros Hfin. destruct (H Hfin) as [_ Hex]. exact (Hex Hdiv).
  - (* more than 53 digits *)
    assert (Hn : 0 <= fexp prec emax (Zdigits2 (Z.pos p) + 0) - 0).
    { rewrite fexp_eq. cbn [Zdigits2]. fold dp. lia. }
    destruct (binary_round_aux_value (Z.pos p) 0 loc_Exact 1 (Z.pos p)
                eq_refl (located_exact _ (Pos2Z.is_nonneg _)) Hn) as (Hv & Hnan & Hs & Hinf & H).
    assert (Hdiv : Z.pos p mod (2 ^ (fexp prec emax (Zdigits2 (Z.pos p) + 0) - 0) * 1) = 0).
    { rewrite fexp_eq. cbn [Zdigits2]. fold dp.
      replace (Z.max (dp + 0 - 53) (-1074) - 0) with (Z.max 0 (dp - 53)) by lia.
      rewrite Z.mul_1_r, Hk. exact Hmod. }
    assert (Hx : (IZR (Z.pos p) / 1 * bpow 0)%R = IZR (Z.pos p))
      by (change (bpow 0) with 1%R; field).
    rewrite Hx in *.
    split; [exact Hv|]. split; [exact Hnan|]. split; [exact Hs|].
    split; [intros s E; exact (Hinf s E Hdiv)|].
    intros Hfin. destruct (H Hfin) as [_ Hex]. exact (Hex Hdiv).
  - (* fewer than 53 digits: the mantissa is shifted left first *)
    destruct (iter_xO_value k p) as [Hval Hdig]. fold dp in Hdig.
    set (mz := Pos.iter xO p k) in *.
    assert (Hn : 0 <= fexp prec emax (Zdigits2 (Z.pos mz) + Z.neg k) - Z.neg k).
    { rewrite fexp_eq. cbn [Zdigits2]. lia. }
    destruct (binary_round_aux_value (Z.pos mz) (Z.neg k) loc_Exact 1 (Z.pos mz)
                eq_refl (located_exact _ (Pos2Z.is_nonneg _)) Hn) as (Hv & Hnan & Hs & Hinf & H).
    assert (Hdiv : Z.pos mz mod
                     (2 ^ (fexp prec emax (Zdigits2 (Z.pos mz) + Z.neg k) - Z.neg k) * 1) = 0).
    { rewrite fexp_eq. cbn [Zdigits2].
      replace (Z.max (Z.pos (digits2_pos mz) + Z.neg k - 53) (-1074) - Z.neg k) with 0 by lia.
      apply Z.mod_1_r. }
    assert (Hx : (IZR (Z.pos mz) / 1 * bpow (Z.neg k))%R = IZR (Z.pos p)).
    { rewrite Hval, mult_IZR, bpow_IZR by lia.
      replace (IZR (Z.pos p) * bpow (Z.pos k) / 1 * bpow (Z.neg k))%R
        with (IZR (Z.pos p) * (bpow (Z.pos k) * bpow (Z.neg k)))%R by field.
      rewrite <- bpow_add. replace (Z.pos k + Z.neg k) with 0 by lia.
      change (bpow 0) with 1%R. ring. }
    rewrite Hx in *.
    split; [exact Hv|]. split; [exact Hnan|]. split; [exact Hs|].
    split; [intros s E; exact (Hinf s E Hdiv)|].
    intros Hfin. destruct (H Hfin) as [_ Hex]. exact (Hex Hdiv).
Qed.

Lemma is_infinity_SF2Prim (s : bool) : is_infinity (SF2Prim (S754_infinity s)) = true.
Proof. destruct s; reflexivity. Qed.

(** [float(n)] is exact on such an integer. *)
Lemma float_of_int_exact (n : Z) (x : float) :
  0 <= n -> n mod 2 ^ Z.max 0 (Zdigits2 n - 53) = 0 ->
  float_of_int n = Return x ->
  F2R x = IZR n /\
  (n = 0 -> Prim2SF x = S754_zero false) /\
  (0 < n -> exists m e, Prim2SF x = S754_finite false m e).
Proof.
  intros Hn Hmod. unfold float_of_int.
  destruct n as [|p|p]; [| |lia].
  - cbn [binary_normalize SF2Prim].
    change (is_infinity PrimFloat.zero) with false. cbv iota. intros [= <-].
    unfold F2R. change (Prim2SF PrimFloat.zero) with (S754_zero false).
    split; [reflexivity|]. split; [reflexivity | lia].
  - destruct (binary_normalize_exact p Hmod) as (Hv & Hnan & Hs & _ & Hval).
    set (z := binary_normalize prec emax (Z.pos p) 0 false) in *.
    destruct (is_infinity (SF2Prim z)) eqn:Hinf; [discriminate|].
    intros [= <-]. unfold F2R. rewrite (Prim2SF_SF2Prim z Hv).
    assert (Hfin : SFfinite z = true).
    { destruct z as [s|s| |s m e]; try reflexivity.
      - rewrite is_infinity_SF2Prim in Hinf. discriminate.
      - exfalso. apply Hnan. reflexivity. }
    specialize (Hval Hfin). split; [exact Hval|]. split; [discriminate|].
    intros _. destruct z as [s|s| |s m e]; try discriminate Hfin.
    + cbn [SF2R] in Hval. assert (0 < IZR (Z.pos p))%R by (apply IZR_lt; lia). lra.
    + rewrite (Hs s m e eq_refl). exists m, e. reflexivity.
Qed.

(** [float(n)] does not raise below 2^1024. *)
Lemma float_of_int_total (n : Z) :
  0 <= n < 2 ^ 1024 -> n mod 2 ^ Z.max 0 (Zdigits2 n - 53) = 0 ->
  exists x, float_of_int n = Return x.
Proof.
  intros Hn Hmod. unfold float_of_int.
  destruct (is_infinity (SF2Prim (binary_normalize prec emax n 0 false))) eqn:Hinf;
    [|eexists; reflexivity].
  exfalso. destruct n as [|p|p]; [discriminate Hinf | | lia].
  destruct (binary_normalize_exact p Hmod) as (Hv & Hnan & _ & Hbig & _).
  set (z := binary_normalize prec emax (Z.pos p) 0 false) in *.
  assert (Hz : Prim2SF (SF2Prim z) = z) by (apply Prim2SF_SF2Prim; exact Hv).
  unfold is_infinity in Hinf. rewrite FloatAxioms.eqb_spec, abs_spec, Hz in Hinf.
  change (Prim2SF infinity) with (S754_infinity false) in Hinf.
  destruct z as [s|s| |s m e]; try discriminate Hinf.
  specialize (Hbig s eq_refl). rewrite <- (bpow_IZR 1024) in Hbig by lia.
  apply le_IZR in Hbig. lia.
Qed.

(** ** The quantity rounder *)

Lemma positive_cases (x : float) :
  PrimFloat.ltb 0 x = true ->
  (exists m e, Prim2SF x = S754_finite false m e) \/ Prim2SF x = S754_infinity false.
Proof.
  rewrite FloatAxioms.ltb_spec. change (Prim2SF 0) with (S754_zero false).
  destruct (Prim2SF x) as [s|s| |s m e]; cbn; try discriminate.
  - destruct s; [discriminate|]. right. reflexivity.
  - destruct s; [discriminate|]. left. exists m, e. reflexivity.
Qed.

Lemma py_round_inv (q : float) (n : Z) :
  py_round q = Return n ->
  (exists s, Prim2SF q = S754_zero s /\ n = 0) \/
  (exists s m e, Prim2SF q = S754_finite s m e /\
                 n = if s then - round_half_even (Z.pos m) e
                     else round_half_even (Z.pos m) e).
Proof.
  unfold py_round. destruct (Prim2SF q) as [s|s| |s m e]; try discriminate.
  - intros [= <-]. left. exists s. split; reflexivity.
  - intros [= <-]. right. exists s, m, e. split; reflexivity.
Qed.

Lemma Rabs_bounds (x b : R) : (Rabs x <= b)%R -> (- b <= x <= b)%R.
Proof. unfold Rabs. destruct (Rcase_abs x); lra. Qed.

(** The arithmetic of the error bound: [a] is the exact quotient, [q] its
    rounding, [n] the nearest integer, [r] the rounded product. *)
Lemma round_step_algebra (u eta S a q n r : R) :
  (0 < u <= 1)%R -> (0 < eta)%R -> (4 * eta <= u)%R -> (0 < S)%R -> (0 <= a)%R ->
  (0 <= n)%R ->
  (Rabs (q - a) <= u * a + eta)%R ->
  (Rabs (n - q) <= 1 / 2)%R ->
  (Rabs (r - n * S) <= u * (n * S) + eta)%R ->
  (Rabs (r - a * S) <= S / 2 + (4 * u * (a * S) + u * S + eta))%R.
Proof.
  intros Hu Heta Heu HS Ha Hn Hq Hnq Hr.
  apply Rabs_bounds in Hq, Hnq, Hr.
  assert (Hn_hi : (n <= a + u * a + eta + 1 / 2)%R) by lra.
  assert (Hn_lo : (a - u * a - eta - 1 / 2 <= n)%R) by lra.
  assert (HnS_hi : (n * S <= (a + u * a + eta + 1 / 2) * S)%R)
    by (apply Rmult_le_compat_r; lra).
  assert (HnS_lo : ((a - u * a - eta - 1 / 2) * S <= n * S)%R)
    by (apply Rmult_le_compat_r; lra).
  assert (HunS : (u * (n * S) <= u * ((a + u * a + eta + 1 / 2) * S))%R)
    by (apply Rmult_le_compat_l; lra).
  assert (HaS : (0 <= a * S)%R) by (apply Rmult_le_pos; lra).
  assert (HuaS : (0 <= u * (a * S))%R) by (apply Rmult_le_pos; lra).
  assert (Huu : (u * (u * (a * S)) <= u * (a * S))%R).
  { rewrite <- (Rmult_1_l (u * (a * S))) at 2. apply Rmult_le_compat_r; lra. }
  assert (HeS : (0 <= eta * S)%R) by (apply Rmult_le_pos; lra).
  assert (HueS : (u * (eta * S) <= eta * S)%R).
  { rewrite <- (Rmult_1_l (eta * S)) at 2. apply Rmult_le_compat_r; lra. }
  assert (HeS' : (4 * (eta * S) <= u * S)%R).
  { replace (4 * (eta * S))%R with (4 * eta * S)%R by ring.
    apply Rmult_le_compat_r; lra. }
  apply Rabs_le.
  replace ((a + u * a + eta + 1 / 2) * S)%R
    with (a * S + u * (a * S) + eta * S + S / 2)%R in * by field.
  replace ((a - u * a - eta - 1 / 2) * S)%R
    with (a * S - u * (a * S) - eta * S - S / 2)%R in * by field.
  replace (u * (a * S + u * (a * S) + eta * S + S / 2))%R
    with (u * (a * S) + u * (u * (a * S)) + u * (eta * S) + u * S / 2)%R in HunS by field.
  assert (HuS : (0 <= u * S)%R) by (apply Rmult_le_pos; lra).
  split; lra.
Qed.

Lemma bpow_constants :
  (0 < bpow (-53) <= 1)%R /\ (0 < bpow (-1075))%R /\
  (4 * bpow (-1075) <= bpow (-53))%R /\ bpow (-51) = (4 * bpow (-53))%R.
Proof.
  pose proof (bpow_pos (-53)). pose proof (bpow_pos (-1075)).
  pose proof (bpow_le (-53) 0 ltac:(lia)) as H1. change (bpow 0) with 1%R in H1.
  pose proof (bpow_le (-1073) (-53) ltac:(lia)) as H2.
  assert (H3 : bpow (-1073) = (4 * bpow (-1075))%R).
  { replace (-1073) with (2 + -1075) by lia. rewrite bpow_add.
    change (bpow 2) with (2 * (2 * 1))%R. ring. }
  assert (H4 : bpow (-51) = (4 * bpow (-53))%R).
  { replace (-51) with (2 + -53) by lia. rewrite bpow_add.
    change (bpow 2) with (2 * (2 * 1))%R. ring. }
  repeat split; lra.
Qed.

Lemma F2R_finite_pos (x : float) (m : positive) (e : Z) :
  Prim2SF x = S754_finite false m e -> (0 < F2R x)%R.
Proof.
  intros H. unfold F2R. rewrite H. cbn [SF2R].
  pose proof (bpow_pos e). assert (0 < IZR (Z.pos m))%R by (apply IZR_lt; lia). nra.
Qed.

(** The integer that [round] gives for a valid float is below 2^1024. *)
Lemma round_half_even_bound (m : positive) (e : Z) :
  e = Z.max (Z.pos (digits2_pos m) + e - 53) (-1074) -> e <= 971 ->
  round_half_even (Z.pos m) e < 2 ^ 1024.
Proof.
  intros Hc He. destruct (digits2_pos_bounds m) as [_ Hhi].
  assert (Hm : Z.pos m < 2 ^ 53).
  { eapply Z.lt_le_trans; [exact Hhi|]. apply Z.pow_le_mono_r; lia. }
  unfold round_half_even. destruct (Z.leb_spec 0 e) as [H0|H0].
  - assert (0 < 2 ^ e <= 2 ^ 971)
      by (split; [apply Z.pow_pos_nonneg; lia | apply Z.pow_le_mono_r; lia]).
    change (2 ^ 1024) with (2 ^ 53 * 2 ^ 971). nia.
  - set (d := 2 ^ (- e)).
    assert (Hd : 1 <= d) by (pose proof (Z.pow_pos_nonneg 2 (- e)); unfold d; lia).
    assert (Hq : Z.pos m / d <= Z.pos m) by (apply Z.div_le_upper_bound; nia).
    assert (2 ^ 53 + 1 < 2 ^ 1024) by (vm_compute; reflexivity).
    destruct (2 * (Z.pos m mod d) <? d); [lia|].
    destruct (d <? 2 * (Z.pos m mod d)); [lia|].
    destruct (Z.even (Z.pos m / d)); lia.
Qed.

(** What [round_step] does on positive numbers.  It raises when the
    quotient is not a number.  Otherwise it returns the product of [step]
    and the integer nearest to the quotient, converted exactly; when that
    product is a number, it is within half an ulp of the multiple of
    [step], and within half a step and the tolerance of [value]. *)
Lemma round_step_accuracy (value step : float) :
  PrimFloat.ltb 0 value = true -> PrimFloat.ltb 0 step = true ->
  (finite (value / step) = false ->
   exists c, round_step value step = Raise (Builtin c)) /\
  (finite (value / step) = true ->
   exists (n : Z) (n' : float),
     py_round (value / step) = Return n /\
     float_of_int n = Return n' /\ F2R n' = IZR n /\
     round_step value step = Return (n' * step)%float /\
     (finite (n' * step) = true ->
      (Rabs (F2R (n' * step) - IZR n * F2R step)
       <= bpow (-53) * (IZR n * F2R step) + bpow (-1075))%R /\
      (Rabs (F2R (n' * step) - F2R value) <= F2R step / 2 + tolerance value step)%R)).
Proof.
  intros Hv Hs.
  assert (Hrs : round_step value step
                = (n <- py_round (value / step) ;; int_mul_float n step)%result).
  { unfold round_step, truediv. rewrite (positive_nonzero step Hs). reflexivity. }
  rewrite Hrs. split.
  { unfold finite, py_round. destruct (Prim2SF (value / step)); try discriminate;
      intros _; eexists; reflexivity. }
  intros Hqfin.
  destruct (positive_cases value Hv) as [(mv & ev & Ev)|Ev];
    destruct (positive_cases step Hs) as [(ms & es & Es)|Es].
  2:{ (* the step is infinite: the quotient is 0 and the product is a NaN *)
      assert (Eq : Prim2SF (value / step) = S754_zero false)
        by (rewrite div_spec, Ev, Es; reflexivity).
      exists 0, 0%float. unfold py_round. rewrite Eq.
      split; [reflexivity|]. split; [reflexivity|]. split; [reflexivity|].
      split; [reflexivity|].
      unfold finite. rewrite mul_spec, Es. discriminate. }
  2:{ exfalso. unfold finite in Hqfin. rewrite div_spec, Ev, Es in Hqfin. discriminate. }
  2:{ exfalso. unfold finite in Hqfin. rewrite div_spec, Ev, Es in Hqfin. discriminate. }
  (* both are numbers *)
  destruct (div_error value step mv ms ev es Ev Es Hqfin) as [Hdiv Hq0].
  pose proof (F2R_finite_pos value mv ev Ev) as HV.
  pose proof (F2R_finite_pos step ms es Es) as HS.
  (* the integer *)
  assert (Hint : exists n, py_round (value / step) = Return n /\
                 0 <= n < 2 ^ 1024 /\ n mod 2 ^ Z.max 0 (Zdigits2 n - 53) = 0 /\
                 (Rabs (IZR n - F2R (value / step)) <= 1 / 2)%R).
  { unfold py_round, finite, F2R in *.
    destruct (Prim2SF (value / step)) as [s|s| |s m e] eqn:Hq; try discriminate Hqfin.
    - exists 0. split; [reflexivity|]. split; [split; [lia | reflexivity]|].
      split; [reflexivity|]. cbn [SF2R].
      replace (0 - 0)%R with 0%R by ring. rewrite Rabs_R0. lra.
    - destruct s.
      + exfalso. cbn [SF2R] in Hq0.
        pose proof (bpow_pos e). assert (0 < IZR (Z.pos m))%R by (apply IZR_lt; lia). nra.
      + destruct (round_half_even_error (Z.pos m) e eq_refl) as [H0 H1].
        destruct (valid_finite _ _ _ _ Hq) as [Hc Hb].
        exists (round_half_even (Z.pos m) e). split; [reflexivity|].
        split; [split; [exact H0 | apply round_half_even_bound; assumption]|].
        split; [apply round_half_even_representable; exact Hc|].
        cbn [SF2R].
        replace (1 * IZR (Z.pos m) * bpow e)%R with (IZR (Z.pos m) * bpow e)%R by ring.
        exact H1. }
  destruct Hint as (n & Hn & Hn0 & Hrep & Hnear).
  destruct (float_of_int_total n Hn0 Hrep) as (n' & Hn').
  destruct (float_of_int_exact n n' (proj1 Hn0) Hrep Hn') as (Hval & Hzero & Hpos).
  exists n, n'. split; [exact Hn|]. split; [exact Hn'|]. split; [exact Hval|].
  split; [rewrite Hn; cbn [rbind]; unfold int_mul_float; rewrite Hn'; reflexivity|].
  intros Hfin.
  (* the product *)
  assert (Hmul : (Rabs (F2R (n' * step) - IZR n * F2R step)
                  <= bpow (-53) * (IZR n * F2R step) + bpow (-1075))%R).
  { destruct (Z.eq_dec n 0) as [E|E].
    - assert (Ez : Prim2SF (n' * step) = S754_zero false)
        by (rewrite mul_spec, (Hzero E), Es; reflexivity).
      unfold F2R at 1. rewrite Ez, E. cbn [SF2R].
      replace (0 - 0 * F2R step)%R with 0%R by ring. rewrite Rabs_R0.
      pose proof (bpow_pos (-1075)). replace (bpow (-53) * (0 * F2R step))%R with 0%R by ring.
      lra.
    - destruct (Hpos ltac:(lia)) as (mn & en & En).
      rewrite <- Hval. apply (mul_error n' step mn ms en es En Es Hfin). }
  split; [exact Hmul|].
  destruct bpow_constants as (Hu & Heta & Heu & H51).
  unfold tolerance. rewrite H51.
  assert (Ha : (0 <= F2R value / F2R step)%R).
  { apply Rmult_le_pos; [lra|]. apply Rlt_le, Rinv_0_lt_compat. exact HS. }
  assert (HnR : (0 <= IZR n)%R) by (apply IZR_le; lia).
  pose proof (round_step_algebra (bpow (-53)) (bpow (-1075)) (F2R step)
                (F2R value / F2R step) (F2R (value / step)) (IZR n) (F2R (n' * step))
                Hu Heta Heu HS Ha HnR Hdiv Hnear Hmul) as H.
  replace (F2R value / F2R step * F2R step)%R with (F2R value) in H by (field; lra).
  exact H.
Qed.

End Binary64.

(** C2, as amended.  For positive [value] and [step], [round_step] computes
    [round(value / step) * step] on binary64 numbers.  It raises when the
    quotient is not a number (it overflowed, or both arguments are
    infinite).  Otherwise it returns the product of [step] and the integer
    nearest to the quotient, which converts to a float exactly.  When that
    product [r] is itself a number, it is the multiple [n * step] of [step]
    rounded to nearest: [|r - n * step| <= 2^-53 * n * step + 2^-1075]; and
    [|r - value| <= step / 2 + eps], with
    [eps = 2^-51 * value + 2^-53 * step + 2^-1075]. *)
Theorem quantity_rounding (value step : float) :
  PrimFloat.ltb 0 value = true -> PrimFloat.ltb 0 step = true ->
  round_step value step
    = (n <- py_round (value / step) ;; int_mul_float n step)%result /\
  (finite (value / step) = false ->
   exists c, round_step value step = Raise (Builtin c)) /\
  (finite (value / step) = true ->
   exists (n : Z) (n' : float),
     py_round (value / step) = Return n /\
     float_of_int n = Return n' /\ F2R n' = IZR n /\
     round_step value step = Return (n' * step)%float /\
     (finite (n' * step) = true ->
      (Rabs (F2R (n' * step) - IZR n * F2R step)
       <= bpow (-53) * (IZR n * F2R step) + bpow (-1075))%R /\
      (Rabs (F2R (n' * step) - F2R value) <= F2R step / 2 + tolerance value step)%R)).
Proof.
  intros Hv Hs. split.
  - unfold round_step, truediv. rewrite (positive_nonzero step Hs). reflexivity.
  - apply Binary64.round_step_accuracy; assumption.
Qed.

Lemma quantity_rounding_witness :
  round_step (10 / 3) 0.001 = Return 3.333%float /\
  (Rabs (F2R 3.333 - F2R (10 / 3)) <= F2R 0.001 / 2 + tolerance (10 / 3) 0.001)%R.
Proof.
  destruct (quantity_rounding (10 / 3) 0.001 eq_refl eq_refl) as (_ & _ & H).
  destruct (H eq_refl) as (n & n' & _ & _ & _ & Hr & Hb).
  assert (E : (n' * 0.001)%float = 3.333%float).
  { assert (Hc : round_step (10 / 3) 0.001 = Return 3.333%float) by (vm_compute; reflexivity).
    rewrite Hc in Hr. injection Hr as <-. reflexivity. }
  rewrite E in Hb. split; [vm_compute; reflexivity|]. apply Hb. reflexivity.
Defined.

(** C2, as stated, fails.  2^1000 and 2^-100 are positive numbers whose
    quotient overflows: [round] raises and there is no result.  With the
    largest number and the step 3 the product overflows: the result is the
    infinity. *)
Lemma quantity_rounding_counterexample :
  PrimFloat.ltb 0 0x1p+1000 = true /\ PrimFloat.ltb 0 0x1p-100 = true /\
  round_step 0x1p+1000 0x1p-100 = Raise (Builtin OverflowError) /\
  PrimFloat.ltb 0 0x1.fffffffffffffp+1023 = true /\
  round_step 0x1.fffffffffffffp+1023 3 = Return infinity.
Proof. repeat split; vm_compute; reflexivity. Qed.

(** * Further properties of the program *)

(** ** The notifier *)

(** X1. [send_discord] is best effort.  It never raises.  With no webhook
    URL configured (unset or empty) it posts nothing and logs a warning.
    With a URL it makes exactly one post, to that URL, with a timeout of 5
    and a body that holds the message and, only for a non-empty list, the
    embeds; an exception of the post is logged and goes no further. *)
Theorem send_discord_best_effort {RT : PyRuntime} (w : world) (message : string)
    (embeds : option (list pyval)) :
  match DISCORD_WEBHOOK_URL w with
  | None | Some EmptyString =>
      send_discord w message embeds
      = (Return tt, [SendDiscord message embeds; Log WARNING "Discord Webhook URL 未設定"])
  | Some url =>
      send_discord w message embeds
      = (Return tt,
         SendDiscord message embeds :: Post url (discord_payload message embeds) 5 ::
         match requests_post w url (discord_payload message embeds) 5 with
         | Return _ => []
         | Raise e => [Log ERROR ("Discord 發送失敗: " ++ str_exn e)]
         end)
  end.
Proof.
  unfold send_discord, emit, bind, logger, discord_payload.
  destruct (DISCORD_WEBHOOK_URL w) as [[|c url]|]; [reflexivity| |reflexivity].
  unfold try_except, call, bind, logger, emit, ret.
  destruct embeds as [[|e es]|]; cbn [app];
    match goal with
    | |- context [requests_post w ?u ?p 5] => destruct (requests_post w u p 5) as [[]|ex]
    end; reflexivity.
Qed.

(** ** The precision resolver *)

Section ResolverRuns.

Context {RT : PyRuntime}.
Variable w : world.

Lemma get_symbol_info_fst (symbol : string) :
  fst (get_symbol_info w symbol) =
    match client_exchange_info w with
    | Return info =>
        match read_symbol_info info symbol with
        | Return p => Return p
        | Raise _ => Return default_precision
        end
    | Raise _ => Return default_precision
    end.
Proof.
  unfold get_symbol_info, try_except, call, bind, lift.
  destruct (client_exchange_info w) as [info|e]; [|reflexivity].
  destruct (read_symbol_info info symbol); reflexivity.
Qed.

Lemma get_symbol_info_snd (symbol : string) :
  snd (get_symbol_info w symbol) =
    match client_exchange_info w with
    | Return info =>
        match read_symbol_info info symbol with
        | Return _ => [ExchangeInfo]
        | Raise e =>
            [ExchangeInfo; Log ERROR ("獲取 " ++ symbol ++ " 資訊失敗: " ++ str_exn e)]
        end
    | Raise e => [ExchangeInfo; Log ERROR ("獲取 " ++ symbol ++ " 資訊失敗: " ++ str_exn e)]
    end.
Proof.
  unfold get_symbol_info, try_except, call, bind, lift, logger, emit, ret.
  destruct (client_exchange_info w) as [info|e]; [|reflexivity].
  destruct (read_symbol_info info symbol); reflexivity.
Qed.

(** The entries before the first match are only asked for their symbol. *)
Lemma scan_symbols_skip (symbol : string) (before rest : list pyval) :
  (forall s, In s before ->
     exists name, getitem_str s "symbol" = Return name /\ eq_str name symbol = false) ->
  scan_symbols symbol (before ++ rest) = scan_symbols symbol rest.
Proof.
  induction before as [|s before IH]; intros H; [reflexivity|].
  cbn [app scan_symbols]. destruct (H s (or_introl eq_refl)) as (name & Hn & Hne).
  unfold rbind. rewrite Hn, Hne. apply IH. intros s' Hs'. apply H. right. exact Hs'.
Qed.

End ResolverRuns.

(** X2. The first listed instrument with the symbol decides, by position:
    the step size is [float(filters[1]['stepSize'])] and the tick size is
    [float(filters[0]['tickSize'])] of that entry, whatever follows it in
    the listing.  The match on the symbol is exact. *)
Theorem resolver_first_match {RT : PyRuntime} (w : world) (symbol : string)
    (info s price_filter lot_size v_step v_tick : pyval) (before after others : list pyval)
    (step tick : float) :
  client_exchange_info w = Return info ->
  getitem_str info "symbols" = Return (PList (before ++ s :: after)) ->
  (forall s', In s' before ->
     exists name, getitem_str s' "symbol" = Return name /\ eq_str name symbol = false) ->
  getitem_str s "symbol" = Return (PStr symbol) ->
  getitem_str s "filters" = Return (PList (price_filter :: lot_size :: others)) ->
  getitem_str lot_size "stepSize" = Return v_step -> py_float v_step = Return step ->
  getitem_str price_filter "tickSize" = Return v_tick -> py_float v_tick = Return tick ->
  get_symbol_info w symbol = (Return (step, tick), [ExchangeInfo]).
Proof.
  intros Hi Hs Hb Hn Hf Hl Hst Hp Htk.
  assert (Hread : read_symbol_info info symbol = Return (step, tick)).
  { unfold read_symbol_info, rbind. rewrite Hs. cbn [py_iter].
    rewrite (scan_symbols_skip symbol before (s :: after) Hb).
    cbn [scan_symbols]. unfold rbind. rewrite Hn. cbn [eq_str].
    rewrite String.eqb_refl, Hf. cbn [getitem_int nth_error].
    rewrite Hl, Hst, Hp, Htk. reflexivity. }
  rewrite (surjective_pairing (get_symbol_info w symbol)).
  rewrite get_symbol_info_fst, get_symbol_info_snd, Hi, Hread. reflexivity.
Qed.

Lemma resolver_first_match_witness :
  let w := demo_world PNone (Return demo_info) (Return demo_order) in
  @get_symbol_info demo_runtime w "BTCUSDT" = (Return (0.001, 0.1)%float, [ExchangeInfo]).
Proof.
  intros w.
  apply (@resolver_first_match demo_runtime w "BTCUSDT" demo_info
           (instrument "BTCUSDT" "0.10" "0.001")
           (PDict [("filterType", PStr "PRICE_FILTER"); ("tickSize", PStr "0.10")])
           (PDict [("filterType", PStr "LOT_SIZE"); ("stepSize", PStr "0.001")])
           (PStr "0.001") (PStr "0.10")
           [instrument "ETHUSDT" "0.01" "0.01"] [] []);
    try reflexivity.
  intros s' [<-|[]]. eexists. split; reflexivity.
Defined.

(** X3. The filters are read by position, not by kind: when the second
    filter of the matching entry has no [stepSize] (the exchange lists
    [LOT_SIZE] first), the resolver falls back to the defaults and logs the
    [KeyError], although the entry holds both values. *)
Theorem resolver_positional {RT : PyRuntime} (w : world) (symbol : string)
    (info s first second : pyval) (fields : list (string * pyval))
    (before after others : list pyval) :
  client_exchange_info w = Return info ->
  getitem_str info "symbols" = Return (PList (before ++ s :: after)) ->
  (forall s', In s' before ->
     exists name, getitem_str s' "symbol" = Return name /\ eq_str name symbol = false) ->
  getitem_str s "symbol" = Return (PStr symbol) ->
  getitem_str s "filters" = Return (PList (first :: second :: others)) ->
  second = PDict fields -> lookup fields "stepSize" = None ->
  get_symbol_info w symbol =
    (Return default_precision,
     [ExchangeInfo;
      Log ERROR ("獲取 " ++ symbol ++ " 資訊失敗: " ++ str_exn (Builtin KeyError))]).
Proof.
  intros Hi Hs Hb Hn Hf -> Hl.
  assert (Hread : read_symbol_info info symbol = Raise (Builtin KeyError)).
  { unfold read_symbol_info, rbind. rewrite Hs. cbn [py_iter].
    rewrite (scan_symbols_skip symbol before (s :: after) Hb).
    cbn [scan_symbols]. unfold rbind. rewrite Hn. cbn [eq_str].
    rewrite String.eqb_refl, Hf. cbn [getitem_int nth_error getitem_str].
    rewrite Hl. reflexivity. }
  rewrite (surjective_pairing (get_symbol_info w symbol)).
  rewrite get_symbol_info_fst, get_symbol_info_snd, Hi, Hread. reflexivity.
Qed.

Lemma resolver_positional_witness :
  let swapped :=
    PDict [("symbol", PStr "BTCUSDT");
           ("filters",
            PList [PDict [("filterType", PStr "LOT_SIZE"); ("stepSize", PStr "0.001")];
                   PDict [("filterType", PStr "PRICE_FILTER"); ("tickSize", PStr "0.10")]])] in
  let w := demo_world PNone (Return (PDict [("symbols", PList [swapped])])) (Return demo_order) in
  fst (@get_symbol_info demo_runtime w "BTCUSDT") = Return (0.001, 0.01)%float.
Proof.
  intros swapped w.
  rewrite (@resolver_positional demo_runtime w "BTCUSDT"
             (PDict [("symbols", PList [swapped])]) swapped
             (PDict [("filterType", PStr "LOT_SIZE"); ("stepSize", PStr "0.001")])
             (PDict [("filterType", PStr "PRICE_FILTER"); ("tickSize", PStr "0.10")])
             [("filterType", PStr "PRICE_FILTER"); ("tickSize", PStr "0.10")]
             [] [] [] eq_refl eq_refl (fun s' (H : In s' []) => match H with end)
             eq_refl eq_refl eq_refl eq_refl).
  reflexivity.
Defined.

(** X4. An entry that cannot be read stops the scan: when an entry listed
    before the wanted one has no [symbol] key, the resolver returns the
    defaults, whatever the rest of the listing holds. *)
Theorem resolver_stops_at_malformed_entry {RT : PyRuntime} (w : world) (symbol : string)
    (info : pyval) (fields : list (string * pyval)) (before after : list pyval) :
  client_exchange_info w = Return info ->
  getitem_str info "symbols" = Return (PList (before ++ PDict fields :: after)) ->
  (forall s', In s' before ->
     exists name, getitem_str s' "symbol" = Return name /\ eq_str name symbol = false) ->
  lookup fields "symbol" = None ->
  fst (get_symbol_info w symbol) = Return default_precision.
Proof.
  intros Hi Hs Hb Hl.
  rewrite get_symbol_info_fst, Hi.
  unfold read_symbol_info, rbind. rewrite Hs. cbn [py_iter].
  rewrite (scan_symbols_skip symbol before _ Hb).
  cbn [scan_symbols getitem_str]. rewrite Hl. reflexivity.
Qed.

Lemma resolver_stops_at_malformed_entry_witness :
  let info := PDict [("symbols", PList [PDict [("pair", PStr "ETHUSDT")];
                                        instrument "BTCUSDT" "0.10" "0.5"])] in
  let w := demo_world PNone (Return info) (Return demo_order) in
  fst (@get_symbol_info demo_runtime w "BTCUSDT") = Return (0.001, 0.01)%float.
Proof.
  intros info w.
  exact (@resolver_stops_at_malformed_entry demo_runtime w "BTCUSDT" info
           [("pair", PStr "ETHUSDT")] [] [instrument "BTCUSDT" "0.10" "0.5"]
           eq_refl eq_refl (fun s' (H : In s' []) => match H with end) eq_refl).
Defined.

(** X5. The resolver calls the exchange exactly once and does nothing else
    outward.  It logs an error exactly when the call or the reading of the
    reply raised; a symbol that is merely absent from the listing gives the
    defaults without any log entry. *)
Theorem resolver_trace {RT : PyRuntime} (w : world) (symbol : string) :
  exchange_calls (snd (get_symbol_info w symbol)) = [ExchangeInfo] /\
  orders (snd (get_symbol_info w symbol)) = [] /\
  posts (snd (get_symbol_info w symbol)) = [] /\
  notifications (snd (get_symbol_info w symbol)) = [] /\
  ((exists e, client_exchange_info w = Raise e \/
              exists info, client_exchange_info w = Return info /\
                           read_symbol_info info symbol = Raise e) <->
   exists msg, In (Log ERROR msg) (snd (get_symbol_info w symbol))) /\
  (forall info l,
      client_exchange_info w = Return info ->
      getitem_str info "symbols" = Return (PList l) ->
      (forall s, In s l ->
         exists name, getitem_str s "symbol" = Return name /\ eq_str name symbol = false) ->
      get_symbol_info w symbol = (Return default_precision, [ExchangeInfo])).
Proof.
  rewrite get_symbol_info_snd.
  split; [|split; [|split; [|split; [|split]]]].
  - destruct (client_exchange_info w) as [info|e]; [|reflexivity].
    destruct (read_symbol_info info symbol); reflexivity.
  - destruct (client_exchange_info w) as [info|e]; [|reflexivity].
    destruct (read_symbol_info info symbol); reflexivity.
  - destruct (client_exchange_info w) as [info|e]; [|reflexivity].
    destruct (read_symbol_info info symbol); reflexivity.
  - destruct (client_exchange_info w) as [info|e]; [|reflexivity].
    destruct (read_symbol_info info symbol); reflexivity.
  - destruct (client_exchange_info w) as [info|e].
    + destruct (read_symbol_info info symbol) as [p|e] eqn:Hr.
      * split.
        -- intros (e & [H|(info' & [= <-] & H)]); [discriminate | congruence].
        -- intros (msg & [H|[]]); discriminate.
      * split.
        -- intros _. eexists. right. left. reflexivity.
        -- intros _. exists e. right. exists info. split; [reflexivity | exact Hr].
    + split.
      * intros _. eexists. right. left. reflexivity.
      * intros _. exists e. left. reflexivity.
  - intros info l Hi Hs Habs.
    rewrite (surjective_pairing (get_symbol_info w symbol)).
    rewrite get_symbol_info_fst, get_symbol_info_snd, Hi.
    assert (Hread : read_symbol_info info symbol = Return default_precision).
    { unfold read_symbol_info, rbind. rewrite Hs. cbn [py_iter].
      apply scan_symbols_absent. exact Habs. }
    rewrite Hread. reflexivity.
Qed.

(** ** The handler, event by event *)

Section WholeRuns.

Context {RT : PyRuntime}.
Variable w : world.

Lemma send_discord_returns (message : string) (embeds : option (list pyval)) :
  send_discord w message embeds = (Return tt, snd (send_discord w message embeds)).
Proof.
  destruct (send_discord_run w message embeds) as (t & E & _). rewrite E. reflexivity.
Qed.

Lemma get_symbol_info_pair (symbol : string) (p : float * float) :
  fst (get_symbol_info w symbol) = Return p ->
  get_symbol_info w symbol = (Return p, snd (get_symbol_info w symbol)).
Proof.
  intros H. rewrite <- H. apply surjective_pairing.
Qed.

Lemma caught_run (e : exn) (t : list event) :
  webhook_try w = (Raise e, t) ->
  webhook w = (except_result e, (t ++ caught_trace w e)%list).
Proof.
  intros H. destruct e as [ce|c|msg].
  - rewrite (webhook_escaped w ce t H). cbn. rewrite app_nil_r. reflexivity.
  - unfold webhook, try_except. rewrite H.
    unfold caught_trace, except_result, error_response, error_log, notice_text.
    cbn [webhook_except is_client_error]. unfold bind, logger, emit, ret.
    fold (unknown_error_msg (Builtin c)).
    rewrite (send_discord_returns ("❌ 系統錯誤: " ++ unknown_error_msg (Builtin c)) None).
    cbn [fst snd app]. rewrite app_nil_r. reflexivity.
  - unfold webhook, try_except. rewrite H.
    unfold caught_trace, except_result, error_response, error_log, notice_text.
    cbn [webhook_except is_client_error]. unfold bind, logger, emit, ret.
    fold (unknown_error_msg (OtherError msg)).
    rewrite (send_discord_returns ("❌ 系統錯誤: " ++ unknown_error_msg (OtherError msg)) None).
    cbn [fst snd app]. rewrite app_nil_r. reflexivity.
Qed.

Ltac open_try Hr :=
  let Hj := fresh "Hj" in let Ht := fresh "Ht" in let Hp := fresh "Hp" in
  destruct Hr as (Hj & Hp);
  pose proof (parse_alert_truthy _ _ Hp) as Ht;
  destruct (parse_alert_fields _ _ Hp) as (H1 & H2 & H3 & H4 & H5 & H6);
  unfold webhook_try, lift, bind; rewrite Hj, Ht; cbn [negb];
  unfold logger, emit; rewrite H1, H2, H3, H4, H5, H6.

Lemma success_run (data : pyval) (a : alert) (step tick q : float) (order : pyval) :
  received w data a -> side_ok (side a) = true ->
  fst (get_symbol_info w (symbol a)) = Return (step, tick) ->
  size (entry a) notional step = Return q -> PrimFloat.leb q 0 = false ->
  client_new_order w (symbol a) (side a) "MARKET" q = Return order ->
  webhook w =
    (Return (success_response order),
     (alert_log data :: snd (get_symbol_info w (symbol a)) ++ accepted_trace w a q order)%list).
Proof.
  intros Hr Hs Hi Hq Hle Ho.
  apply webhook_returned.
  pose proof (get_symbol_info_pair _ _ Hi) as Hi'.
  pose proof (send_discord_returns EmptyString (Some [success_embed a q])) as Hd'.
  unfold accepted_trace.
  open_try Hr. rewrite Hs, Hi'. cbn [negb].
  apply size_inv in Hq. destruct Hq as (q0 & Hd & Hq). unfold notional in Hd.
  rewrite Hd, Hq, Hle. unfold call. rewrite Ho.
  unfold success_embed in Hd'. cbv beta iota zeta. rewrite Hd'.
  unfold ret, success_embed. cbn [app fst snd]. rewrite app_nil_r. reflexivity.
Qed.

(** Every request takes one of the eight ways. *)
Lemma webhook_run : exists r t, webhook w = (r, t) /\ run w r t.
Proof.
  destruct (request_get_json w) as [data|e] eqn:Hj.
  2:{ eexists; eexists; split;
        [exact (caught_run e [] (try_json_raise w e Hj)) | constructor; exact Hj]. }
  destruct (truthy data) eqn:Ht.
  2:{ eexists; eexists; split;
        [exact (webhook_returned w _ _ (try_no_json w data Hj Ht))
        | econstructor; eassumption]. }
  destruct (parse_alert data) as [a|e] eqn:Hp.
  2:{ destruct (parse_alert_raises data e Hp) as (c & ->).
      eexists; eexists; split;
        [exact (caught_run (Builtin c) _ (try_parse_raise w data _ Hj Ht Hp))
        | cbn [app]; apply run_parse_raise; assumption]. }
  assert (Hr : received w data a) by (split; assumption).
  destruct (side_ok (side a)) eqn:Hs.
  2:{ eexists; eexists; split;
        [exact (webhook_returned w _ _ (try_bad_side w data a Hr Hs))
        | econstructor; eassumption]. }
  destruct (get_symbol_info_run w (symbol a)) as ([step tick] & ti & Hi & _).
  assert (Hf : fst (get_symbol_info w (symbol a)) = Return (step, tick))
    by (rewrite Hi; reflexivity).
  assert (Ht' : ti = snd (get_symbol_info w (symbol a))) by (rewrite Hi; reflexivity).
  destruct (size (entry a) notional step) as [q|e] eqn:Hq.
  2:{ destruct (size_raises _ _ _ Hq) as (c & ->).
      eexists; eexists; split;
        [exact (caught_run (Builtin c) _
                  (try_size_raise w data a step tick ti _ Hr Hs Hi Hq))|].
      rewrite Ht'. cbn [app]. eapply run_size_raise; eassumption. }
  destruct (PrimFloat.leb q 0) eqn:Hle.
  { eexists; eexists; split;
      [exact (webhook_returned w _ _ (try_bad_quantity w data a step tick q ti Hr Hs Hi Hq Hle))|].
    rewrite Ht'. econstructor; eassumption. }
  destruct (client_new_order w (symbol a) (side a) "MARKET" q) as [order|e] eqn:Ho.
  - eexists; eexists; split;
      [exact (success_run data a step tick q order Hr Hs Hf Hq Hle Ho)|].
    econstructor; eassumption.
  - eexists; eexists; split;
      [exact (caught_run e _ (try_order_raise w data a step tick q ti e Hr Hs Hi Hq Hle Ho))|].
    rewrite Ht'. cbn [app]. rewrite <- app_assoc. cbn [app].
    econstructor; eassumption.
Qed.

End WholeRuns.

(** ** Facts on the pieces of a trace *)

Section TraceFacts.

Context {RT : PyRuntime}.
Variable w : world.

Lemma exchange_calls_app (t u : list event) :
  exchange_calls (t ++ u) = (exchange_calls t ++ exchange_calls u)%list.
Proof. apply filter_app. Qed.

Lemma send_discord_snd (message : string) (embeds : option (list pyval)) :
  snd (send_discord w message embeds) =
    SendDiscord message embeds ::
    match DISCORD_WEBHOOK_URL w with
    | None | Some EmptyString => [Log WARNING "Discord Webhook URL 未設定"]
    | Some url =>
        Post url (discord_payload message embeds) 5 ::
        match requests_post w url (discord_payload message embeds) 5 with
        | Return _ => []
        | Raise e => [Log ERROR ("Discord 發送失敗: " ++ str_exn e)]
        end
    end.
Proof.
  unfold send_discord, emit, bind, logger, discord_payload.
  destruct (DISCORD_WEBHOOK_URL w) as [[|c url]|]; [reflexivity| |reflexivity].
  unfold try_except, call, bind, logger, emit, ret.
  destruct embeds as [[|e es]|]; cbn [app];
    match goal with
    | |- context [requests_post w ?u ?p 5] => destruct (requests_post w u p 5) as [[]|ex]
    end; reflexivity.
Qed.

Ltac by_delivery :=
  rewrite send_discord_snd;
  destruct (DISCORD_WEBHOOK_URL w) as [[|c url]|]; try reflexivity;
  match goal with
  | |- context [requests_post w ?u ?p 5] => destruct (requests_post w u p 5) as [[]|ex]
  end; reflexivity.

Lemma send_discord_orders (message : string) (embeds : option (list pyval)) :
  orders (snd (send_discord w message embeds)) = [].
Proof. by_delivery. Qed.

Lemma send_discord_exchange_calls (message : string) (embeds : option (list pyval)) :
  exchange_calls (snd (send_discord w message embeds)) = [].
Proof. by_delivery. Qed.

Lemma send_discord_notifications (message : string) (embeds : option (list pyval)) :
  notifications (snd (send_discord w message embeds)) = [SendDiscord message embeds].
Proof. by_delivery. Qed.

Lemma send_discord_posts (message : string) (embeds : option (list pyval)) :
  posts (snd (send_discord w message embeds)) =
    match DISCORD_WEBHOOK_URL w with
    | None | Some EmptyString => []
    | Some url => [Post url (discord_payload message embeds) 5]
    end.
Proof. by_delivery. Qed.

Lemma failure_notice_text (e : exn) : failure_notice e = SendDiscord (notice_text e) None.
Proof. reflexivity. Qed.

Lemma caught_trace_orders (e : exn) : orders (caught_trace w e) = [].
Proof.
  unfold caught_trace. destruct (is_client_error e); [reflexivity|].
  unfold orders. cbn [filter error_log is_order]. apply send_discord_orders.
Qed.

Lemma caught_trace_exchange_calls (e : exn) : exchange_calls (caught_trace w e) = [].
Proof.
  unfold caught_trace. destruct (is_client_error e); [reflexivity|].
  unfold exchange_calls. cbn [filter error_log is_exchange_info].
  apply send_discord_exchange_calls.
Qed.

Lemma caught_trace_notifications (e : exn) :
  notifications (caught_trace w e) = except_notices e.
Proof.
  unfold caught_trace, except_notices. destruct (is_client_error e); [reflexivity|].
  unfold notifications. cbn [filter error_log is_notification].
  apply send_discord_notifications.
Qed.

Lemma caught_trace_posts (e : exn) :
  posts (caught_trace w e) =
    match DISCORD_WEBHOOK_URL w with
    | None | Some EmptyString => []
    | Some url => flat_map (delivery_of url) (except_notices e)
    end.
Proof.
  unfold caught_trace, except_notices. destruct (is_client_error e).
  - destruct (DISCORD_WEBHOOK_URL w) as [[|c url]|]; reflexivity.
  - unfold posts. cbn [filter error_log is_post]. rewrite send_discord_posts.
    destruct (DISCORD_WEBHOOK_URL w) as [[|c url]|]; reflexivity.
Qed.

Lemma accepted_trace_orders (a : alert) (q : float) (order : pyval) :
  orders (accepted_trace w a q order) = [NewOrder (symbol a) (side a) "MARKET" q].
Proof.
  unfold accepted_trace. rewrite orders_app, send_discord_orders. reflexivity.
Qed.

Lemma accepted_trace_exchange_calls (a : alert) (q : float) (order : pyval) :
  exchange_calls (accepted_trace w a q order) = [].
Proof.
  unfold accepted_trace. rewrite exchange_calls_app, send_discord_exchange_calls. reflexivity.
Qed.

Lemma accepted_trace_notifications (a : alert) (q : float) (order : pyval) :
  notifications (accepted_trace w a q order) =
    [SendDiscord EmptyString (Some [success_embed a q])].
Proof.
  unfold accepted_trace. rewrite notifications_app, send_discord_notifications. reflexivity.
Qed.

Lemma accepted_trace_posts (a : alert) (q : float) (order : pyval) :
  posts (accepted_trace w a q order) =
    match DISCORD_WEBHOOK_URL w with
    | None | Some EmptyString => []
    | Some url => [Post url (discord_payload EmptyString (Some [success_embed a q])) 5]
    end.
Proof.
  unfold accepted_trace. rewrite posts_app, send_discord_posts. reflexivity.
Qed.

Lemma resolver_exchange_calls (symbol : string) :
  exchange_calls (snd (get_symbol_info w symbol)) = [ExchangeInfo].
Proof.
  rewrite get_symbol_info_snd.
  destruct (client_exchange_info w) as [info|e]; [|reflexivity].
  destruct (read_symbol_info info symbol); reflexivity.
Qed.

Lemma resolver_orders (symbol : string) : orders (snd (get_symbol_info w symbol)) = [].
Proof.
  rewrite get_symbol_info_snd.
  destruct (client_exchange_info w) as [info|e]; [|reflexivity].
  destruct (read_symbol_info info symbol); reflexivity.
Qed.

Lemma resolver_notifications (symbol : string) :
  notifications (snd (get_symbol_info w symbol)) = [].
Proof.
  rewrite get_symbol_info_snd.
  destruct (client_exchange_info w) as [info|e]; [|reflexivity].
  destruct (read_symbol_info info symbol); reflexivity.
Qed.

(** The alert of a request is determined by its body. *)
Lemma received_unique (data data' : pyval) (a a' : alert) :
  received w data a -> received w data' a' -> data = data' /\ a = a'.
Proof.
  intros [Hj Hp] [Hj' Hp']. rewrite Hj in Hj'. injection Hj' as <-.
  rewrite Hp in Hp'. injection Hp' as <-. split; reflexivity.
Qed.

End TraceFacts.

(** A trace with one order call splits around it in one way only. *)
Lemma order_split (pre post pre' post' : list event) (x x' : event) :
  is_order x = true -> is_order x' = true ->
  orders pre' = [] -> orders post' = [] ->
  (pre ++ x :: post = pre' ++ x' :: post')%list ->
  pre = pre' /\ x = x' /\ post = post'.
Proof.
  intros Hx Hx' Hpre Hpost. revert pre' Hpre.
  induction pre as [|y pre IH]; intros [|y' pre'] Hpre E; cbn [app] in E.
  - injection E as -> ->. repeat split.
  - injection E as <- E. unfold orders in Hpre. cbn [filter] in Hpre.
    rewrite Hx in Hpre. discriminate.
  - injection E as -> E. rewrite <- E in Hpost.
    rewrite orders_app in Hpost. unfold orders in Hpost. cbn [filter] in Hpost.
    rewrite Hx in Hpost. destruct (filter is_order pre); discriminate.
  - injection E as <- E.
    assert (Hpre' : orders pre' = []).
    { unfold orders in *. cbn [filter] in Hpre. destruct (is_order y); [discriminate | exact Hpre]. }
    destruct (IH pre' Hpre' E) as (-> & -> & ->). repeat split.
Qed.

Lemma no_order_split (t pre post : list event) (x : event) :
  orders t = [] -> is_order x = true -> t <> (pre ++ x :: post)%list.
Proof.
  intros Ht Hx ->. rewrite orders_app in Ht. unfold orders in Ht. cbn [filter] in Ht.
  rewrite Hx in Ht. destruct (filter is_order pre); discriminate.
Qed.


(** The observations of a trace, computed piece by piece. *)
Lemma orders_Log (l : log_level) (m : string) (t : list event) :
  orders (Log l m :: t) = orders t.
Proof. reflexivity. Qed.

Lemma orders_NewOrder (a b c : string) (q : float) (t : list event) :
  orders (NewOrder a b c q :: t) = NewOrder a b c q :: orders t.
Proof. reflexivity. Qed.

Lemma notifications_Log (l : log_level) (m : string) (t : list event) :
  notifications (Log l m :: t) = notifications t.
Proof. reflexivity. Qed.

Lemma notifications_NewOrder (a b c : string) (q : float) (t : list event) :
  notifications (NewOrder a b c q :: t) = notifications t.
Proof. reflexivity. Qed.

Lemma posts_Log (l : log_level) (m : string) (t : list event) :
  posts (Log l m :: t) = posts t.
Proof. reflexivity. Qed.

Lemma posts_NewOrder (a b c : string) (q : float) (t : list event) :
  posts (NewOrder a b c q :: t) = posts t.
Proof. reflexivity. Qed.

Lemma exchange_calls_Log (l : log_level) (m : string) (t : list event) :
  exchange_calls (Log l m :: t) = exchange_calls t.
Proof. reflexivity. Qed.

Lemma exchange_calls_NewOrder (a b c : string) (q : float) (t : list event) :
  exchange_calls (NewOrder a b c q :: t) = exchange_calls t.
Proof. reflexivity. Qed.

Create Rewrite HintDb trace.

#[local] Hint Rewrite
  orders_app notifications_app posts_app exchange_calls_app
  orders_Log orders_NewOrder notifications_Log notifications_NewOrder
  posts_Log posts_NewOrder exchange_calls_Log exchange_calls_NewOrder
  @resolver_orders @resolver_notifications @get_symbol_info_posts @resolver_exchange_calls
  @caught_trace_orders @caught_trace_notifications @caught_trace_posts
  @caught_trace_exchange_calls
  @accepted_trace_orders @accepted_trace_notifications @accepted_trace_posts
  @accepted_trace_exchange_calls
  app_nil_r : trace.

Ltac observe :=
  unfold alert_log; autorewrite with trace;
  change (orders []) with (@nil event); change (notifications []) with (@nil event);
  change (posts []) with (@nil event); change (exchange_calls []) with (@nil event);
  cbn [app].

(** ** The request body *)



Lemma parse_alert_not_dict {RT : PyRuntime} (data : pyval) :
  is_dict data = false -> parse_alert data = Raise (Builtin AttributeError).
Proof. destruct data; [reflexivity .. | discriminate]. Qed.

(** X7. A body that is valid JSON but not an object (a non-empty list or
    string, a non-zero number, [true]) has no [get] method: the handler
    answers 500 through the catch-all clause with the [AttributeError],
    after logging the alert, without calling the exchange, and with one
    failure notification. *)
Theorem non_object_body {RT : PyRuntime} (w : world) (data : pyval) :
  request_get_json w = Return data -> truthy data = true -> is_dict data = false ->
  webhook w =
    (Return (jsonify [("error", PStr (unknown_error_msg (Builtin AttributeError)))], 500),
     alert_log data :: caught_trace w (Builtin AttributeError)) /\
  exchange_calls (snd (webhook w)) = [] /\
  orders (snd (webhook w)) = [] /\
  notifications (snd (webhook w)) =
    [SendDiscord ("❌ 系統錯誤: " ++ unknown_error_msg (Builtin AttributeError)) None].
Proof.
  intros Hj Ht Hd.
  pose proof (caught_run w _ _ (try_parse_raise w data _ Hj Ht (parse_alert_not_dict data Hd)))
    as E.
  cbn [app except_result is_client_error] in E. rewrite E. cbn [snd].
  split; [reflexivity|]. observe. repeat split; reflexivity.
Qed.

Lemma non_object_body_witness :
  let w := demo_world (PList [demo_alert (PStr "buy") (PInt 100)]) (Return demo_info)
             (Return demo_order) in
  fst (@webhook demo_runtime w) =
    Return (jsonify [("error", PStr "未知錯誤: <builtin error>")], 500) /\
  orders (snd (@webhook demo_runtime w)) = [].
Proof.
  intros w.
  destruct (@non_object_body demo_runtime w (PList [demo_alert (PStr "buy") (PInt 100)])
              eq_refl eq_refl eq_refl) as (E & _ & Ho & _).
  split; [rewrite E; reflexivity | exact Ho].
Defined.

(** X8. The symbol defaults to BTCUSDT only when the key is absent.  A
    symbol given as text is upper-cased.  A symbol that is present but is
    not text, an explicit [null] included, does not get the default: the
    call of [upper] raises and the handler answers 500 without calling the
    exchange. *)
Theorem symbol_field {RT : PyRuntime} (w : world) (items : list (string * pyval)) :
  request_get_json w = Return (PDict items) ->
  (forall a, parse_alert (PDict items) = Return a ->
     match lookup items "symbol" with
     | None => symbol a = str_upper "BTCUSDT"
     | Some v => exists s, v = PStr s /\ symbol a = str_upper s
     end) /\
  (forall v, lookup items "symbol" = Some v -> is_str v = false ->
     fst (webhook w) =
       Return (jsonify [("error", PStr (unknown_error_msg (Builtin AttributeError)))], 500) /\
     exchange_calls (snd (webhook w)) = [] /\
     orders (snd (webhook w)) = []).
Proof.
  intros Hj. split.
  - intros a Hp. apply parse_alert_fields in Hp. destruct Hp as (H1 & _).
    unfold field_upper, py_get, rbind in H1.
    destruct (lookup items "symbol") as [v|].
    + destruct v; try discriminate. cbn [py_upper] in H1. injection H1 as <-.
      eexists; split; reflexivity.
    + cbn [py_upper] in H1. injection H1 as <-. reflexivity.
  - intros v Hl Hv.
    assert (Ht : truthy (PDict items) = true) by (destruct items; [discriminate | reflexivity]).
    assert (Hp : parse_alert (PDict items) = Raise (Builtin AttributeError)).
    { unfold parse_alert, field_upper, py_get, rbind. rewrite Hl.
      destruct v; try reflexivity. discriminate. }
    pose proof (caught_run w _ _ (try_parse_raise w _ _ Hj Ht Hp)) as E.
    cbn [app except_result is_client_error] in E. rewrite E. cbn [fst snd].
    split; [reflexivity|]. observe. split; reflexivity.
Qed.

Lemma symbol_field_witness :
  let items := [("symbol", PNone); ("side", PStr "buy"); ("entry", PInt 100);
                ("sl", PInt 95); ("tp1", PInt 105); ("tp2", PInt 110)] in
  let w := demo_world (PDict items) (Return demo_info) (Return demo_order) in
  fst (@webhook demo_runtime w) =
    Return (jsonify [("error", PStr "未知錯誤: <builtin error>")], 500) /\
  exchange_calls (snd (@webhook demo_runtime w)) = [] /\
  orders (snd (@webhook demo_runtime w)) = [].
Proof.
  intros items w.
  exact (proj2 (@symbol_field demo_runtime w items eq_refl) PNone eq_refl eq_refl).
Defined.

(** X9. When decoding the request raises, the exception goes to the
    [except] clauses before anything was logged or called: the exchange
    is not called and no order is placed.  The catch-all clause answers
    500, logs the error and sends one failure notification; a
    [ClientError] would go to the first clause, which raises and sends
    nothing. *)
Theorem request_decoding_failure {RT : PyRuntime} (w : world) (e : exn) :
  request_get_json w = Raise e ->
  webhook w =
    (match e with
     | ClientError _ => Raise (Builtin AttributeError)
     | _ => Return (error_response e)
     end, caught_trace w e) /\
  exchange_calls (snd (webhook w)) = [] /\
  orders (snd (webhook w)) = [] /\
  notifications (snd (webhook w)) =
    match e with
    | ClientError _ => []
    | _ => [failure_notice e]
    end.
Proof.
  intros Hj. pose proof (caught_run w e [] (try_json_raise w e Hj)) as E.
  cbn [app] in E. rewrite E. cbn [snd]. split; [destruct e; reflexivity|].
  observe. destruct e; repeat split; reflexivity.
Qed.

Lemma request_decoding_failure_witness :
  let w := {| request_get_json := Raise (OtherError "400 Bad Request");
              DISCORD_WEBHOOK_URL := None;
              client_exchange_info := Return demo_info;
              client_new_order := fun _ _ _ _ => Return demo_order;
              requests_post := fun _ _ _ => Return tt |} in
  @webhook demo_runtime w =
    (Return (jsonify [("error", PStr "未知錯誤: 400 Bad Request")], 500),
     [Log ERROR "未知錯誤: 400 Bad Request";
      SendDiscord "❌ 系統錯誤: 未知錯誤: 400 Bad Request" None;
      Log WARNING "Discord Webhook URL 未設定"]).
Proof.
  intros w.
  exact (proj1 (@request_decoding_failure demo_runtime w (OtherError "400 Bad Request") eq_refl)).
Defined.

(** ** Failures after validation *)

(** X10. An exception of [new_order] that is not a [ClientError] (a
    network failure, a server error of the exchange) is answered 500 by
    the catch-all clause, with the system-error text; the order call was
    made once and is not retried. *)
Theorem order_failure_unclassified {RT : PyRuntime} (w : world) (data : pyval) (a : alert)
    (step tick q : float) (e : exn) :
  received w data a -> side_ok (side a) = true ->
  fst (get_symbol_info w (symbol a)) = Return (step, tick) ->
  size (entry a) notional step = Return q -> PrimFloat.leb q 0 = false ->
  client_new_order w (symbol a) (side a) "MARKET" q = Raise e ->
  is_client_error e = false ->
  fst (webhook w) = Return (jsonify [("error", PStr (unknown_error_msg e))], 500) /\
  orders (snd (webhook w)) = [NewOrder (symbol a) (side a) "MARKET" q] /\
  notifications (snd (webhook w)) =
    [SendDiscord ("❌ 系統錯誤: " ++ unknown_error_msg e) None].
Proof.
  intros Hr Hs Hi Hq Hle Ho He.
  pose proof (sized_outcome w data a step tick Hr Hs Hi) as H.
  rewrite Hq, Hle, Ho in H. destruct H as (H1 & H2 & H3).
  rewrite H1, H2, H3. destruct e; [discriminate He | |]; repeat split; reflexivity.
Qed.

Lemma order_failure_unclassified_witness :
  let w := demo_world (demo_alert (PStr "buy") (PInt 100)) (Return demo_info)
             (Raise (OtherError "connection reset")) in
  fst (@webhook demo_runtime w) =
    Return (jsonify [("error", PStr "未知錯誤: connection reset")], 500) /\
  orders (snd (@webhook demo_runtime w)) = [NewOrder "BTCUSDT" "BUY" "MARKET" 0.1%float].
Proof.
  intros w.
  destruct (@order_failure_unclassified demo_runtime w (demo_alert (PStr "buy") (PInt 100))
              {| symbol := "BTCUSDT"; side := "BUY"; entry := 100;
                 sl := 95; tp1 := 105; tp2 := 110.5 |}
              0.001%float 0.1%float 0.1%float (OtherError "connection reset")
              (conj eq_refl eq_refl) eq_refl eq_refl eq_refl eq_refl eq_refl eq_refl)
    as (H1 & H2 & _).
  split; [exact H1 | exact H2].
Defined.

(** X11. A step size of zero from the exchange is not checked: for a
    request with a non-zero entry price the division by the step in
    [round_step] raises [ZeroDivisionError], and the handler answers 500
    with a failure notification and no order call. *)
Theorem zero_step {RT : PyRuntime} (w : world) (data : pyval) (a : alert)
    (step tick : float) :
  received w data a -> side_ok (side a) = true ->
  fst (get_symbol_info w (symbol a)) = Return (step, tick) ->
  PrimFloat.eqb (entry a) 0 = false -> PrimFloat.eqb step 0 = true ->
  fst (webhook w) =
    Return (jsonify [("error", PStr (unknown_error_msg (Builtin ZeroDivisionError)))], 500) /\
  orders (snd (webhook w)) = [] /\
  notifications (snd (webhook w)) =
    [SendDiscord ("❌ 系統錯誤: " ++ unknown_error_msg (Builtin ZeroDivisionError)) None].
Proof.
  intros Hr Hs Hi Hp Hz.
  pose proof (sized_outcome w data a step tick Hr Hs Hi) as H.
  assert (Hq : size (entry a) notional step = Raise (Builtin ZeroDivisionError)).
  { unfold size, truediv, rbind. rewrite Hp. unfold round_step, truediv, rbind.
    rewrite Hz. reflexivity. }
  rewrite Hq in H. exact H.
Qed.

Lemma zero_step_witness :
  let info := PDict [("symbols", PList [instrument "BTCUSDT" "0.10" "0"])] in
  let w := demo_world (demo_alert (PStr "buy") (PInt 100)) (Return info) (Return demo_order) in
  fst (@webhook demo_runtime w) =
    Return (jsonify [("error", PStr "未知錯誤: float division by zero")], 500) /\
  orders (snd (@webhook demo_runtime w)) = [].
Proof.
  intros info w.
  destruct (@zero_step demo_runtime w (demo_alert (PStr "buy") (PInt 100))
              {| symbol := "BTCUSDT"; side := "BUY"; entry := 100;
                 sl := 95; tp1 := 105; tp2 := 110.5 |}
              0%float 0.1%float (conj eq_refl eq_refl) eq_refl eq_refl eq_refl eq_refl)
    as (H1 & H2 & _).
  split; [exact H1 | exact H2].
Defined.

(** ** What every run does *)

(** X12. The exchange is asked for its instrument listing at most once per
    request, and exactly when the request passed validation: the body
    decoded, its six fields converted and the side is BUY or SELL. *)
Theorem exchange_queried_once {RT : PyRuntime} (w : world) :
  (length (exchange_calls (snd (webhook w))) <= 1)%nat /\
  (exchange_calls (snd (webhook w)) = [ExchangeInfo] <->
   exists data a, received w data a /\ side_ok (side a) = true).
Proof.
  destruct (webhook_run w) as (r & t & E & Hrun). rewrite E. cbn [snd].
  destruct Hrun as [e Hj|data Hj Ht|data e Hj Ht Hp|data a Hr Hs
                   |data a step tick e Hr Hs Hi Hq|data a step tick q Hr Hs Hi Hq Hle
                   |data a step tick q e Hr Hs Hi Hq Hle Ho
                   |data a step tick q order Hr Hs Hi Hq Hle Ho];
    observe; cbn [length].
  - split; [lia|]. split; [discriminate|].
    intros (data & a & [Hj' _] & _). congruence.
  - split; [lia|]. split; [discriminate|].
    intros (data' & a & [Hj' Hp'] & _).
    rewrite Hj in Hj'. injection Hj' as <-.
    rewrite (parse_alert_truthy _ _ Hp') in Ht. discriminate.
  - split; [lia|]. split; [discriminate|].
    intros (data' & a & [Hj' Hp'] & _).
    rewrite Hj in Hj'. injection Hj' as <-. congruence.
  - split; [lia|]. split; [discriminate|].
    intros (data' & a' & Hr' & Hs').
    destruct (received_unique w _ _ _ _ Hr Hr') as [<- <-]. congruence.
  - split; [lia|]. split; [|reflexivity]. intros _. exists data, a. split; assumption.
  - split; [lia|]. split; [|reflexivity]. intros _. exists data, a. split; assumption.
  - split; [lia|]. split; [|reflexivity]. intros _. exists data, a. split; assumption.
  - split; [lia|]. split; [|reflexivity]. intros _. exists data, a. split; assumption.
Qed.

(** X13. Every order call of a run is a market order, for BUY or SELL,
    of a quantity that is not [<= 0] and that is the size computed from
    the entry price of the request and the step of the resolver.  It is
    the only order call of the run; the exchange was asked for the
    listing once before it, and no notification or post was made before
    it.  Exactly one notification follows it, unless [new_order] raised a
    [ClientError]: then nothing follows the order call. *)
Theorem order_placement {RT : PyRuntime} (w : world) (sym sd ty : string) (q : float)
    (pre post : list event) :
  snd (webhook w) = (pre ++ NewOrder sym sd ty q :: post)%list ->
  (side_ok sd = true /\ ty = "MARKET" /\ PrimFloat.leb q 0 = false) /\
  (exists data a step tick,
      received w data a /\ sym = symbol a /\ sd = side a /\
      fst (get_symbol_info w sym) = Return (step, tick) /\
      size (entry a) notional step = Return q /\
      pre = alert_log data :: snd (get_symbol_info w sym)) /\
  (exchange_calls pre = [ExchangeInfo] /\ orders pre = [] /\
   notifications pre = [] /\ posts pre = []) /\
  (orders post = [] /\ exchange_calls post = [] /\
   match client_new_order w sym sd ty q with
   | Raise (ClientError _) => post = []
   | _ => length (notifications post) = 1%nat
   end).
Proof.
  intros Hsplit.
  destruct (webhook_run w) as (r & t & E & Hrun). rewrite E in Hsplit. cbn [snd] in Hsplit.
  destruct Hrun as [e Hj|data Hj Ht|data c Hj Ht Hp|data a Hr Hs
                   |data a step tick c Hr Hs Hi Hq|data a step tick q' Hr Hs Hi Hq Hle
                   |data a step tick q' e Hr Hs Hi Hq Hle Ho
                   |data a step tick q' order Hr Hs Hi Hq Hle Ho].
  1-6: exfalso; revert Hsplit; apply no_order_split; [observe; reflexivity | reflexivity].
  - change (alert_log data :: snd (get_symbol_info w (symbol a)) ++
            NewOrder (symbol a) (side a) "MARKET" q' :: caught_trace w e)%list
      with ((alert_log data :: snd (get_symbol_info w (symbol a))) ++
            NewOrder (symbol a) (side a) "MARKET" q' :: caught_trace w e)%list in Hsplit.
    symmetry in Hsplit.
    apply order_split in Hsplit; [|reflexivity|reflexivity|observe; reflexivity
                                  |observe; reflexivity].
    destruct Hsplit as (-> & [= -> -> -> ->] & ->).
    split; [repeat split; assumption|].
    split; [exists data, a, step, tick; split; [exact Hr|]; repeat split; first [assumption | reflexivity]|].
    rewrite Ho. observe.
    destruct e as [ce|c|msg]; repeat split; reflexivity.
  - unfold accepted_trace in Hsplit.
    change (alert_log data :: snd (get_symbol_info w (symbol a)) ++
            ([NewOrder (symbol a) (side a) "MARKET" q'; Log INFO ("開倉成功: " ++ format order)] ++
             snd (send_discord w EmptyString (Some [success_embed a q']))))%list
      with ((alert_log data :: snd (get_symbol_info w (symbol a))) ++
            NewOrder (symbol a) (side a) "MARKET" q' ::
            Log INFO ("開倉成功: " ++ format order) ::
            snd (send_discord w EmptyString (Some [success_embed a q'])))%list in Hsplit.
    symmetry in Hsplit.
    apply order_split in Hsplit;
      [|reflexivity|reflexivity|observe; reflexivity
       |rewrite orders_Log; apply send_discord_orders].
    destruct Hsplit as (-> & [= -> -> -> ->] & ->).
    split; [repeat split; assumption|].
    split; [exists data, a, step, tick; split; [exact Hr|]; repeat split; first [assumption | reflexivity]|].
    rewrite Ho. observe.
    rewrite send_discord_orders, send_discord_exchange_calls, send_discord_notifications.
    repeat split; reflexivity.
Qed.

Lemma order_placement_witness :
  let data := demo_alert (PStr "sell") (PInt 100) in
  let w := demo_world data (Return demo_info) (Return demo_order) in
  side_ok "SELL" = true /\
  exchange_calls [@alert_log demo_runtime data; ExchangeInfo] = [ExchangeInfo].
Proof.
  intros data w.
  pose (a := {| symbol := "BTCUSDT"; side := "SELL"; entry := 100;
                sl := 95; tp1 := 105; tp2 := 110.5 |}).
  destruct (@order_placement demo_runtime w "BTCUSDT" "SELL" "MARKET" 0.1%float
              [@alert_log demo_runtime data; ExchangeInfo]
              (tl (@accepted_trace demo_runtime w a 0.1%float demo_order))
              eq_refl) as ((H1 & _) & _ & (H2 & _) & _).
  split; [exact H1 | exact H2].
Defined.

(** X14. The whole run of an accepted order.  The handler logs the alert,
    asks the resolver, submits the order, logs the reply of the exchange,
    notifies, and answers 200 with the reply of the exchange under
    [order].  The notification has an empty message and one embed; with a
    webhook URL configured it is one post of the body
    [{"content": "", "embeds": [embed]}]; whether that post succeeds
    or raises does not change the response. *)
Theorem accepted_order_run {RT : PyRuntime} (w : world) (data : pyval) (a : alert)
    (step tick q : float) (order : pyval) :
  received w data a -> side_ok (side a) = true ->
  fst (get_symbol_info w (symbol a)) = Return (step, tick) ->
  size (entry a) notional step = Return q -> PrimFloat.leb q 0 = false ->
  client_new_order w (symbol a) (side a) "MARKET" q = Return order ->
  webhook w =
    (Return (jsonify [("status", PStr "success"); ("order", order)], 200),
     (alert_log data :: snd (get_symbol_info w (symbol a)) ++
      [NewOrder (symbol a) (side a) "MARKET" q;
       Log INFO ("開倉成功: " ++ format order)] ++
      snd (send_discord w EmptyString (Some [success_embed a q])))%list) /\
  posts (snd (webhook w)) =
    match DISCORD_WEBHOOK_URL w with
    | None | Some EmptyString => []
    | Some url =>
        [Post url (PDict [("content", PStr EmptyString);
                          ("embeds", PList [success_embed a q])]) 5]
    end.
Proof.
  intros Hr Hs Hi Hq Hle Ho.
  pose proof (success_run w data a step tick q order Hr Hs Hi Hq Hle Ho) as E.
  split; [exact E|].
  rewrite E. cbn [snd]. observe. reflexivity.
Qed.

Lemma accepted_order_run_witness :
  let data := demo_alert (PStr "buy") (PInt 100) in
  let w := broken_channel_world data (Return demo_info) (Return demo_order) in
  let a := {| symbol := "BTCUSDT"; side := "BUY"; entry := 100;
              sl := 95; tp1 := 105; tp2 := 110.5 |} in
  @webhook demo_runtime w =
    (Return (jsonify [("status", PStr "success"); ("order", demo_order)], 200),
     [@alert_log demo_runtime data;
      ExchangeInfo;
      NewOrder "BTCUSDT" "BUY" "MARKET" 0.1%float;
      Log INFO ("開倉成功: " ++ @format demo_runtime demo_order);
      SendDiscord EmptyString (Some [@success_embed demo_runtime a 0.1%float]);
      Post "https://discord.example/api/webhooks/1"
           (PDict [("content", PStr EmptyString);
                   ("embeds", PList [@success_embed demo_runtime a 0.1%float])]) 5;
      Log ERROR "Discord 發送失敗: connection timed out"]).
Proof.
  intros data w a.
  exact (proj1 (@accepted_order_run demo_runtime w data a 0.001%float 0.1%float 0.1%float
                  demo_order (conj eq_refl eq_refl) eq_refl eq_refl eq_refl eq_refl eq_refl)).
Defined.

(** X15. What leaves the handler.  The handler returns a response or
    raises.  It raises exactly when the [try] block raised a
    [ClientError]: what leaves is the [AttributeError] of the first
    [except] clause, and no notification was sent.  A response has the
    status 200, 400 or 500.  A 200 is given only after exactly one order
    call that the exchange accepted, and its body carries the reply of the
    exchange; every other response carries an [error] field; a 400 is a
    rejection by a validation, with no order call and no notification; a
    500 comes with one failure notification. *)
Theorem response_shape {RT : PyRuntime} (w : world) :
  (forall x, fst (webhook w) = Raise x ->
     x = Builtin AttributeError /\
     notifications (snd (webhook w)) = [] /\
     exists ce t, webhook_try w = (Raise (ClientError ce), t)) /\
  (forall ce t, webhook_try w = (Raise (ClientError ce), t) ->
     fst (webhook w) = Raise (Builtin AttributeError)) /\
  (forall body status, fst (webhook w) = Return (body, status) ->
     (status = 200 \/ status = 400 \/ status = 500) /\
     (status = 200 ->
      exists a q order,
        body = jsonify [("status", PStr "success"); ("order", order)] /\
        orders (snd (webhook w)) = [NewOrder (symbol a) (side a) "MARKET" q] /\
        client_new_order w (symbol a) (side a) "MARKET" q = Return order) /\
     (status <> 200 -> has_error body) /\
     (status = 400 ->
      orders (snd (webhook w)) = [] /\ notifications (snd (webhook w)) = []) /\
     (status = 500 ->
      exists e, is_client_error e = false /\
                notifications (snd (webhook w)) = [failure_notice e])).
Proof.
  pose proof (webhook_raise_inv w) as Hinv.
  split; [|split].
  - intros x Hx. split; [|split; [|exact (Hinv x Hx)]].
    + destruct (Hinv x Hx) as (ce & t & Htry).
      rewrite (webhook_escaped w ce t Htry) in Hx. injection Hx as <-. reflexivity.
    + destruct (webhook_run w) as (r & t & E & Hrun).
      rewrite E in Hx |- *. cbn [fst snd] in Hx |- *.
      destruct Hrun as [e Hj|data Hj Ht|data c Hj Ht Hp|data a Hr Hs
                       |data a step tick c Hr Hs Hi Hq|data a step tick q Hr Hs Hi Hq Hle
                       |data a step tick q e Hr Hs Hi Hq Hle Ho
                       |data a step tick q order Hr Hs Hi Hq Hle Ho];
        try discriminate Hx;
        (destruct e as [ce|c|msg]; [|discriminate Hx ..]); observe; reflexivity.
  - intros ce t H. rewrite (webhook_escaped w ce t H). reflexivity.
  - intros body status Hret.
    assert (Herr : forall e t,
      except_result e = Return (body, status) ->
      notifications t = except_notices e -> orders t = orders t ->
      (status = 200 \/ status = 400 \/ status = 500) /\
      status <> 200 /\ has_error body /\ status <> 400 /\
      exists e', is_client_error e' = false /\ notifications t = [failure_notice e']).
    { intros e t He Hn _. unfold except_result, except_notices in *.
      destruct (is_client_error e) eqn:Hc; [discriminate He|].
      injection He as <- <-.
      split; [auto|]. split; [discriminate|]. split; [apply has_error_intro|].
      split; [discriminate|]. exists e. split; assumption. }
    destruct (webhook_run w) as (r & t & E & Hrun).
    rewrite E in Hret |- *. cbn [fst snd] in Hret |- *.
    destruct Hrun as [e Hj|data Hj Ht|data c Hj Ht Hp|data a Hr Hs
                     |data a step tick c Hr Hs Hi Hq|data a step tick q Hr Hs Hi Hq Hle
                     |data a step tick q e Hr Hs Hi Hq Hle Ho
                     |data a step tick q order Hr Hs Hi Hq Hle Ho].
    1,3,5,7:
      match goal with
      | |- context [notifications ?t] =>
          match type of Hret with
          | ?r = _ =>
              match r with
              | except_result ?e0 =>
                  destruct (Herr e0 t Hret) as (H1 & H2 & H3 & H4 & H5);
                  [observe; reflexivity | reflexivity |]
              | Return (error_response ?e0) =>
                  destruct (Herr e0 t Hret) as (H1 & H2 & H3 & H4 & H5);
                  [observe; reflexivity | reflexivity |]
              end
          end;
          split; [exact H1|]; split; [intros H; contradiction|];
          split; [intros _; exact H3|]; split; [intros H; contradiction | intros _; exact H5]
      end.
    1-3: injection Hret as <- <-; (split; [auto|]); (split; [discriminate|]);
         (split; [intros _; apply has_error_intro|]);
         (split; [intros _; observe; split; reflexivity | discriminate]).
    injection Hret as <- <-. split; [auto|]. split.
    + intros _. exists a, q, order. split; [reflexivity|]. split; [|exact Ho].
      observe. reflexivity.
    + split; [intros H; contradiction H; reflexivity|]. split; discriminate.
Qed.

(** X16. The notification channel has no influence on the trading.  Two
    runs that differ only in the webhook URL and in what the posts do give
    the same response, the same order calls, the same calls to the
    exchange listing and the same notifications: a missing URL or a failing
    post never changes the response and never prevents or repeats an
    order. *)
Theorem channel_independence {RT : PyRuntime} (w1 w2 : world) :
  same_exchange w1 w2 ->
  fst (webhook w1) = fst (webhook w2) /\
  orders (snd (webhook w1)) = orders (snd (webhook w2)) /\
  exchange_calls (snd (webhook w1)) = exchange_calls (snd (webhook w2)) /\
  notifications (snd (webhook w1)) = notifications (snd (webhook w2)).
Proof.
  intros (Hj & Hi & Ho).
  assert (Hgsi : forall s, fst (get_symbol_info w1 s) = fst (get_symbol_info w2 s))
    by (intros s; rewrite !get_symbol_info_fst, Hi; reflexivity).
  assert (Hrec : forall data a, received w1 data a -> received w2 data a)
    by (intros data a [H1 H2]; split; [rewrite <- Hj; exact H1 | exact H2]).
  destruct (webhook_run w1) as (r & t & E & Hrun). rewrite E. cbn [fst snd].
  destruct Hrun as [e Hj1|data Hj1 Ht|data e Hj1 Ht Hp|data a Hr Hs
                   |data a step tick e Hr Hs Hi1 Hq|data a step tick q Hr Hs Hi1 Hq Hle
                   |data a step tick q e Hr Hs Hi1 Hq Hle Ho1
                   |data a step tick q order Hr Hs Hi1 Hq Hle Ho1];
    try (pose proof (Hrec _ _ Hr) as Hr2);
    try (pose proof Hi1 as Hi2; rewrite Hgsi in Hi2);
    try (rewrite Ho in Ho1);
    try rewrite Hj in Hj1.
  - rewrite (caught_run w2 e [] (try_json_raise w2 e Hj1)).
    cbn [fst snd]. observe. repeat split; reflexivity.
  - rewrite (webhook_returned w2 _ _ (try_no_json w2 data Hj1 Ht)).
    cbn [fst snd]. repeat split; reflexivity.
  - rewrite (caught_run w2 (Builtin e) _ (try_parse_raise w2 data _ Hj1 Ht Hp)).
    cbn [fst snd]. observe. repeat split; reflexivity.
  - rewrite (webhook_returned w2 _ _ (try_bad_side w2 data a Hr2 Hs)).
    cbn [fst snd]. repeat split; reflexivity.
  - rewrite (caught_run w2 (Builtin e) _
               (try_size_raise w2 data a step tick _ _ Hr2 Hs
                  (get_symbol_info_pair w2 _ _ Hi2) Hq)).
    cbn [fst snd]. observe. repeat split; reflexivity.
  - rewrite (webhook_returned w2 _ _
               (try_bad_quantity w2 data a step tick q _ Hr2 Hs
                  (get_symbol_info_pair w2 _ _ Hi2) Hq Hle)).
    cbn [fst snd]. observe. repeat split; reflexivity.
  - rewrite (caught_run w2 e _
               (try_order_raise w2 data a step tick q _ e Hr2 Hs
                  (get_symbol_info_pair w2 _ _ Hi2) Hq Hle Ho1)).
    cbn [fst snd]. observe. repeat split; reflexivity.
  - rewrite (success_run w2 data a step tick q order Hr2 Hs Hi2 Hq Hle Ho1).
    cbn [fst snd]. observe. repeat split; reflexivity.
Qed.

Lemma channel_independence_witness :
  let data := demo_alert (PStr "buy") (PInt 100) in
  let w1 := demo_world data (Return demo_info) (Return demo_order) in
  let w2 := broken_channel_world data (Return demo_info) (Return demo_order) in
  let w3 := unconfigured_world data (Return demo_info) (Return demo_order) in
  (fst (@webhook demo_runtime w1) = fst (@webhook demo_runtime w2) /\
   orders (snd (@webhook demo_runtime w1)) = orders (snd (@webhook demo_runtime w2))) /\
  (fst (@webhook demo_runtime w1) = fst (@webhook demo_runtime w3) /\
   orders (snd (@webhook demo_runtime w1)) = orders (snd (@webhook demo_runtime w3))).
Proof.
  intros data w1 w2 w3.
  destruct (@channel_independence demo_runtime w1 w2
              (conj eq_refl (conj eq_refl (fun _ _ _ _ => eq_refl)))) as (H1 & H2 & _).
  destruct (@channel_independence demo_runtime w1 w3
              (conj eq_refl (conj eq_refl (fun _ _ _ _ => eq_refl)))) as (H3 & H4 & _).
  split; split; assumption.
Defined.

(** X17. With a webhook URL configured, every notification of a run is
    delivered by exactly one post, to that URL, with a timeout of 5 and the
    body of the notification; nothing else is posted, and a failed post is
    not retried.  With no URL (unset or empty) nothing is posted at
    all. *)
Theorem posts_follow_notifications {RT : PyRuntime} (w : world) :
  posts (snd (webhook w)) =
    match DISCORD_WEBHOOK_URL w with
    | None | Some EmptyString => []
    | Some url => flat_map (delivery_of url) (notifications (snd (webhook w)))
    end.
Proof.
  destruct (webhook_run w) as (r & t & E & Hrun). rewrite E. cbn [snd].
  destruct Hrun; observe;
    destruct (DISCORD_WEBHOOK_URL w) as [[|c' url]|]; try reflexivity;
    cbn [flat_map app]; rewrite ?app_nil_r; reflexivity.
Qed.

(** X18. What an order depends on.  The response and the order calls of a
    validated request are determined by its symbol, side and entry price,
    by the step size of the resolver and by the answer of [new_order].
    The stop-loss and the two take-profit levels are never sent to the
    exchange, and the tick size is resolved but not used: two requests
    that differ only in them get the same response and place the same
    order. *)
Theorem order_inputs {RT : PyRuntime} (w1 w2 : world) (d1 d2 : pyval) (a1 a2 : alert)
    (step t1 t2 : float) :
  received w1 d1 a1 -> received w2 d2 a2 ->
  symbol a1 = symbol a2 -> side a1 = side a2 -> entry a1 = entry a2 ->
  fst (get_symbol_info w1 (symbol a1)) = Return (step, t1) ->
  fst (get_symbol_info w2 (symbol a2)) = Return (step, t2) ->
  (forall sym sd ty q,
      client_new_order w1 sym sd ty q = client_new_order w2 sym sd ty q) ->
  fst (webhook w1) = fst (webhook w2) /\
  orders (snd (webhook w1)) = orders (snd (webhook w2)).
Proof.
  intros Hr1 Hr2 Hsym Hside Hentry Hi1 Hi2 Ho.
  destruct (side_ok (side a1)) eqn:Hs.
  - pose proof (sized_outcome w1 d1 a1 step t1 Hr1 Hs Hi1) as H1.
    assert (Hs2 : side_ok (side a2) = true) by (rewrite <- Hside; exact Hs).
    pose proof (sized_outcome w2 d2 a2 step t2 Hr2 Hs2 Hi2) as H2.
    rewrite <- Hsym, <- Hside, <- Hentry in H2.
    destruct (size (entry a1) notional step) as [q|e].
    + destruct (PrimFloat.leb q 0).
      * destruct H1 as (E1 & O1 & _), H2 as (E2 & O2 & _).
        rewrite E1, E2, O1, O2. split; reflexivity.
      * destruct H1 as (O1 & H1), H2 as (O2 & H2). rewrite O1, O2.
        rewrite <- Ho in H2.
        destruct (client_new_order w1 (symbol a1) (side a1) "MARKET" q);
          destruct H1 as (E1 & _), H2 as (E2 & _); rewrite E1, E2; split; reflexivity.
    + destruct H1 as (E1 & O1 & _), H2 as (E2 & O2 & _).
      rewrite E1, E2, O1, O2. split; reflexivity.
  - assert (Hs2 : side_ok (side a2) = false) by (rewrite <- Hside; exact Hs).
    rewrite (webhook_returned w1 _ _ (try_bad_side w1 d1 a1 Hr1 Hs)).
    rewrite (webhook_returned w2 _ _ (try_bad_side w2 d2 a2 Hr2 Hs2)).
    split; reflexivity.
Qed.

Lemma order_inputs_witness :
  let d1 := demo_alert (PStr "buy") (PInt 100) in
  let d2 := PDict [("symbol", PStr "btcusdt"); ("side", PStr "BUY"); ("entry", PStr "100");
                   ("sl", PInt 1); ("tp1", PInt 2); ("tp2", PInt 3)] in
  let w1 := demo_world d1 (Return demo_info) (Return demo_order) in
  let w2 := demo_world d2
              (Return (PDict [("symbols", PList [instrument "BTCUSDT" "0.5" "0.001"])]))
              (Return demo_order) in
  fst (@webhook demo_runtime w1) = fst (@webhook demo_runtime w2) /\
  orders (snd (@webhook demo_runtime w1)) = orders (snd (@webhook demo_runtime w2)).
Proof.
  intros d1 d2 w1 w2.
  exact (@order_inputs demo_runtime w1 w2 d1 d2
           {| symbol := "BTCUSDT"; side := "BUY"; entry := 100;
              sl := 95; tp1 := 105; tp2 := 110.5 |}
           {| symbol := "BTCUSDT"; side := "BUY"; entry := 100;
              sl := 1; tp1 := 2; tp2 := 3 |}
           0.001%float 0.1%float 0.5%float
           (conj eq_refl eq_refl) (conj eq_refl eq_refl)
           eq_refl eq_refl eq_refl eq_refl eq_refl (fun _ _ _ _ => eq_refl)).
Defined.

(** * Signs in the order sizer *)

Module Signs.

Import Binary64.

(** The sign given to [binary_round_aux] is the sign of its result. *)
Lemma binary_round_aux_sign (sx : bool) (mx ex : Z) (lx : location) :
  not_positive (binary_round_aux prec emax true mx ex lx) = true /\
  (binary_round_aux prec emax sx mx ex lx = S754_nan \/
   signed sx (binary_round_aux prec emax sx mx ex lx)).
Proof.
  unfold binary_round_aux.
  destruct (shr_fexp prec emax mx ex lx) as [mrs' e'].
  destruct (shr_fexp prec emax _ e' loc_Exact) as [mrs'' e''].
  destruct (shr_m mrs'') as [|m|m].
  - split; [reflexivity | right; reflexivity].
  - destruct (e'' <=? emax - prec); (split; [reflexivity | right; reflexivity]).
  - split; [reflexivity | left; reflexivity].
Qed.

(** The quotient by a float that is not a positive number. *)
Lemma div_by_not_positive (x y : float) (mx : positive) (ex : Z) :
  Prim2SF x = S754_finite false mx ex ->
  not_positive (Prim2SF y) = true ->
  PrimFloat.eqb y 0 = false ->
  not_positive (Prim2SF (x / y)) = true.
Proof.
  intros Hx Hy Hz. rewrite div_spec, Hx.
  rewrite FloatAxioms.eqb_spec in Hz. change (Prim2SF 0) with (S754_zero false) in Hz.
  destruct (Prim2SF y) as [s|s| |s my ey]; cbn [not_positive] in Hy; subst.
  - destruct s; discriminate Hz.
  - reflexivity.
  - reflexivity.
  - cbn [SF64div SFdiv xorb].
    destruct (SFdiv_core_binary prec emax (Z.pos mx) ex (Z.pos my) ey) as [[mz ez] lz].
    apply binary_round_aux_sign. exact true.
Qed.

(** The quotient of such a float by a positive number. *)
Lemma div_of_not_positive (x y : float) (my : positive) (ey : Z) :
  not_positive (Prim2SF x) = true ->
  Prim2SF y = S754_finite false my ey ->
  not_positive (Prim2SF (x / y)) = true.
Proof.
  intros Hx Hy. rewrite div_spec, Hy.
  destruct (Prim2SF x) as [s|s| |s mx ex]; cbn [not_positive] in Hx; subst;
    try reflexivity.
  cbn [SF64div SFdiv xorb].
  destruct (SFdiv_core_binary prec emax (Z.pos mx) ex (Z.pos my) ey) as [[mz ez] lz].
  apply binary_round_aux_sign. exact true.
Qed.

Lemma py_round_not_positive (q : float) (n : Z) :
  not_positive (Prim2SF q) = true -> py_round q = Return n -> n <= 0.
Proof.
  unfold py_round. destruct (Prim2SF q) as [s|s| |s m e]; cbn [not_positive];
    try discriminate.
  - intros _ [= <-]. lia.
  - intros -> [= <-].
    destruct (round_half_even_error (Z.pos m) e eq_refl) as [H _]. lia.
Qed.

(** [float(n)] for a negative integer: a valid float of negative sign. *)
Lemma binary_normalize_neg (p : positive) :
  let z := binary_normalize prec emax (Z.neg p) 0 false in
  SpecFloat.valid_binary prec emax z = true /\ signed true z.
Proof.
  intros z. unfold z. cbn [binary_normalize]. unfold binary_round, shl_align.
  rewrite fexp_eq, Z.add_0_r, Z.sub_0_r.
  set (dp := Z.pos (digits2_pos p)) in *.
  assert (Hdp : 0 < dp) by (unfold dp; lia).
  replace (Z.max (dp - 53) (-1074)) with (dp - 53) by lia.
  assert (Hshape : forall mz ez,
    0 <= fexp prec emax (Zdigits2 (Z.pos mz) + ez) - ez ->
    SpecFloat.valid_binary prec emax (binary_round_aux prec emax true (Z.pos mz) ez loc_Exact)
      = true /\
    signed true (binary_round_aux prec emax true (Z.pos mz) ez loc_Exact)).
  { intros mz ez Hn.
    destruct (binary_round_aux_spec true (Z.pos mz) ez loc_Exact 1 (Z.pos mz)
                eq_refl (located_exact _ (Pos2Z.is_nonneg _)) Hn) as (Hv & m2 & _ & _ & _ & Hz).
    split; [exact Hv|].
    destruct (binary_round_aux prec emax true (Z.pos mz) ez loc_Exact);
      cbn [signed]; tauto. }
  destruct (dp - 53) as [|k|k] eqn:Hk.
  - apply Hshape. rewrite fexp_eq. cbn [Zdigits2]. fold dp. lia.
  - apply Hshape. rewrite fexp_eq. cbn [Zdigits2]. fold dp. lia.
  - destruct (iter_xO_value k p) as [Hval Hdig]. fold dp in Hdig.
    apply Hshape. rewrite fexp_eq. cbn [Zdigits2]. lia.
Qed.

Lemma float_of_int_not_positive (n : Z) (x : float) :
  n <= 0 -> float_of_int n = Return x ->
  (exists s, Prim2SF x = S754_zero s) \/ exists m e, Prim2SF x = S754_finite true m e.
Proof.
  intros Hn. unfold float_of_int. destruct n as [|p|p]; [|lia|].
  - cbn [binary_normalize SF2Prim].
    change (is_infinity PrimFloat.zero) with false. cbv iota. intros [= <-].
    left. exists false. reflexivity.
  - destruct (binary_normalize_neg p) as [Hv Hs].
    set (z := binary_normalize prec emax (Z.neg p) 0 false) in *.
    destruct (is_infinity (SF2Prim z)) eqn:Hinf; [discriminate|].
    intros [= <-]. rewrite (Prim2SF_SF2Prim z Hv).
    destruct z as [s|s| |s m e]; cbn [signed] in Hs; subst.
    + left. exists true. reflexivity.
    + rewrite is_infinity_SF2Prim in Hinf. discriminate.
    + contradiction.
    + right. exists m, e. reflexivity.
Qed.

(** The product of a float that is a zero or a negative number by a
    positive number is a zero, a negative number or the negative infinity. *)
Lemma mul_not_positive (x y : float) (my : positive) (ey : Z) :
  (exists s, Prim2SF x = S754_zero s) \/ (exists m e, Prim2SF x = S754_finite true m e) ->
  Prim2SF y = S754_finite false my ey ->
  PrimFloat.leb (x * y) 0 = true.
Proof.
  intros Hx Hy. rewrite leb_spec, mul_spec, Hy.
  change (Prim2SF 0) with (S754_zero false).
  destruct Hx as [(s & ->)|(mx & ex & Hx)]; [destruct s; reflexivity|].
  rewrite Hx. cbn [SF64mul SFmul xorb].
  destruct (valid_finite x _ _ _ Hx) as [Hcx _].
  destruct (valid_finite y _ _ _ Hy) as [Hcy _].
  pose proof (Zdigits2_mul_ge (Z.pos mx) (Z.pos my) eq_refl eq_refl) as Hd.
  change (Z.pos mx * Z.pos my) with (Z.pos (mx * my)) in Hd. cbn [Zdigits2] in Hd.
  assert (Hn : 0 <= fexp prec emax (Zdigits2 (Z.pos (mx * my)) + (ex + ey)) - (ex + ey)).
  { rewrite fexp_eq. cbn [Zdigits2]. lia. }
  destruct (binary_round_aux_spec true (Z.pos (mx * my)) (ex + ey) loc_Exact 1
              (Z.pos (mx * my)) eq_refl (located_exact _ (Pos2Z.is_nonneg _)) Hn)
    as (_ & m2 & _ & _ & _ & Hz).
  destruct (binary_round_aux prec emax true (Z.pos (mx * my)) (ex + ey) loc_Exact)
    as [s|s| |s m e].
  - reflexivity.
  - destruct Hz as [-> _]. reflexivity.
  - contradiction.
  - destruct Hz as [-> _]. reflexivity.
Qed.

Lemma py_round_raises (q : float) (e : exn) :
  py_round q = Raise e -> exists c, e = Builtin c.
Proof.
  unfold py_round. destruct (Prim2SF q); try discriminate;
    intros [= <-]; eexists; reflexivity.
Qed.

Lemma finite_positive_nonzero (s : float) (ms : positive) (es : Z) :
  Prim2SF s = S754_finite false ms es -> PrimFloat.eqb s 0 = false.
Proof.
  intros H. rewrite FloatAxioms.eqb_spec, H. reflexivity.
Qed.

(** The sizer on an entry price that is not a positive number: it raises,
    or its result is [<= 0]. *)
Lemma size_not_positive (p s : float) (ms : positive) (es : Z) :
  Prim2SF s = S754_finite false ms es ->
  not_positive (Prim2SF p) = true \/ Prim2SF p = S754_infinity false ->
  match size p notional s with
  | Raise e => exists c, e = Builtin c
  | Return q => PrimFloat.leb q 0 = true
  end.
Proof.
  intros Hs Hp. unfold size, truediv, rbind.
  destruct (PrimFloat.eqb p 0) eqn:Hz; [eexists; reflexivity|].
  assert (Hq0 : not_positive (Prim2SF (notional / p)) = true).
  { destruct Hp as [Hp|Hp].
    - apply (div_by_not_positive notional p 5629499534213120 (-49));
        [reflexivity | exact Hp | exact Hz].
    - rewrite div_spec, Hp. reflexivity. }
  unfold round_step, truediv, rbind.
  rewrite (finite_positive_nonzero s ms es Hs).
  pose proof (div_of_not_positive (notional / p) s ms es Hq0 Hs) as Hq1.
  destruct (py_round (notional / p / s)) as [n|e] eqn:Hr;
    [|exact (py_round_raises _ _ Hr)].
  pose proof (py_round_not_positive _ _ Hq1 Hr) as Hn.
  unfold int_mul_float, rbind.
  destruct (float_of_int n) as [x|e] eqn:Hx.
  - apply (mul_not_positive x s ms es); [|exact Hs].
    exact (float_of_int_not_positive n x Hn Hx).
  - apply float_of_int_raises in Hx. subst. eexists; reflexivity.
Qed.

Lemma not_positive_cases (p : float) :
  PrimFloat.ltb 0 p = false \/ finite p = false ->
  not_positive (Prim2SF p) = true \/ Prim2SF p = S754_infinity false.
Proof.
  unfold finite. rewrite FloatAxioms.ltb_spec. change (Prim2SF 0) with (S754_zero false).
  destruct (Prim2SF p) as [s|s| |s m e]; cbn [not_positive SFfinite].
  - intros _. left. reflexivity.
  - intros _. destruct s; [left | right]; reflexivity.
  - intros _. left. reflexivity.
  - destruct s; [intros _; left; reflexivity|]. intros [H|H]; discriminate H.
Qed.

Lemma finite_positive_cases (s : float) :
  PrimFloat.ltb 0 s = true -> finite s = true ->
  exists m e, Prim2SF s = S754_finite false m e.
Proof.
  intros H Hf. destruct (positive_cases s H) as [H'|H']; [exact H'|].
  unfold finite in Hf. rewrite H' in Hf. discriminate.
Qed.

Lemma is_infinity_cases (s : float) :
  PrimFloat.is_infinity s = true -> exists b, Prim2SF s = S754_infinity b.
Proof.
  unfold is_infinity. rewrite FloatAxioms.eqb_spec, abs_spec.
  change (Prim2SF infinity) with (S754_infinity false).
  destruct (Prim2SF s) as [b|b| |b m e]; try discriminate.
  intros _. exists b. reflexivity.
Qed.

(** The sizer on an infinite step: the quotient by the step is a zero, and
    zero times an infinity is not a number. *)
Lemma size_infinite_step (p s : float) :
  PrimFloat.eqb p 0 = false -> finite (notional / p) = true ->
  PrimFloat.is_infinity s = true ->
  size p notional s = Return (0 * s)%float /\
  Prim2SF (0 * s) = S754_nan.
Proof.
  intros Hz Hf Hs. destruct (is_infinity_cases s Hs) as (b & Hb).
  assert (Hs0 : PrimFloat.eqb s 0 = false).
  { rewrite FloatAxioms.eqb_spec, Hb. destruct b; reflexivity. }
  split.
  - unfold size, truediv, rbind. rewrite Hz.
    unfold round_step, truediv, rbind. rewrite Hs0.
    assert (Hq : exists b', Prim2SF (notional / p / s) = S754_zero b').
    { rewrite (div_spec (notional / p) s), Hb. unfold finite in Hf.
      destruct (Prim2SF (notional / p)) as [b'|b'| |b' m e]; try discriminate Hf;
        eexists; reflexivity. }
    destruct Hq as (b' & Hq). unfold py_round. rewrite Hq. reflexivity.
  - rewrite mul_spec, Hb. reflexivity.
Qed.

End Signs.

(** X19. An order is only ever placed for a positive, finite entry price.
    With a positive finite step from the resolver, a request whose entry
    is zero, negative, infinite or not a number makes no order call: it is
    answered 400 for the quantity, or 500 when the arithmetic raises. *)
Theorem entry_must_be_positive {RT : PyRuntime} (w : world) (data : pyval) (a : alert)
    (step tick : float) :
  received w data a -> side_ok (side a) = true ->
  fst (get_symbol_info w (symbol a)) = Return (step, tick) ->
  PrimFloat.ltb 0 step = true -> finite step = true ->
  PrimFloat.ltb 0 (entry a) = false \/ finite (entry a) = false ->
  orders (snd (webhook w)) = [] /\
  (fst (webhook w) = Return bad_quantity_response \/
   exists c, fst (webhook w) = Return (error_response (Builtin c))).
Proof.
  intros Hr Hs Hi Hpos Hfin Hp.
  destruct (Signs.finite_positive_cases step Hpos Hfin) as (ms & es & Hstep).
  pose proof (Signs.size_not_positive (entry a) step ms es Hstep
                (Signs.not_positive_cases _ Hp)) as Hsize.
  pose proof (sized_outcome w data a step tick Hr Hs Hi) as H.
  destruct (size (entry a) notional step) as [q|e].
  - rewrite Hsize in H. destruct H as (H1 & H2 & _). split; [exact H2 | left; exact H1].
  - destruct Hsize as (c & ->). destruct H as (H1 & H2 & _).
    split; [exact H2 | right; exists c; exact H1].
Qed.

Lemma entry_must_be_positive_witness :
  let data := demo_alert (PStr "buy") (PInt (-100)) in
  let w := demo_world data (Return demo_info) (Return demo_order) in
  orders (snd (@webhook demo_runtime w)) = [].
Proof.
  intros data w.
  exact (proj1 (@entry_must_be_positive demo_runtime w data
                  {| symbol := "BTCUSDT"; side := "BUY"; entry := (-100);
                     sl := 95; tp1 := 105; tp2 := 110.5 |}
                  0.001%float 0.1%float (conj eq_refl eq_refl) eq_refl eq_refl
                  eq_refl eq_refl (or_introl eq_refl))).
Defined.

(** X20. The test [quantity <= 0] lets a NaN through.  When the resolver
    gives an infinite step (a [stepSize] of "inf" in the listing) and
    [10 / entry] is a number, the quantity is [0 * inf], which is not a
    number and is not [<= 0]: the order is submitted with a NaN
    quantity. *)
Theorem infinite_step_orders_nan {RT : PyRuntime} (w : world) (data : pyval) (a : alert)
    (step tick : float) :
  received w data a -> side_ok (side a) = true ->
  fst (get_symbol_info w (symbol a)) = Return (step, tick) ->
  PrimFloat.is_infinity step = true ->
  PrimFloat.eqb (entry a) 0 = false -> finite (notional / entry a) = true ->
  exists q,
    PrimFloat.is_nan q = true /\
    orders (snd (webhook w)) = [NewOrder (symbol a) (side a) "MARKET" q].
Proof.
  intros Hr Hs Hi Hinf Hz Hf.
  destruct (Signs.size_infinite_step (entry a) step Hz Hf Hinf) as [Hq Hnan].
  assert (Hle : PrimFloat.leb (0 * step) 0 = false) by (rewrite leb_spec, Hnan; reflexivity).
  exists (0 * step)%float. split.
  - unfold is_nan. rewrite FloatAxioms.eqb_spec, Hnan. reflexivity.
  - pose proof (sized_outcome w data a step tick Hr Hs Hi) as H.
    rewrite Hq, Hle in H. apply H.
Qed.

Lemma infinite_step_orders_nan_witness :
  let info :=
    PDict [("symbols",
            PList [PDict [("symbol", PStr "BTCUSDT");
                          ("filters",
                           PList [PDict [("tickSize", PStr "0.10")];
                                  PDict [("stepSize", PFloat infinity)]])]])] in
  let data := demo_alert (PStr "buy") (PInt 100) in
  let w := demo_world data (Return info) (Return demo_order) in
  exists q,
    PrimFloat.is_nan q = true /\
    orders (snd (@webhook demo_runtime w)) = [NewOrder "BTCUSDT" "BUY" "MARKET" q].
Proof.
  intros info data w.
  exact (@infinite_step_orders_nan demo_runtime w data
           {| symbol := "BTCUSDT"; side := "BUY"; entry := 100;
              sl := 95; tp1 := 105; tp2 := 110.5 |}
           infinity 0.1%float (conj eq_refl eq_refl) eq_refl eq_refl
           eq_refl eq_refl eq_refl).
Defined.

(** * Rounding to nearest, ties to even *)

Module Nearest.

Import Binary64.

(** [round_half_even] on integers: the result is a nearest integer, and
    the even one when two are equally near. *)
Lemma round_half_even_tie (m e : Z) :
  0 < m -> e < 0 ->
  let n := round_half_even m e in
  let d := 2 ^ (- e) in
  2 * Z.abs (n * d - m) <= d /\ (2 * Z.abs (n * d - m) = d -> Z.even n = true).
Proof.
  intros Hm He n d. unfold n, round_half_even.
  destruct (Z.leb_spec 0 e) as [H0|_]; [lia|]. fold d.
  assert (Hd : 0 < d) by (apply Z.pow_pos_nonneg; lia).
  pose proof (Z.div_mod m d ltac:(lia)) as Hdm.
  pose proof (Z.mod_pos_bound m d Hd) as Hr.
  set (q := m / d) in *. set (r := m mod d) in *.
  destruct (Z.ltb_spec (2 * r) d) as [H1|H1]; [split; nia|].
  destruct (Z.ltb_spec d (2 * r)) as [H2|H2]; [split; nia|].
  destruct (Z.even q) eqn:Hq.
  - split; [nia | intros _; exact Hq].
  - split; [nia|]. intros _.
    rewrite Z.add_1_r, Z.even_succ, <- Z.negb_even, Hq. reflexivity.
Qed.

Lemma round_half_even_real_tie (m e : Z) :
  0 < m ->
  (Rabs (IZR (round_half_even m e) - IZR m * bpow e) = 1 / 2)%R ->
  Z.even (round_half_even m e) = true.
Proof.
  intros Hm Htie. destruct (Z.le_gt_cases 0 e) as [He|He].
  - exfalso. revert Htie. unfold round_half_even.
    destruct (Z.leb_spec 0 e) as [_|H0]; [|lia].
    rewrite mult_IZR, bpow_IZR by lia.
    replace (IZR m * bpow e - IZR m * bpow e)%R with 0%R by ring.
    rewrite Rabs_R0. lra.
  - destruct (round_half_even_tie m e Hm He) as [_ Heven]. apply Heven.
    set (n := round_half_even m e) in *. set (d := 2 ^ (- e)) in *.
    assert (Hd : 0 < d) by (apply Z.pow_pos_nonneg; lia).
    assert (HdR : (0 < IZR d)%R) by (apply IZR_lt; exact Hd).
    assert (Hb : bpow e = (/ IZR d)%R).
    { unfold d. rewrite bpow_IZR by lia. replace e with (- (- e)) at 1 by lia.
      unfold bpow. rewrite (powerRZ_neg' 2 (- e)). reflexivity. }
    rewrite Hb in Htie.
    replace (IZR n - IZR m * / IZR d)%R with (IZR (n * d - m) * / IZR d)%R in Htie
      by (rewrite minus_IZR, mult_IZR; field; lra).
    rewrite Rabs_mult, (Rabs_pos_eq (/ IZR d)), <- abs_IZR in Htie
      by (apply Rlt_le, Rinv_0_lt_compat; exact HdR).
    apply eq_IZR. rewrite mult_IZR.
    apply (Rmult_eq_reg_r (/ IZR d)); [|apply Rgt_not_eq, Rinv_0_lt_compat; exact HdR].
    rewrite Rmult_assoc, Htie. field. lra.
Qed.

(** [round] on a float that is a number. *)
Lemma py_round_nearest (q : float) (n : Z) :
  py_round q = Return n ->
  (Rabs (IZR n - F2R q) <= 1 / 2)%R /\
  ((Rabs (IZR n - F2R q) = 1 / 2)%R -> Z.even n = true).
Proof.
  unfold py_round, F2R. destruct (Prim2SF q) as [s|s| |s m e]; try discriminate.
  - intros [= <-]. cbn [SF2R]. rewrite Rminus_diag, Rabs_R0. split; lra.
  - intros [= <-]. cbn [SF2R].
    destruct (round_half_even_error (Z.pos m) e eq_refl) as [_ Herr].
    pose proof (round_half_even_real_tie (Z.pos m) e eq_refl) as Htie.
    set (N := round_half_even (Z.pos m) e) in *.
    destruct s.
    + replace (IZR (- N) - -1 * IZR (Z.pos m) * bpow e)%R
        with (- (IZR N - IZR (Z.pos m) * bpow e))%R by (rewrite opp_IZR; ring).
      rewrite Rabs_Ropp, Z.even_opp. split; assumption.
    + replace (IZR N - 1 * IZR (Z.pos m) * bpow e)%R
        with (IZR N - IZR (Z.pos m) * bpow e)%R by ring.
      split; assumption.
Qed.

End Nearest.

(** X21. [round_step] counts the steps by rounding to nearest, ties to
    even, not half up.  Whenever it returns, its result is the float
    product of [step] and an integer [n] that is within one half of the
    quotient [value / step] computed in binary64, and [n] is even when the
    quotient is exactly half-way between two integers: 2.5 steps give 2,
    3.5 steps give 4. *)
Theorem round_step_nearest_even (value step r : float) :
  round_step value step = Return r ->
  PrimFloat.eqb step 0 = false /\
  exists (n : Z) (n' : float),
    py_round (value / step) = Return n /\
    float_of_int n = Return n' /\
    r = (n' * step)%float /\
    (Rabs (IZR n - F2R (value / step)) <= 1 / 2)%R /\
    ((Rabs (IZR n - F2R (value / step)) = 1 / 2)%R -> Z.even n = true).
Proof.
  unfold round_step, truediv, int_mul_float, rbind.
  destruct (PrimFloat.eqb step 0); [discriminate|].
  destruct (py_round (value / step)) as [n|e] eqn:Hn; [|discriminate].
  destruct (float_of_int n) as [n'|e] eqn:Hn'; [|discriminate].
  intros [= <-]. split; [reflexivity|].
  exists n, n'. destruct (Nearest.py_round_nearest _ _ Hn) as [H1 H2].
  repeat split; assumption.
Qed.

Lemma round_step_nearest_even_witness :
  round_step 2.5 1 = Return 2%float /\ round_step 3.5 1 = Return 4%float /\
  exists n, py_round (2.5 / 1) = Return n /\ (Rabs (IZR n - F2R (2.5 / 1)) <= 1 / 2)%R.
Proof.
  split; [reflexivity|]. split; [reflexivity|].
  destruct (round_step_nearest_even 2.5 1 2 eq_refl) as (_ & n & n' & H1 & _ & _ & H2 & _).
  exists n. split; assumption.
Defined.

(** * Accuracy of the order sizer *)

Module Sizer.

Import Binary64.

Lemma F2R_notional : F2R notional = 10%R.
Proof.
  unfold F2R, notional. change (Prim2SF 10) with (S754_finite false 5629499534213120 (-49)).
  cbn [SF2R]. change 5629499534213120 with (10 * 2 ^ 49).
  rewrite mult_IZR, bpow_IZR by lia.
  replace (1 * (10 * bpow 49) * bpow (-49))%R with (10 * (bpow 49 * bpow (-49)))%R by ring.
  rewrite <- bpow_add. change (bpow (49 + -49)) with 1%R. ring.
Qed.

(** A float that is a number is below 2^1024. *)
Lemma F2R_below_max (x : float) (m : positive) (e : Z) :
  Prim2SF x = S754_finite false m e -> (0 < F2R x < bpow 1024)%R.
Proof.
  intros H. split; [exact (F2R_finite_pos x m e H)|].
  destruct (valid_finite x _ _ _ H) as [Hc He].
  destruct (digits2_pos_bounds m) as [_ Hhi].
  assert (Hm : Z.pos m < 2 ^ 53).
  { eapply Z.lt_le_trans; [exact Hhi|]. apply Z.pow_le_mono_r; lia. }
  unfold F2R. rewrite H. cbn [SF2R].
  apply (IZR_lt _ (2 ^ 53)) in Hm. rewrite bpow_IZR in Hm by lia.
  pose proof (bpow_le e 971 He) as Hb. pose proof (bpow_pos e).
  replace 1024 with (53 + 971) by lia. rewrite bpow_add.
  assert (0 < IZR (Z.pos m))%R by (apply IZR_lt; lia).
  pose proof (bpow_pos 53). nra.
Qed.

(** [10 / p] for a positive number [p]: when it is a number, it is a
    positive one, within the standard error of the exact quotient. *)
Lemma notional_quotient (p : float) (mp : positive) (ep : Z) :
  Prim2SF p = S754_finite false mp ep ->
  finite (notional / p) = true ->
  (exists m e, Prim2SF (notional / p) = S754_finite false m e) /\
  (Rabs (F2R (notional / p) - 10 / F2R p)
   <= bpow (-53) * (10 / F2R p) + bpow (-1075))%R.
Proof.
  intros Hp Hf.
  destruct (div_error notional p 5629499534213120 mp (-49) ep eq_refl Hp Hf) as [Herr Hpos].
  rewrite F2R_notional in Herr. split; [|exact Herr].
  destruct (F2R_below_max p mp ep Hp) as [HP0 HP].
  destruct bpow_constants as ((Hu0 & Hu1) & Heta & H4 & _).
  assert (HX : (10 * bpow (-1024) < 10 / F2R p)%R).
  { unfold Rdiv. apply Rmult_lt_compat_l; [lra|].
    replace (bpow (-1024)) with (/ bpow 1024)%R.
    - apply Rinv_lt_contravar; [|exact HP]. pose proof (bpow_pos 1024). nra.
    - unfold bpow. rewrite <- (powerRZ_neg' 2 1024). reflexivity. }
  pose proof (bpow_le (-1075) (-1024) ltac:(lia)) as Hle.
  assert (Hhalf : (bpow (-53) <= 1 / 2)%R).
  { pose proof (bpow_le (-53) (-1) ltac:(lia)) as H.
    replace (bpow (-1)) with (1 / 2)%R in H; [exact H|].
    unfold bpow. cbn. change (Pos.to_nat 1) with 1%nat. cbn [pow]. lra. }
  pose proof (bpow_pos (-1024)) as H1024.
  unfold finite in Hf.
  change (F2R (notional / p)) with (SF2R (Prim2SF (notional / p))) in Herr, Hpos.
  destruct (Prim2SF (notional / p)) as [s|s| |s m e]; try discriminate Hf.
  - exfalso. cbn [SF2R] in Herr. apply Rabs_bounds in Herr.
    set (X := (10 / F2R p)%R) in *.
    assert (bpow (-53) * X <= X / 2)%R by nra. lra.
  - destruct s; [|exists m, e; reflexivity].
    exfalso. cbn [SF2R] in Hpos. pose proof (bpow_pos e).
    assert (0 < IZR (Z.pos m))%R by (apply IZR_lt; lia). nra.
Qed.

(** [round_step] raises on a value that is not a number. *)
Lemma round_step_not_finite (value step : float) (ms : positive) (es : Z) :
  Prim2SF step = S754_finite false ms es ->
  finite value = false ->
  exists c, round_step value step = Raise (Builtin c).
Proof.
  intros Hs Hf. unfold round_step, truediv, rbind.
  rewrite (Signs.finite_positive_nonzero step ms es Hs).
  unfold py_round. rewrite div_spec, Hs. unfold finite in Hf.
  destruct (Prim2SF value) as [s|s| |s m e]; try discriminate Hf;
    eexists; reflexivity.
Qed.

Lemma bpow_more_constants :
  bpow (-50) = (8 * bpow (-53))%R /\ bpow (-1073) = (4 * bpow (-1075))%R.
Proof.
  split.
  - replace (-50) with (3 + -53) by lia. rewrite bpow_add.
    change (bpow 3) with (2 * (2 * (2 * 1)))%R. ring.
  - replace (-1073) with (2 + -1075) by lia. rewrite bpow_add.
    change (bpow 2) with (2 * (2 * 1))%R. ring.
Qed.

(** [float(n)] is exact on a natural number below 2^53. *)
Lemma float_of_int_small (n : Z) :
  0 <= n < 2 ^ 53 -> exists x, float_of_int n = Return x /\ F2R x = IZR n.
Proof.
  intros Hn.
  assert (Hmod : n mod 2 ^ Z.max 0 (Zdigits2 n - 53) = 0).
  { pose proof (Zdigits2_le n 53 ltac:(lia) Hn).
    replace (Z.max 0 (Zdigits2 n - 53)) with 0 by lia. apply Z.mod_1_r. }
  assert (Hlt : 0 <= n < 2 ^ 1024).
  { split; [lia|]. eapply Z.lt_le_trans; [apply Hn|]. apply Z.pow_le_mono_r; lia. }
  destruct (float_of_int_total n Hlt Hmod) as (x & Hx).
  exists x. split; [exact Hx|].
  destruct (float_of_int_exact n x ltac:(lia) Hmod Hx) as [H _]. exact H.
Qed.

End Sizer.

(** X22. Accuracy of the sizing, end to end.  For a positive, finite
    entry price [p] and step [s], a quantity [q] that the sizer returns as
    a number is within half a step of the exact [10 / p], up to the
    rounding of binary64:
    [|q - 10/p| <= s/2 + 2^-53 * s + 2^-50 * (10/p) + 2^-1073]. *)
Theorem order_size_accuracy (p s q : float) :
  PrimFloat.ltb 0 p = true -> finite p = true ->
  PrimFloat.ltb 0 s = true -> finite s = true ->
  size p notional s = Return q -> finite q = true ->
  (Rabs (F2R q - 10 / F2R p)
   <= F2R s / 2 + bpow (-53) * F2R s + bpow (-50) * (10 / F2R p) + bpow (-1073))%R.
Proof.
  intros Hp Hpf Hs Hsf Hq Hqf.
  destruct (Signs.finite_positive_cases p Hp Hpf) as (mp & ep & Hp').
  destruct (Signs.finite_positive_cases s Hs Hsf) as (ms & es & Hs').
  rewrite (size_positive p s Hp) in Hq.
  destruct (finite (notional / p)) eqn:Hvf.
  2:{ destruct (Sizer.round_step_not_finite _ s ms es Hs' Hvf) as (c & Hc). congruence. }
  destruct (Sizer.notional_quotient p mp ep Hp' Hvf) as [(mv & ev & Hv) Hdiv].
  assert (Hvpos : PrimFloat.ltb 0 (notional / p) = true).
  { rewrite FloatAxioms.ltb_spec, Hv. reflexivity. }
  destruct (Binary64.round_step_accuracy (notional / p) s Hvpos Hs) as [Hraise Hok].
  destruct (finite (notional / p / s)) eqn:Hdf.
  2:{ destruct (Hraise eq_refl) as (c & Hc). congruence. }
  destruct (Hok eq_refl) as (n & n' & _ & _ & _ & Hr & Hb).
  rewrite Hr in Hq. injection Hq as <-.
  destruct (Hb Hqf) as [_ Hacc]. unfold tolerance in Hacc.
  destruct Binary64.bpow_constants as ((Hu0 & Hu1) & Heta & _ & H51).
  destruct Sizer.bpow_more_constants as [H50 H1073].
  rewrite H51 in Hacc. rewrite H50, H1073.
  destruct (Sizer.F2R_below_max p mp ep Hp') as [HP0 _].
  pose proof (Binary64.F2R_finite_pos s ms es Hs') as HS0.
  assert (HX : (0 < 10 / F2R p)%R) by (apply Rdiv_lt_0_compat; lra).
  set (X := (10 / F2R p)%R) in *. set (V := F2R (notional / p)) in *.
  set (Q := F2R (n' * s)) in *. set (S := F2R s) in *.
  set (u := bpow (-53)) in *. set (eta := bpow (-1075)) in *.
  apply Binary64.Rabs_bounds in Hdiv. apply Binary64.Rabs_bounds in Hacc.
  assert (Hu4 : (4 * u <= 1)%R).
  { pose proof (Binary64.bpow_le (-53) (-2) ltac:(lia)) as H. fold u in H.
    replace (bpow (-2)) with (1 / 4)%R in H; [lra|].
    unfold bpow. cbn. change (Pos.to_nat 2) with 2%nat. cbn [pow]. lra. }
  assert (HuX : (0 <= u * X)%R) by nra.
  assert (A1 : (u * V <= u * X + u * (u * X) + u * eta)%R) by nra.
  assert (A2 : (4 * (u * (u * X)) <= u * X)%R) by nra.
  assert (A3 : (4 * (u * eta) <= eta)%R) by nra.
  apply Rabs_le. split; lra.
Qed.

Lemma order_size_accuracy_witness :
  size 3 notional 0.001 = Return 3.333%float /\
  (Rabs (F2R 3.333 - 10 / F2R 3)
   <= F2R 0.001 / 2 + bpow (-53) * F2R 0.001 + bpow (-50) * (10 / F2R 3) + bpow (-1073))%R.
Proof.
  split; [reflexivity|].
  exact (order_size_accuracy 3 0.001 3.333 eq_refl eq_refl eq_refl eq_refl eq_refl eq_refl).
Defined.

(** X23. A price given as a JSON integer converts exactly, up to 2^53:
    for a field holding the integer [n] with [0 <= n < 2^53], the
    conversion [float(data.get(key))] does not raise and gives the float
    whose value is [n]. *)
Theorem integer_price_exact {RT : PyRuntime} (items : list (string * pyval))
    (key : string) (n : Z) :
  lookup items key = Some (PInt n) -> 0 <= n < 2 ^ 53 ->
  exists x, field_float (PDict items) key = Return x /\ F2R x = IZR n.
Proof.
  intros Hl Hn. unfold field_float, py_get, rbind. rewrite Hl. cbn [py_float].
  apply Sizer.float_of_int_small. exact Hn.
Qed.

Lemma integer_price_exact_witness :
  exists x,
    @field_float demo_runtime
      (PDict [("symbol", PStr "BTCUSDT"); ("entry", PInt 67250)]) "entry" = Return x /\
    F2R x = 67250%R.
Proof.
  apply (@integer_price_exact demo_runtime
           [("symbol", PStr "BTCUSDT"); ("entry", PInt 67250)] "entry" 67250 eq_refl).
  lia.
Defined.
